(** * Santa workshop scheduling: the MIP formulation and the result pipeline

    A shallow embedding of [family.py], [workshop.py], [solver_engine.py]
    and [solution_manager.py], followed by the properties of the
    formulation (sparse variable space, objective, semicontinuous capacity
    constraints) and of the orchestration (verdict handling, extraction,
    application of results to the entities). *)

From Stdlib Require Import ZArith List Bool Lia QArith String.
Import ListNotations.
Open Scope Z_scope.

(* ===================================================================== *)
(** ** Python runtime: exceptions and insertion-ordered dictionaries      *)
(* ===================================================================== *)

(** The exceptions (all subclasses of [Exception]) that the modelled code
    or the solver behind it can raise. *)
Inductive exn : Type :=
| KeyError
| ValueError
| AttributeError
| RuntimeError
| ApplicationError.

(** The result of running a Python expression or call. *)
Inductive outcome (A : Type) : Type :=
| Returned (a : A)
| Raised (e : exn).
Arguments Returned {A} a.
Arguments Raised {A} e.

(** A Python [dict] with integer keys: an association list with unique
    keys, kept in insertion order (the order [keys], [values] and [items]
    iterate in). *)
Module PyDict.
Section Dict.
Context {V : Type}.

Definition t : Type := list (Z * V).

(** [d[k]], [None] standing for the [KeyError]. *)
Fixpoint get (k : Z) (d : t) : option V :=
  match d with
  | [] => None
  | (k', v) :: r => if k' =? k then Some v else get k r
  end.

(** [d[k] = v]: an existing key keeps its position, a new key goes last. *)
Fixpoint set (k : Z) (v : V) (d : t) : t :=
  match d with
  | [] => [(k, v)]
  | (k', v') :: r => if k' =? k then (k', v) :: r else (k', v') :: set k v r
  end.

Definition keys (d : t) : list Z := map fst d.
Definition values (d : t) : list V := map snd d.
Definition items (d : t) : list (Z * V) := d.
End Dict.
Arguments t V : clear implicits.
End PyDict.

(* ===================================================================== *)
(** ** Entity model: family.py and workshop.py                            *)
(* ===================================================================== *)

Record Family : Type := mkFamily {
  id : Z;
  n_members : Z;
  preferences : list Z;
  assigned_day : Z          (* -1 implies 'Unassigned' *)
}.

(** [Family.__init__] *)
Definition Family_init (family_id n : Z) (prefs : list Z) : Family :=
  mkFamily family_id n prefs (-1).

(** [Family.assign_to] *)
Definition assign_to (self : Family) (day : Z) : Family :=
  mkFamily (id self) (n_members self) (preferences self) day.

Definition MAX_CAPACITY : Z := 300.
Definition MIN_CAPACITY : Z := 100.

(** [assigned_families] holds references to [Family] objects that are
    shared with the manager's repository, where every key owns one object:
    a reference is modelled as that key. *)
Record WorkshopDay : Type := mkWorkshopDay {
  day_id : Z;
  assigned_families : list Z;
  current_occupancy : Z
}.

(** [WorkshopDay.__init__] *)
Definition WorkshopDay_init (d : Z) : WorkshopDay := mkWorkshopDay d [] 0.

(** [WorkshopDay.add_family]; [ref] is the reference to [family]. *)
Definition add_family (self : WorkshopDay) (ref : Z) (family : Family)
  : WorkshopDay :=
  mkWorkshopDay (day_id self)
                (assigned_families self ++ [ref])
                (current_occupancy self + n_members family).

(* ===================================================================== *)
(** ** Linear expressions and constraints as the rules build them         *)
(* ===================================================================== *)

(** [var_x fam_id day] is [m.x[fam_id, day]], [var_z day] is [m.z[day]]. *)
Inductive var : Type :=
| var_x (fam_id day : Z)
| var_z (day : Z).

Inductive expr : Type :=
| Num (c : Z)
| Var (v : var)
| Add (a b : expr)
| Mul (a b : expr).

(** A relational expression returned by a constraint rule. *)
Inductive constraint : Type :=
| Le (a b : expr)      (* a <= b *)
| Ge (a b : expr).     (* a >= b *)

(** What a rule may return: a relational expression, a Python boolean (the
    comparison of two plain numbers) or [pyo.Constraint.Skip]. *)
Inductive rule_result : Type :=
| Expression (c : constraint)
| Trivial (b : bool)
| Skip.

(** The operators [<=] and [>=] of Python: between two integers they yield
    a boolean, with a Pyomo operand they build a relational expression. *)
Definition py_compare (c : constraint) : rule_result :=
  match c with
  | Le (Num a) (Num b) => Trivial (a <=? b)
  | Ge (Num a) (Num b) => Trivial (a >=? b)
  | _ => Expression c
  end.

(** Python's [sum(...)] over expressions: starts from [0], adds in order. *)
Definition py_sum (terms : list expr) : expr := fold_left Add terms (Num 0).

Definition valuation : Type := var -> Z.

Fixpoint eval (v : valuation) (e : expr) : Z :=
  match e with
  | Num c => c
  | Var y => v y
  | Add a b => eval v a + eval v b
  | Mul a b => eval v a * eval v b
  end.

Definition sat (v : valuation) (c : constraint) : bool :=
  match c with
  | Le a b => eval v a <=? eval v b
  | Ge a b => eval v a >=? eval v b
  end.

(** An indexed constraint component: one entry per index whose rule did not
    skip. *)
Definition component : Type := list (Z * constraint).

Definition sat_component (v : valuation) (c : component) : bool :=
  forallb (fun ic => sat v (snd ic)) c.

Definition is_binary (n : Z) : bool := (n =? 0) || (n =? 1).

(* ===================================================================== *)
(** ** Problem builder: solver_engine.py, sections 1 to 4                 *)
(* ===================================================================== *)

(** Happiness score per preference rank (rank 0 = top choice). *)
Definition HAPPINESS_POINTS : list (nat * Z) :=
  [(0%nat, 100); (1%nat, 90); (2%nat, 85); (3%nat, 80); (4%nat, 75);
   (5%nat, 70); (6%nat, 60); (7%nat, 50); (8%nat, 40); (9%nat, 30)].

(** [HAPPINESS_POINTS[rank]], [None] standing for the [KeyError]. *)
Definition points (rank : nat) : option Z :=
  option_map snd (find (fun kv => Nat.eqb (fst kv) rank) HAPPINESS_POINTS).

(** The nested loop that fills [valid_assignments]. *)
Definition valid_assignments (families : list Family) : list (Z * Z) :=
  flat_map (fun fam => map (fun day => (id fam, day)) (preferences fam))
           families.

(** [pyo.Set(initialize=l)]: every element once, in first-insertion order. *)
Fixpoint pyo_Set {A : Type} (eqb : A -> A -> bool) (l : list A) : list A :=
  match l with
  | [] => []
  | a :: r => a :: filter (fun b => negb (eqb a b)) (pyo_Set eqb r)
  end.

Definition pair_eqb (p q : Z * Z) : bool :=
  (fst p =? fst q) && (snd p =? snd q).

Inductive domain : Type := Binary | Reals | Integers.

(** [pyo.Var(index, domain=...)]: the value of a variable is [None] until a
    solution is loaded. *)
Record VarComponent (K : Type) : Type := mkVar {
  index_set : list K;
  var_domain : domain;
  value : K -> option Q
}.
Arguments mkVar {K}.
Arguments index_set {K}.
Arguments var_domain {K}.
Arguments value {K}.

(** [objective_rule]: the inner loop over [enumerate(f.preferences)] ... *)
Fixpoint objective_prefs (fam_id : Z) (prefs : list Z) (rank : nat)
         (total_happiness : expr) : outcome expr :=
  match prefs with
  | [] => Returned total_happiness
  | day :: rest =>
      match points rank with
      | None => Raised KeyError
      | Some p =>
          objective_prefs fam_id rest (S rank)
            (Add total_happiness (Mul (Var (var_x fam_id day)) (Num p)))
      end
  end.

(** ... and the outer loop over the families. *)
Fixpoint objective_families (families : list Family) (total_happiness : expr)
  : outcome expr :=
  match families with
  | [] => Returned total_happiness
  | f :: rest =>
      match objective_prefs (id f) (preferences f) 0 total_happiness with
      | Raised e => Raised e
      | Returned t => objective_families rest t
      end
  end.

Definition objective_rule (families : list Family) : outcome expr :=
  objective_families families (Num 0).

(** [one_day_rule]: [next(..., None)] is the first family carrying the
    identifier; reading [.preferences] of [None] raises.  (A rule indexes
    [m.x] only at pairs of [valid_assignments], so that lookup cannot
    fail.) *)
Definition one_day_rule (families : list Family) (fam_id : Z)
  : outcome rule_result :=
  match find (fun f => id f =? fam_id) families with
  | None => Raised AttributeError
  | Some current_fam =>
      Returned (py_compare
        (Le (py_sum (map (fun d => Var (var_x fam_id d))
                         (preferences current_fam)))
            (Num 1)))
  end.

(** [{d: [] for d in days_range}] *)
Definition empty_demand (days_range : list Z) : PyDict.t (list Family) :=
  fold_left (fun m d => PyDict.set d [] m) days_range [].

(** [day_demand_map[d].append(f)] for every [d] of [f.preferences] *)
Fixpoint demand_prefs (f : Family) (prefs : list Z)
         (m : PyDict.t (list Family)) : outcome (PyDict.t (list Family)) :=
  match prefs with
  | [] => Returned m
  | d :: rest =>
      match PyDict.get d m with
      | None => Raised KeyError
      | Some l => demand_prefs f rest (PyDict.set d (l ++ [f]) m)
      end
  end.

Fixpoint demand_families (families : list Family)
         (m : PyDict.t (list Family)) : outcome (PyDict.t (list Family)) :=
  match families with
  | [] => Returned m
  | f :: rest =>
      match demand_prefs f (preferences f) m with
      | Raised e => Raised e
      | Returned m' => demand_families rest m'
      end
  end.

Definition day_demand_map (families : list Family) (days_range : list Z)
  : outcome (PyDict.t (list Family)) :=
  demand_families families (empty_demand days_range).

(** [sum(m.x[f.id, d] * f.n_members for f in day_demand_map[d])] *)
Definition occupancy_expr (d : Z) (demand : list Family) : expr :=
  py_sum (map (fun f => Mul (Var (var_x (id f) d)) (Num (n_members f)))
              demand).

Definition min_opening_rule (day_demand_map : PyDict.t (list Family)) (d : Z)
  : outcome rule_result :=
  match PyDict.get d day_demand_map with
  | None => Raised KeyError
  | Some [] =>
      (* If no one requests this day, force it closed (z=0) *)
      Returned (py_compare (Ge (Num 0) (Mul (Num 100) (Var (var_z d)))))
  | Some demand =>
      Returned (py_compare (Ge (occupancy_expr d demand)
                               (Mul (Num 100) (Var (var_z d)))))
  end.

Definition max_opening_rule (day_demand_map : PyDict.t (list Family)) (d : Z)
  : outcome rule_result :=
  match PyDict.get d day_demand_map with
  | None => Raised KeyError
  | Some [] => Returned Skip
  | Some demand =>
      Returned (py_compare (Le (occupancy_expr d demand)
                               (Mul (Num 300) (Var (var_z d)))))
  end.

(** [pyo.Constraint(index, rule=rule)]: the rule is called on every index
    in order; a skipped index gets no entry, and a rule that returns a
    Python boolean is rejected with a [ValueError]. *)
Fixpoint pyo_Constraint (index : list Z) (rule : Z -> outcome rule_result)
  : outcome component :=
  match index with
  | [] => Returned []
  | i :: rest =>
      match rule i with
      | Raised e => Raised e
      | Returned (Trivial _) => Raised ValueError
      | Returned r =>
          match pyo_Constraint rest rule with
          | Raised e => Raised e
          | Returned c =>
              Returned (match r with
                        | Expression e => (i, e) :: c
                        | _ => c
                        end)
          end
      end
  end.

(** [pyo.ConcreteModel]: the components are attached one after the other, so
    the later ones are absent from a model whose construction raised. *)
Inductive sense : Type := minimize | maximize.

Record ConcreteModel : Type := mkModel {
  Assignments : list (Z * Z);
  Days : list Z;
  Families : list Z;
  x : VarComponent (Z * Z);
  z : VarComponent Z;
  Obj : option (expr * sense);
  OneDay : option component;
  MinOpen : option component;
  MaxOpen : option component
}.

Definition with_Obj (m : ConcreteModel) (e : expr) : ConcreteModel :=
  mkModel (Assignments m) (Days m) (Families m) (x m) (z m)
          (Some (e, maximize)) (OneDay m) (MinOpen m) (MaxOpen m).
Definition with_OneDay (m : ConcreteModel) (c : component) : ConcreteModel :=
  mkModel (Assignments m) (Days m) (Families m) (x m) (z m)
          (Obj m) (Some c) (MinOpen m) (MaxOpen m).
Definition with_MinOpen (m : ConcreteModel) (c : component) : ConcreteModel :=
  mkModel (Assignments m) (Days m) (Families m) (x m) (z m)
          (Obj m) (OneDay m) (Some c) (MaxOpen m).
Definition with_MaxOpen (m : ConcreteModel) (c : component) : ConcreteModel :=
  mkModel (Assignments m) (Days m) (Families m) (x m) (z m)
          (Obj m) (OneDay m) (MinOpen m) (Some c).

(** Sections 1 and 2 of [solve]: the sets and the variables. *)
Definition sets_and_variables (families : list Family) (days_range : list Z)
  : ConcreteModel :=
  let assignments := pyo_Set pair_eqb (valid_assignments families) in
  let days := pyo_Set Z.eqb days_range in
  mkModel assignments days (pyo_Set Z.eqb (map id families))
          (mkVar assignments Binary (fun _ => None))
          (mkVar days Binary (fun _ => None))
          None None None None.

(** Sections 1 to 4 of [solve]: the model reached, and the exception that
    interrupted its construction, if any. *)
Definition formulate (families : list Family) (days_range : list Z)
  : ConcreteModel * option exn :=
  let m0 := sets_and_variables families days_range in
  match objective_rule families with
  | Raised e => (m0, Some e)
  | Returned obj =>
  let m1 := with_Obj m0 obj in
  match pyo_Constraint (Families m1) (one_day_rule families) with
  | Raised e => (m1, Some e)
  | Returned c1 =>
  let m2 := with_OneDay m1 c1 in
  match day_demand_map families days_range with
  | Raised e => (m2, Some e)
  | Returned demand =>
  match pyo_Constraint (Days m2) (min_opening_rule demand) with
  | Raised e => (m2, Some e)
  | Returned c2 =>
  let m3 := with_MinOpen m2 c2 in
  match pyo_Constraint (Days m3) (max_opening_rule demand) with
  | Raised e => (m3, Some e)
  | Returned c3 => (with_MaxOpen m3 c3, None)
  end end end end end.

(* ===================================================================== *)
(** ** Solver adapter and result extractor: solver_engine.py              *)
(* ===================================================================== *)

(** [pyomo.opt.TerminationCondition] *)
Inductive TerminationCondition : Type :=
| unknown | maxTimeLimit | maxIterations | minFunctionValue | minStepLength
| globallyOptimal | locallyOptimal | feasible | optimal | maxEvaluations
| other | unbounded | infeasible | infeasibleOrUnbounded | invalidProblem
| intermediateNonInteger | noSolution | solverFailure | internalSolverError
| error | userInterrupt | resourceInterrupt | licensingProblems.

(** [results.solver.termination_condition] *)
Record SolverResults : Type := mkResults {
  termination_condition : TerminationCondition
}.

(** [SolverFactory(name)] with its [options] dictionary. *)
Record Optimizer : Type := mkOptimizer {
  solver_name : string;
  seconds : Z;
  ratio : Q
}.

(** What one call of [optimizer.solve(model)] does: it raises, or it returns
    the results object and the values it loaded into [x] and [z]. *)
Definition oracle : Type :=
  Optimizer -> ConcreteModel ->
  outcome (SolverResults * ((Z * Z -> option Q) * (Z -> option Q))).

Record SantaSolver : Type := mkSolver {
  model : option ConcreteModel;
  results : option SolverResults
}.

(** [SantaSolver.__init__] *)
Definition SantaSolver_init : SantaSolver := mkSolver None None.

(** [status in [optimal, feasible, maxTimeLimit]] *)
Definition accepted (status : TerminationCondition) : bool :=
  match status with
  | optimal | feasible | maxTimeLimit => true
  | _ => false
  end.

Definition load_values (m : ConcreteModel)
           (xv : Z * Z -> option Q) (zv : Z -> option Q) : ConcreteModel :=
  mkModel (Assignments m) (Days m) (Families m)
          (mkVar (index_set (x m)) (var_domain (x m)) xv)
          (mkVar (index_set (z m)) (var_domain (z m)) zv)
          (Obj m) (OneDay m) (MinOpen m) (MaxOpen m).

(** The loop of [get_raw_assignments]; [pyo.value] of a variable without a
    value raises [ValueError]. *)
Fixpoint raw_loop (pairs : list (Z * Z)) (val : Z * Z -> option Q)
         (assignments : PyDict.t Z) : outcome (PyDict.t Z) :=
  match pairs with
  | [] => Returned assignments
  | (fam_id, day) :: rest =>
      match val (fam_id, day) with
      | None => Raised ValueError
      | Some q =>
          if negb (Qle_bool q (1 # 2))           (* value > 0.5 *)
          then raw_loop rest val (PyDict.set fam_id day assignments)
          else raw_loop rest val assignments
      end
  end.

(** Returns dictionary {fam_id: assigned_day}. *)
Definition get_raw_assignments (self : SantaSolver) : outcome (PyDict.t Z) :=
  match model self with
  | None => Returned []
  | Some m => raw_loop (Assignments m) (value (x m)) []
  end.

(* ===================================================================== *)
(** ** Orchestrator: solution_manager.py                                  *)
(* ===================================================================== *)

Record SolutionManager : Type := mkManager {
  families : PyDict.t Family;
  days : PyDict.t WorkshopDay;
  solver_engine : SantaSolver
}.

(** What the program prints, and the calls it makes to the solver. *)
Inductive message : Type :=
| MsgBuildingModel
| MsgRunningCBC
| MsgFinalStatus (status : TerminationCondition)
| MsgSolverFailed (e : exn)
| MsgStartingModelA
| MsgNoFeasibleSolution
| MsgOptimizationCompleted
| MsgFamiliesAssigned (n : Z)
| MsgFamiliesWithoutSlot (n : Z)
| MsgNote (n : Z)
| MsgCapacityReport (min_occ max_occ : Z) (avg_occ : Q)
                    (empty_days days_below_100 days_over_300 : Z).

Inductive event : Type :=
| Print (m : message)
| Submit (o : Optimizer) (m : ConcreteModel).

Record world : Type := mkWorld {
  self : SolutionManager;
  trace : list event
}.

(** State and exceptions: a raised exception leaves the state as it was
    when it was raised. *)
Definition M (A : Type) : Type := world -> outcome A * world.

Definition ret {A : Type} (a : A) : M A := fun w => (Returned a, w).

Definition bind {A B : Type} (c : M A) (k : A -> M B) : M B :=
  fun w => match c w with
           | (Returned a, w') => k a w'
           | (Raised e, w') => (Raised e, w')
           end.

Definition raise {A : Type} (e : exn) : M A := fun w => (Raised e, w).

Notation "c1 ;; c2" := (bind c1 (fun _ => c2))
  (at level 61, right associativity).
Notation "a <- c1 ;; c2" := (bind c1 (fun a => c2))
  (at level 61, c1 at next level, right associativity).

Definition get_self : M SolutionManager := fun w => (Returned (self w), w).

Definition put_self (s : SolutionManager) : M unit :=
  fun w => (Returned tt, mkWorld s (trace w)).

Definition emit (e : event) : M unit :=
  fun w => (Returned tt, mkWorld (self w) (trace w ++ [e])).

Definition lift {A : Type} (o : outcome A) : M A := fun w => (o, w).

Definition put_engine (e : SantaSolver) : M unit :=
  s <- get_self ;; put_self (mkManager (families s) (days s) e).

Definition put_families (f : PyDict.t Family) : M unit :=
  s <- get_self ;; put_self (mkManager f (days s) (solver_engine s)).

Definition put_days (d : PyDict.t WorkshopDay) : M unit :=
  s <- get_self ;; put_self (mkManager (families s) d (solver_engine s)).

Section Pipeline.

(** The external MILP solver. *)
Variable optimizer_solve : oracle.

Definition cbc : Optimizer := mkOptimizer "cbc" 450 (1 # 100).

(** [SantaSolver.solve], on the engine owned by the manager. *)
Definition SantaSolver_solve (fams : list Family) (days_range : list Z)
  : M bool :=
  emit (Print MsgBuildingModel) ;;
  s <- get_self ;;
  let (m, interrupted) := formulate fams days_range in
  put_engine (mkSolver (Some m) (results (solver_engine s))) ;;
  match interrupted with
  | Some e => raise e
  | None =>
      emit (Print MsgRunningCBC) ;;
      emit (Submit cbc m) ;;
      match optimizer_solve cbc m with
      | Returned (res, (xv, zv)) =>
          put_engine (mkSolver (Some (load_values m xv zv)) (Some res)) ;;
          let status := termination_condition res in
          emit (Print (MsgFinalStatus status)) ;;
          ret (accepted status)
      | Raised e =>
          emit (Print (MsgSolverFailed e)) ;;
          ret false
      end
  end.

(** [for fam in self.families.values(): fam.assigned_day = -1] *)
Definition reset_families (f : PyDict.t Family) : PyDict.t Family :=
  map (fun kv => (fst kv, assign_to (snd kv) (-1))) f.

(** The loop over [raw_assignments.items()], returning [assigned_count]. *)
Fixpoint apply_loop (items : list (Z * Z)) (assigned_count : Z) : M Z :=
  match items with
  | [] => ret assigned_count
  | (fam_id, day) :: rest =>
      s <- get_self ;;
      (* if fam_id in self.families: fam = self.families[fam_id] *)
      match PyDict.get fam_id (families s) with
      | Some fam =>
          put_families (PyDict.set fam_id (assign_to fam day) (families s)) ;;
          match PyDict.get day (days s) with
          | None => raise KeyError
          | Some wd =>
              put_days (PyDict.set day (add_family wd fam_id fam) (days s)) ;;
              apply_loop rest (assigned_count + 1)
          end
      | None => apply_loop rest assigned_count
      end
  end.

Definition _apply_results : M unit :=
  s <- get_self ;;
  raw_assignments <- lift (get_raw_assignments (solver_engine s)) ;;
  put_families (reset_families (families s)) ;;
  assigned_count <- apply_loop (PyDict.items raw_assignments) 0 ;;
  s <- get_self ;;
  let unassigned_count :=
    Z.of_nat (List.length (families s)) - assigned_count in
  emit (Print MsgOptimizationCompleted) ;;
  emit (Print (MsgFamiliesAssigned assigned_count)) ;;
  emit (Print (MsgFamiliesWithoutSlot unassigned_count)) ;;
  if unassigned_count >? 0
  then emit (Print (MsgNote unassigned_count))
  else ret tt.

Definition count_if (p : Z -> bool) (l : list Z) : Z :=
  Z.of_nat (List.length (filter p l)).

(** [print_occupancy_stats]; [min] and [max] of an empty list raise. *)
Definition print_occupancy_stats : M unit :=
  s <- get_self ;;
  let occupancies := map current_occupancy (PyDict.values (days s)) in
  match occupancies with
  | [] => raise ValueError
  | o :: os =>
      emit (Print (MsgCapacityReport
        (fold_left Z.min os o)
        (fold_left Z.max os o)
        (Qdiv (inject_Z (fold_left Z.add occupancies 0))
              (inject_Z (Z.of_nat (List.length occupancies))))
        (count_if (fun n => n =? 0) occupancies)
        (count_if (fun n => (0 <? n) && (n <? 100)) occupancies)
        (count_if (fun n => n >? 300) occupancies)))
  end.

(** [SolutionManager.solve] *)
Definition solve : M unit :=
  emit (Print MsgStartingModelA) ;;
  s <- get_self ;;
  success <- SantaSolver_solve (PyDict.values (families s))
                               (PyDict.keys (days s)) ;;
  if success
  then _apply_results ;; print_occupancy_stats
  else emit (Print MsgNoFeasibleSolution).

End Pipeline.

(** [SolutionManager.__init__] followed by what [load_data] stores for the
    given rows [(familyID, nrMembers, [day0 .. day9])]. *)
Definition load_rows (rows : list (Z * Z * list Z)) : SolutionManager :=
  mkManager
    (fold_left (fun f row =>
                  match row with
                  | (fam_id, n, prefs) =>
                      PyDict.set fam_id (Family_init fam_id n prefs) f
                  end) rows [])
    (fold_left (fun ds d => PyDict.set d (WorkshopDay_init d) ds)
               (map Z.of_nat (seq 1 100)) [])
    SantaSolver_init.

(* ===================================================================== *)
(** ** Vocabulary of the properties                                       *)
(* ===================================================================== *)

(** A valuation gives every variable of the model a value of its binary
    domain. *)
Definition binary_on (v : valuation) (m : ConcreteModel) : Prop :=
  (forall fam_id day, In (fam_id, day) (index_set (x m)) ->
                      is_binary (v (var_x fam_id day)) = true) /\
  (forall day, In day (index_set (z m)) -> is_binary (v (var_z day)) = true).

(** A valuation satisfies a constraint component of the model. *)
Definition satisfies (v : valuation) (c : option component) : bool :=
  match c with
  | Some c => sat_component v c
  | None => true
  end.

Definition lists (f : Family) (d : Z) : bool :=
  existsb (Z.eqb d) (preferences f).

(** The occupancy of a day under a valuation: the sum of [n_members] over
    the families whose [x] variable for that day equals 1. *)
Definition occupancy (v : valuation) (fams : list Family) (d : Z) : Z :=
  fold_right Z.add 0
    (map n_members
         (filter (fun f => lists f d && (v (var_x (id f) d) =? 1)) fams)).

(** The score table, rank by rank. *)
Definition score_table (rank : nat) : Z :=
  match rank with
  | 0%nat => 100 | 1%nat => 90 | 2%nat => 85 | 3%nat => 80 | 4%nat => 75
  | 5%nat => 70 | 6%nat => 60 | 7%nat => 50 | 8%nat => 40 | 9%nat => 30
  | _ => 0
  end.

(** The contribution of one family: over the ranks 0 to 9, the variable of
    the day at that rank times the score of the rank. *)
Definition family_score (v : valuation) (f : Family) : Z :=
  fold_right Z.add 0
    (map (fun rank =>
            v (var_x (id f) (nth rank (preferences f) 0)) * score_table rank)
         (seq 0 10)).

Definition total_score (v : valuation) (fams : list Family) : Z :=
  fold_right Z.add 0 (map (family_score v) fams).

(** [value > 0.5] *)
Definition exceeds_half (q : option Q) : bool :=
  match q with
  | Some q => negb (Qle_bool q (1 # 2))
  | None => false
  end.

(** The variable of the pair has a solved value above 0.5. *)
Definition selected (m : ConcreteModel) (fam_id day : Z) : Prop :=
  In (fam_id, day) (Assignments m) /\
  exceeds_half (value (x m) (fam_id, day)) = true.

(** The day of the last pair of the family, in iteration order, whose
    variable is selected. *)
Definition last_selected (m : ConcreteModel) (fam_id : Z) : option Z :=
  option_map snd
    (find (fun p => (fst p =? fam_id) && exceeds_half (value (x m) p))
          (rev (Assignments m))).

(** The calls made to the solver, as recorded in a trace. *)
Definition submissions (t : list event) : list (Optimizer * ConcreteModel) :=
  flat_map (fun e => match e with
                     | Submit o m => [(o, m)]
                     | Print _ => []
                     end) t.

(** The families that request a day, once per occurrence of the day in
    their preference list, in the order of the families. *)
Definition demand_of (fams : list Family) (d : Z) : list Family :=
  flat_map (fun f => map (fun _ => f) (filter (Z.eqb d) (preferences f))) fams.

(** [binary_on], as a check. *)
Definition binary_onb (v : valuation) (m : ConcreteModel) : bool :=
  forallb (fun p => is_binary (v (var_x (fst p) (snd p)))) (index_set (x m))
  && forallb (fun d => is_binary (v (var_z d))) (index_set (z m)).

(* ===================================================================== *)
(** ** A small instance: two families of 150 with the same first choice   *)
(* ===================================================================== *)

Module Scenario.

Definition manager : SolutionManager :=
  load_rows [(1, 150, [5; 6; 7; 8; 9; 10; 11; 12; 13; 14]);
             (2, 150, [5; 15; 16; 17; 18; 19; 20; 21; 22; 23])].

Definition fams : list Family := PyDict.values (families manager).
Definition days_range : list Z := PyDict.keys (days manager).
Definition built : ConcreteModel := fst (formulate fams days_range).

(** Both families on day 5, which is the only open day. *)
Definition both_on_5 : valuation :=
  fun y => match y with
           | var_x _ d => if d =? 5 then 1 else 0
           | var_z d => if d =? 5 then 1 else 0
           end.

(** A solver that finds that solution and proves it optimal ... *)
Definition optimal_oracle : oracle :=
  fun _ _ =>
    Returned (mkResults optimal,
              (fun p => Some (if snd p =? 5 then 1%Q else 0%Q),
               fun d => Some (if d =? 5 then 1%Q else 0%Q))).

(** ... one that stops on the time limit with the same solution ... *)
Definition time_limited_oracle : oracle :=
  fun _ _ =>
    Returned (mkResults maxTimeLimit,
              (fun p => Some (if snd p =? 5 then 1%Q else 0%Q),
               fun d => Some (if d =? 5 then 1%Q else 0%Q))).

(** ... one that reports infeasibility, and one that crashes. *)
Definition infeasible_oracle : oracle :=
  fun _ _ => Returned (mkResults infeasible, (fun _ => None, fun _ => None)).

Definition crashing_oracle : oracle := fun _ _ => Raised ApplicationError.

(** Solved values that select two days, 5 and 6, for family 1. *)
Definition two_days_for_1 : ConcreteModel :=
  load_values built
    (fun p => Some (if (fst p =? 1) && ((snd p =? 5) || (snd p =? 6))
                    then 1%Q else 0%Q))
    (fun d => Some (if (d =? 5) || (d =? 6) then 1%Q else 0%Q)).

End Scenario.

(* ===================================================================== *)
(** ** Loading the data and writing the submission: solution_manager.py   *)
(* ===================================================================== *)

(** One row of the input table as [load_data] reads it: [row['familyID']],
    [int(row['nrMembers'])] and [int(row['day0'])] to [int(row['day9'])]. *)
Record Row : Type := mkRow {
  familyID : Z;
  nrMembers : Z;
  day_column : nat -> Z
}.

(** What [load_data] and [generate_submission] print. *)
Inductive io_message : Type :=
| MsgLoadingData
| MsgFamiliesLoaded (n : Z)
| MsgSavingResults
| MsgNoInputData
| MsgSubmissionSaved
| MsgFormat.

(** The manager with its [input_data] attribute, which only [load_data] and
    [generate_submission] touch. *)
Record Loaded : Type := mkLoaded {
  core : SolutionManager;
  input_data : option (list Row)
}.

(** [SolutionManager.__init__] *)
Definition SolutionManager_init : Loaded :=
  mkLoaded (mkManager [] [] SantaSolver_init) None.

(** [[int(row[f'day{i}']) for i in range(10)]] *)
Definition row_preferences (row : Row) : list Z :=
  map (day_column row) (seq 0 10).

(** The loop of [load_data] over the rows. *)
Definition load_families (rows : list Row) (f : PyDict.t Family)
  : PyDict.t Family :=
  fold_left (fun f row =>
               PyDict.set (familyID row)
                          (Family_init (familyID row) (nrMembers row)
                                       (row_preferences row)) f)
            rows f.

(** [for d in range(1, 101): self.days[d] = WorkshopDay(d)] *)
Definition load_days (ds : PyDict.t WorkshopDay) : PyDict.t WorkshopDay :=
  fold_left (fun ds d => PyDict.set d (WorkshopDay_init d) ds)
            (map Z.of_nat (seq 1 100)) ds.

(** [SolutionManager.load_data], on the parsed rows. *)
Definition load_data (rows : list Row) (mgr : Loaded)
  : Loaded * list io_message :=
  let s := core mgr in
  let fams := load_families rows (families s) in
  (mkLoaded (mkManager fams (load_days (days s)) (solver_engine s))
            (Some rows),
   [MsgLoadingData; MsgFamiliesLoaded (Z.of_nat (List.length fams))]).

(** A cell of the [solution] column: ['x'], a day, or the NaN that
    [Series.map] leaves for an identifier missing from the mapping. *)
Inductive solution_cell : Type :=
| cell_x
| cell_day (d : Z)
| cell_nan.

(** [{fam_id: fam.assigned_day for fam_id, fam in self.families.items()}] *)
Definition solution_map (f : PyDict.t Family) : PyDict.t Z :=
  map (fun kv => (fst kv, assigned_day (snd kv))) f.

(** [.map(solution_map)] followed by [lambda x: 'x' if x == -1 else x] *)
Definition solution_of (smap : PyDict.t Z) (row : Row) : solution_cell :=
  match PyDict.get (familyID row) smap with
  | None => cell_nan
  | Some d => if d =? -1 then cell_x else cell_day d
  end.

(** [SolutionManager.generate_submission]: the table handed to [to_csv], one
    line per input row with its solution, or nothing without input data. *)
Definition generate_submission (mgr : Loaded)
  : option (list (Row * solution_cell)) * list io_message :=
  match input_data mgr with
  | None => (None, [MsgSavingResults; MsgNoInputData])
  | Some rows =>
      let smap := solution_map (families (core mgr)) in
      (Some (map (fun row => (row, solution_of smap row)) rows),
       [MsgSavingResults; MsgSubmissionSaved; MsgFormat])
  end.

(* ===================================================================== *)
(** ** Vocabulary of the further properties                               *)
(* ===================================================================== *)

(** The total size of the families behind a list of references. *)
Definition members_size (f : PyDict.t Family) (refs : list Z) : Z :=
  fold_right Z.add 0
    (map (fun r => match PyDict.get r f with
                   | Some fam => n_members fam
                   | None => 0
                   end) refs).

(** Every workshop day carries the total size of its members. *)
Definition occupancy_consistent (s : SolutionManager) : Prop :=
  forall d wd, PyDict.get d (days s) = Some wd ->
               current_occupancy wd
               = members_size (families s) (assigned_families wd).

(** The contribution of a family with any number of ranked days. *)
Definition family_score_ranked (v : valuation) (f : Family) : Z :=
  fold_right Z.add 0
    (map (fun rank =>
            v (var_x (id f) (nth rank (preferences f) 0)) * score_table rank)
         (seq 0 (List.length (preferences f)))).

(** Two states of one [Family] object: only [assigned_day] may differ. *)
Definition same_family (f f' : Family) : Prop :=
  id f' = id f /\ n_members f' = n_members f /\
  preferences f' = preferences f.

(** The repository holds the same families under the same keys, in the same
    order. *)
Definition families_frame (F F' : PyDict.t Family) : Prop :=
  PyDict.keys F' = PyDict.keys F /\
  forall k, match PyDict.get k F, PyDict.get k F' with
            | Some f, Some f' => same_family f f'
            | None, None => True
            | _, _ => False
            end.

(** A workshop day after some more calls of [add_family]. *)
Definition day_grows (F : PyDict.t Family) (wd wd' : WorkshopDay) : Prop :=
  day_id wd' = day_id wd /\
  exists added,
    assigned_families wd' = assigned_families wd ++ added /\
    current_occupancy wd' = current_occupancy wd + members_size F added.

Definition days_grow (F : PyDict.t Family) (D D' : PyDict.t WorkshopDay)
  : Prop :=
  PyDict.keys D' = PyDict.keys D /\
  forall d, match PyDict.get d D, PyDict.get d D' with
            | Some wd, Some wd' => day_grows F wd wd'
            | None, None => True
            | _, _ => False
            end.

(** What applying results can do to the entities. *)
Definition evolves (s s' : SolutionManager) : Prop :=
  families_frame (families s) (families s') /\
  days_grow (families s) (days s) (days s') /\
  solver_engine s' = solver_engine s.

(** The number of raw assignments whose family is in the repository. *)
Definition known_assignments (F : PyDict.t Family) (raw : PyDict.t Z) : Z :=
  Z.of_nat
    (List.length
       (filter (fun kv => match PyDict.get (fst kv) F with
                          | Some _ => true
                          | None => false
                          end) raw)).

(** The [try] block of [main], [load_data] having parsed the rows: load,
    solve, write the submission.  An exception of [solve] is caught by
    [main], which prints it and writes nothing: it is the [Raised] outcome
    here.  The result comes with what was printed on the way. *)
Definition main_try (o : oracle) (rows : list Row)
  : outcome (option (list (Row * solution_cell)))
    * list event * list io_message :=
  let (mgr, io1) := load_data rows SolutionManager_init in
  match solve o (mkWorld (core mgr) []) with
  | (Raised e, w') => (Raised e, trace w', io1)
  | (Returned _, w') =>
      let (table, io2) :=
        generate_submission (mkLoaded (self w') (input_data mgr)) in
      (Returned table, trace w', io1 ++ io2)
  end.

(** The valuation that describes an assignment of days to family
    identifiers: [x[k, d]] is 1 when [k] is assigned [d], and a day is open
    when somebody is on it. *)
Definition assignment_x (assign : Z -> option Z) : valuation :=
  fun y => match y with
           | var_x k d => match assign k with
                          | Some d' => if d' =? d then 1 else 0
                          | None => 0
                          end
           | var_z _ => 0
           end.

Definition assignment_valuation (assign : Z -> option Z) (fams : list Family)
  : valuation :=
  fun y => match y with
           | var_x k d => assignment_x assign (var_x k d)
           | var_z d =>
               if occupancy (assignment_x assign) fams d =? 0 then 0 else 1
           end.

(** [occupancy_consistent], as a check. *)
Definition occupancy_consistentb (s : SolutionManager) : bool :=
  forallb (fun kv => current_occupancy (snd kv)
                     =? members_size (families s) (assigned_families (snd kv)))
          (days s).



(* ===================================================================== *)
(** ** The small instance as input rows                                   *)
(* ===================================================================== *)

Module Instance.

(** The two families of [Scenario] as rows of the input table. *)
Definition rows : list Row :=
  [mkRow 1 150 (fun i => nth i [5; 6; 7; 8; 9; 10; 11; 12; 13; 14] 0);
   mkRow 2 150 (fun i => nth i [5; 15; 16; 17; 18; 19; 20; 21; 22; 23] 0)].

(** A second family whose last day is not a workshop day. *)
Definition rows_out_of_range : list Row :=
  [mkRow 1 150 (fun i => nth i [5; 6; 7; 8; 9; 10; 11; 12; 13; 14] 0);
   mkRow 2 150 (fun i => nth i [5; 15; 16; 17; 18; 19; 20; 21; 22; 101] 0)].

Definition loaded : SolutionManager :=
  core (fst (load_data rows SolutionManager_init)).

(** The demand map of the instance. *)
Definition demand : PyDict.t (list Family) :=
  match day_demand_map Scenario.fams Scenario.days_range with
  | Returned dm => dm
  | Raised _ => []
  end.

(** The values that [Scenario.optimal_oracle] loads. *)
Definition xv : Z * Z -> option Q :=
  fun p => Some (if snd p =? 5 then 1%Q else 0%Q).
Definition zv : Z -> option Q :=
  fun d => Some (if d =? 5 then 1%Q else 0%Q).

(** The world after a first accepted run, before and after the results are
    applied a second time. *)
Definition solved_once : world :=
  snd (solve Scenario.optimal_oracle (mkWorld Scenario.manager [])).
Definition applied_twice : world := snd (_apply_results solved_once).

(** A single family of 50 (nobody else lists its days). *)
Definition lone_family : list Family :=
  [Family_init 1 50 [1; 2; 3; 4; 5; 6; 7; 8; 9; 10]].
Definition lone_model : ConcreteModel :=
  fst (formulate lone_family Scenario.days_range).

(** Every family on day 5. *)
Definition everyone_on_5 : Z -> option Z := fun _ => Some 5.


(** ... and next to a family of 150 that lists day 5 once. *)
Definition repeated_day_pair : list Family :=
  [Family_init 1 60 [5; 5; 6; 7; 8; 9; 10; 11; 12; 13];
   Family_init 2 150 [5; 15; 16; 17; 18; 19; 20; 21; 22; 23]].
Definition repeated_day_pair_model : ConcreteModel :=
  fst (formulate repeated_day_pair Scenario.days_range).

(** The given family alone on day 5, day 5 being the only open day. *)
Definition only_on_5 (fam_id : Z) : valuation :=
  fun y => match y with
           | var_x k d => if (k =? fam_id) && (d =? 5) then 1 else 0
           | var_z d => if d =? 5 then 1 else 0
           end.

End Instance.

(* ===================================================================== *)
(** ** Dictionaries, sets and constraint components                       *)
(* ===================================================================== *)

Section DictFacts.
Context {V : Type}.
Implicit Types (d : PyDict.t V) (k : Z) (v : V).

Lemma get_set_same d k v : PyDict.get k (PyDict.set k v d) = Some v.
Proof.
  induction d as [|[k' v'] r IH]; simpl.
  - now rewrite Z.eqb_refl.
  - destruct (k' =? k) eqn:E; simpl; now rewrite E.
Qed.

Lemma get_set_other d k k' v :
  k <> k' -> PyDict.get k' (PyDict.set k v d) = PyDict.get k' d.
Proof.
  intros N. induction d as [|[k0 v0] r IH]; simpl.
  - destruct (k =? k') eqn:E; [apply Z.eqb_eq in E; contradiction | easy].
  - destruct (k0 =? k) eqn:E; simpl.
    + apply Z.eqb_eq in E; subst k0.
      destruct (k =? k') eqn:E'; [apply Z.eqb_eq in E'; contradiction | easy].
    + now rewrite IH.
Qed.

Lemma get_set d k k' v :
  PyDict.get k' (PyDict.set k v d)
  = if k =? k' then Some v else PyDict.get k' d.
Proof.
  destruct (k =? k') eqn:E.
  - apply Z.eqb_eq in E; subst. apply get_set_same.
  - apply Z.eqb_neq in E. now apply get_set_other.
Qed.

Lemma get_None_keys d k : PyDict.get k d = None <-> ~ In k (PyDict.keys d).
Proof.
  induction d as [|[k' v'] r IH]; simpl; [tauto|].
  destruct (k' =? k) eqn:E.
  - apply Z.eqb_eq in E; subst. split; [discriminate | tauto].
  - apply Z.eqb_neq in E. rewrite IH. tauto.
Qed.

End DictFacts.

Lemma pair_eqb_eq p q : pair_eqb p q = true <-> p = q.
Proof.
  destruct p, q; unfold pair_eqb; simpl.
  rewrite andb_true_iff, !Z.eqb_eq. split; [intros [-> ->] | intros [= -> ->]]; auto.
Qed.

Section SetFacts.
Context {A : Type} (eqb : A -> A -> bool).
Hypothesis eqb_eq : forall a b, eqb a b = true <-> a = b.

Lemma pyo_Set_In l a : In a (pyo_Set eqb l) <-> In a l.
Proof.
  induction l as [|b r IH]; simpl; [tauto|].
  rewrite filter_In, IH. split.
  - tauto.
  - intros [->|H]; [now left|].
    destruct (eqb b a) eqn:E.
    + apply eqb_eq in E. now left.
    + right. split; [assumption | reflexivity].
Qed.

Lemma pyo_Set_NoDup l : NoDup (pyo_Set eqb l).
Proof.
  induction l as [|b r IH]; simpl; constructor.
  - rewrite filter_In. intros [_ H].
    assert (E : eqb b b = true) by now apply eqb_eq.
    simpl in H. now rewrite E in H.
  - now apply NoDup_filter.
Qed.
End SetFacts.

Lemma pyo_Constraint_In index rule c :
  pyo_Constraint index rule = Returned c ->
  forall i e, In (i, e) c <-> In i index /\ rule i = Returned (Expression e).
Proof.
  revert c. induction index as [|j rest IH]; simpl; intros c H i e.
  - injection H as <-. simpl. tauto.
  - destruct (rule j) as [r|] eqn:Ej; [|discriminate].
    destruct r as [e'|b|]; [| discriminate |];
      (destruct (pyo_Constraint rest rule) as [c'|] eqn:Er; [|discriminate]);
      injection H as <-; specialize (IH c' eq_refl i e); simpl; rewrite IH.
    + split.
      * intros [[= -> ->]|[Hi Hr]]; auto.
      * intros [[->|Hi] Hr]; [left; congruence | auto].
    + split.
      * intros [Hi Hr]; auto.
      * intros [[->|Hi] Hr]; [congruence | auto].
Qed.

(** A component is only built when no rule returned a boolean. *)
Lemma pyo_Constraint_defined index rule c :
  pyo_Constraint index rule = Returned c ->
  forall i, In i index ->
            (exists e, rule i = Returned (Expression e)) \/
            rule i = Returned Skip.
Proof.
  revert c. induction index as [|j rest IH]; simpl; intros c H i Hi;
    [contradiction|].
  destruct (rule j) as [r|] eqn:Ej; [|discriminate].
  destruct r as [e'|b|]; [| discriminate |];
    (destruct (pyo_Constraint rest rule) as [c'|] eqn:Er; [|discriminate]);
    (destruct Hi as [<-|Hi]; [rewrite Ej; eauto | exact (IH c' eq_refl i Hi)]).
Qed.

Lemma Returned_inj {A : Type} (a b : A) : Returned a = Returned b -> a = b.
Proof. now intros [=]. Qed.

Lemma py_compare_Expression c e : py_compare c = Expression e -> e = c.
Proof.
  destruct c as [a b|a b]; destruct a, b; simpl; intros [=]; congruence.
Qed.

Lemma py_compare_not_Skip c : py_compare c <> Skip.
Proof. destruct c as [a b|a b]; destruct a, b; simpl; discriminate. Qed.

Lemma py_compare_Ge_Mul a b c :
  py_compare (Ge a (Mul b c)) = Expression (Ge a (Mul b c)).
Proof. destruct a; reflexivity. Qed.

Lemma py_compare_Le_Mul a b c :
  py_compare (Le a (Mul b c)) = Expression (Le a (Mul b c)).
Proof. destruct a; reflexivity. Qed.

Lemma sat_component_In v c :
  sat_component v c = true <-> forall i e, In (i, e) c -> sat v e = true.
Proof.
  unfold sat_component. rewrite forallb_forall. split.
  - intros H i e Hin. exact (H _ Hin).
  - intros H [i e] Hin. simpl. eauto.
Qed.

Lemma eval_fold_Add v ts acc :
  eval v (fold_left Add ts acc)
  = eval v acc + fold_right Z.add 0 (map (eval v) ts).
Proof.
  revert acc. induction ts as [|t r IH]; intros acc; simpl; [lia|].
  rewrite IH. simpl. lia.
Qed.

Lemma eval_py_sum v ts :
  eval v (py_sum ts) = fold_right Z.add 0 (map (eval v) ts).
Proof. unfold py_sum. rewrite eval_fold_Add. reflexivity. Qed.

Lemma is_binary_cases n : is_binary n = true <-> n = 0 \/ n = 1.
Proof. unfold is_binary. rewrite orb_true_iff, !Z.eqb_eq. tauto. Qed.

Lemma lists_In f d : lists f d = true <-> In d (preferences f).
Proof.
  unfold lists. rewrite existsb_exists. split.
  - intros [y [Hy E]]. apply Z.eqb_eq in E. now subst.
  - intros H. exists d. now rewrite Z.eqb_refl.
Qed.

(* ===================================================================== *)
(** ** The demand map                                                     *)
(* ===================================================================== *)

Lemma existsb_eqb_In d l : existsb (Z.eqb d) l = true <-> In d l.
Proof.
  rewrite existsb_exists. split.
  - intros [y [Hy E]]. apply Z.eqb_eq in E. now subst.
  - intros H. exists d. now rewrite Z.eqb_refl.
Qed.

Lemma empty_demand_fold days d (m : PyDict.t (list Family)) :
  PyDict.get d (fold_left (fun m d => PyDict.set d [] m) days m)
  = if existsb (Z.eqb d) days then Some [] else PyDict.get d m.
Proof.
  revert m. induction days as [|a r IH]; intros m; simpl; [reflexivity|].
  rewrite IH, get_set, (Z.eqb_sym d a).
  destruct (a =? d), (existsb (Z.eqb d) r); reflexivity.
Qed.

Lemma empty_demand_get days d :
  PyDict.get d (empty_demand days)
  = if existsb (Z.eqb d) days then Some [] else None.
Proof. unfold empty_demand. now rewrite empty_demand_fold. Qed.

Lemma demand_prefs_get f prefs m m' :
  demand_prefs f prefs m = Returned m' ->
  forall d, PyDict.get d m'
            = option_map (fun l => l ++ map (fun _ => f) (filter (Z.eqb d) prefs))
                         (PyDict.get d m).
Proof.
  revert m. induction prefs as [|a rest IH]; simpl; intros m H d.
  - injection H as <-. destruct (PyDict.get d m); simpl; [|reflexivity].
    now rewrite app_nil_r.
  - destruct (PyDict.get a m) as [l|] eqn:Ea; [|discriminate].
    rewrite (IH _ H d), get_set, (Z.eqb_sym d a).
    destruct (a =? d) eqn:E; [|reflexivity].
    apply Z.eqb_eq in E; subst a. rewrite Ea. simpl.
    now rewrite <- app_assoc.
Qed.

Lemma demand_prefs_keys f prefs m m' :
  demand_prefs f prefs m = Returned m' ->
  forall d, In d prefs -> PyDict.get d m <> None.
Proof.
  revert m. induction prefs as [|a rest IH]; simpl; intros m H d Hd; [easy|].
  destruct (PyDict.get a m) as [l|] eqn:Ea; [|discriminate].
  destruct Hd as [->|Hd]; [congruence|].
  specialize (IH _ H d Hd). rewrite get_set in IH.
  destruct (a =? d) eqn:E; [|assumption].
  apply Z.eqb_eq in E; subst; congruence.
Qed.

Lemma demand_families_get fams m m' :
  demand_families fams m = Returned m' ->
  forall d, PyDict.get d m'
            = option_map (fun l => l ++ demand_of fams d) (PyDict.get d m).
Proof.
  revert m. induction fams as [|f rest IH]; simpl; intros m H d.
  - injection H as <-. destruct (PyDict.get d m); simpl; [|reflexivity].
    now rewrite app_nil_r.
  - destruct (demand_prefs f (preferences f) m) as [m1|] eqn:E1; [|discriminate].
    rewrite (IH _ H d), (demand_prefs_get _ _ _ _ E1 d).
    destruct (PyDict.get d m); simpl; [|reflexivity].
    now rewrite <- app_assoc.
Qed.

Lemma demand_families_keys fams m m' :
  demand_families fams m = Returned m' ->
  forall f d, In f fams -> In d (preferences f) -> PyDict.get d m <> None.
Proof.
  revert m. induction fams as [|g rest IH]; simpl; intros m H f d Hf Hd; [easy|].
  destruct (demand_prefs g (preferences g) m) as [m1|] eqn:E1; [|discriminate].
  destruct Hf as [->|Hf].
  - eapply demand_prefs_keys; eauto.
  - specialize (IH _ H f d Hf Hd).
    rewrite (demand_prefs_get _ _ _ _ E1 d) in IH.
    destruct (PyDict.get d m); [discriminate | contradiction].
Qed.

(** What a successfully built demand map holds for a day. *)
Lemma day_demand_map_get fams days_range dm :
  day_demand_map fams days_range = Returned dm ->
  forall d, PyDict.get d dm
            = if existsb (Z.eqb d) days_range
              then Some (demand_of fams d) else None.
Proof.
  unfold day_demand_map. intros H d.
  rewrite (demand_families_get _ _ _ H d), empty_demand_get.
  destruct (existsb (Z.eqb d) days_range); reflexivity.
Qed.

(** The demand map can only be built when every requested day is a day of
    the range. *)
Lemma day_demand_map_range fams days_range dm :
  day_demand_map fams days_range = Returned dm ->
  forall f d, In f fams -> In d (preferences f) -> In d days_range.
Proof.
  unfold day_demand_map. intros H f d Hf Hd.
  pose proof (demand_families_keys _ _ _ H f d Hf Hd) as K.
  rewrite empty_demand_get in K.
  destruct (existsb (Z.eqb d) days_range) eqn:E; [|contradiction].
  now apply existsb_eqb_In.
Qed.

Lemma demand_of_nil fams d :
  (forall f, In f fams -> ~ In d (preferences f)) -> demand_of fams d = [].
Proof.
  induction fams as [|f rest IH]; simpl; intros H; [reflexivity|].
  rewrite IH by auto.
  assert (N : filter (Z.eqb d) (preferences f) = []).
  { specialize (H f (or_introl eq_refl)).
    induction (preferences f) as [|a r IHr]; simpl; [reflexivity|].
    destruct (d =? a) eqn:E.
    - apply Z.eqb_eq in E; subst. exfalso. apply H. now left.
    - apply IHr. intros K. apply H. now right. }
  now rewrite N.
Qed.

Lemma filter_eqb_NoDup d l :
  NoDup l -> filter (Z.eqb d) l = if existsb (Z.eqb d) l then [d] else [].
Proof.
  induction 1 as [|a r Ha _ IH]; simpl; [reflexivity|].
  destruct (d =? a) eqn:E; simpl.
  - apply Z.eqb_eq in E; subst a.
    destruct (existsb (Z.eqb d) r) eqn:Er.
    + apply existsb_eqb_In in Er. contradiction.
    + now rewrite IH.
  - exact IH.
Qed.

(** The occupancy expression of the capacity rules evaluates to the
    occupancy of the day when no family lists a day twice. *)
Lemma eval_occupancy_expr v fams d :
  (forall f, In f fams -> NoDup (preferences f)) ->
  (forall f, In f fams -> In d (preferences f) ->
             is_binary (v (var_x (id f) d)) = true) ->
  eval v (occupancy_expr d (demand_of fams d)) = occupancy v fams d.
Proof.
  unfold occupancy_expr, occupancy. rewrite eval_py_sum.
  induction fams as [|f rest IH]; simpl; intros Hnd Hb; [reflexivity|].
  rewrite !map_app, map_map. simpl.
  assert (IH' := IH (fun g Hg => Hnd g (or_intror Hg))
                    (fun g Hg => Hb g (or_intror Hg))).
  rewrite filter_eqb_NoDup by (apply Hnd; now left).
  fold (lists f d).
  destruct (lists f d) eqn:L; simpl.
  - apply lists_In in L.
    specialize (Hb f (or_introl eq_refl) L). apply is_binary_cases in Hb.
    destruct Hb as [-> | ->]; simpl; rewrite IH'; [reflexivity|].
    now destruct (n_members f).
  - exact IH'.
Qed.

(* ===================================================================== *)
(** ** The formulation                                                    *)
(* ===================================================================== *)

Lemma valid_assignments_In fams fam_id d :
  In (fam_id, d) (valid_assignments fams)
  <-> exists f, In f fams /\ id f = fam_id /\ In d (preferences f).
Proof.
  unfold valid_assignments. rewrite in_flat_map. split.
  - intros [f [Hf H]]. apply in_map_iff in H as [d' [[= <- <-] Hd]]. eauto.
  - intros [f [Hf [<- Hd]]]. exists f. split; [assumption|].
    apply in_map_iff. eauto.
Qed.

(** The sets and the variables are those of sections 1 and 2, whether or not
    the rest of the construction raised. *)
Lemma formulate_sets fams days_range :
  let m := fst (formulate fams days_range) in
  let m0 := sets_and_variables fams days_range in
  Assignments m = Assignments m0 /\ Days m = Days m0 /\
  Families m = Families m0 /\ x m = x m0 /\ z m = z m0.
Proof.
  unfold formulate.
  destruct (objective_rule fams); simpl; [|tauto].
  destruct (pyo_Constraint _ (one_day_rule fams)); simpl; [|tauto].
  destruct (day_demand_map fams days_range); simpl; [|tauto].
  destruct (pyo_Constraint _ (min_opening_rule a1)); simpl; [|tauto].
  destruct (pyo_Constraint _ (max_opening_rule a1)); simpl; tauto.
Qed.

(** A construction that was not interrupted went through every step. *)
Lemma formulate_ok fams days_range m :
  formulate fams days_range = (m, None) ->
  exists obj c1 dm c2 c3,
    objective_rule fams = Returned obj /\
    pyo_Constraint (pyo_Set Z.eqb (map id fams)) (one_day_rule fams)
      = Returned c1 /\
    day_demand_map fams days_range = Returned dm /\
    pyo_Constraint (pyo_Set Z.eqb days_range) (min_opening_rule dm)
      = Returned c2 /\
    pyo_Constraint (pyo_Set Z.eqb days_range) (max_opening_rule dm)
      = Returned c3 /\
    m = with_MaxOpen
          (with_MinOpen
             (with_OneDay
                (with_Obj (sets_and_variables fams days_range) obj) c1) c2) c3.
Proof.
  unfold formulate. cbv zeta.
  destruct (objective_rule fams) as [obj|] eqn:E0; [|discriminate].
  change (Families (with_Obj (sets_and_variables fams days_range) obj))
    with (pyo_Set Z.eqb (map id fams)).
  destruct (pyo_Constraint _ (one_day_rule fams)) as [c1|] eqn:E1;
    [|discriminate].
  change (Days (with_OneDay (with_Obj (sets_and_variables fams days_range) obj) c1))
    with (pyo_Set Z.eqb days_range).
  destruct (day_demand_map fams days_range) as [dm|] eqn:E2; [|discriminate].
  destruct (pyo_Constraint _ (min_opening_rule dm)) as [c2|] eqn:E3;
    [|discriminate].
  change (Days (with_MinOpen
                  (with_OneDay
                     (with_Obj (sets_and_variables fams days_range) obj) c1) c2))
    with (pyo_Set Z.eqb days_range).
  destruct (pyo_Constraint _ (max_opening_rule dm)) as [c3|] eqn:E4;
    [|discriminate].
  intros [= <-]. exists obj, c1, dm, c2, c3. auto 10.
Qed.

Lemma binary_on_x fams days_range m v :
  fst (formulate fams days_range) = m -> binary_on v m ->
  forall f d, In f fams -> In d (preferences f) ->
              is_binary (v (var_x (id f) d)) = true.
Proof.
  intros <- [Hx _] f d Hf Hd. apply Hx.
  destruct (formulate_sets fams days_range) as (_ & _ & _ & -> & _).
  simpl. apply pyo_Set_In; [exact pair_eqb_eq|].
  apply valid_assignments_In. eauto.
Qed.

Lemma binary_on_z fams days_range m v :
  fst (formulate fams days_range) = m -> binary_on v m ->
  forall d, In d days_range -> is_binary (v (var_z d)) = true.
Proof.
  intros <- [_ Hz] d Hd. apply Hz.
  destruct (formulate_sets fams days_range) as (_ & _ & _ & _ & ->).
  simpl. apply pyo_Set_In; [exact Z.eqb_eq | assumption].
Qed.

Lemma occupancy_unlisted v fams d :
  (forall f, In f fams -> ~ In d (preferences f)) -> occupancy v fams d = 0.
Proof.
  unfold occupancy. induction fams as [|f rest IH]; simpl; intros H; [reflexivity|].
  destruct (lists f d) eqn:L.
  - apply lists_In in L. exfalso. exact (H f (or_introl eq_refl) L).
  - simpl. apply IH. auto.
Qed.



(** C3. For a day of the range that no family lists, the generated
    minimum-opening constraint is [0 >= 100 * z[d]]; it forces the indicator
    to 0, so in every feasible valuation the day is closed and its occupancy
    is 0. *)
Theorem C3_unrequested_day_closed fams days_range m d :
  formulate fams days_range = (m, None) ->
  In d days_range ->
  (forall f, In f fams -> ~ In d (preferences f)) ->
  (exists c, MinOpen m = Some c /\
             In (d, Ge (Num 0) (Mul (Num 100) (Var (var_z d)))) c) /\
  forall v, binary_on v m -> satisfies v (MinOpen m) = true ->
            v (var_z d) = 0 /\ occupancy v fams d = 0.
Proof.
  intros F Hd Hno.
  assert (Fm : fst (formulate fams days_range) = m) by now rewrite F.
  destruct (formulate_ok _ _ _ F) as (obj & c1 & dm & c2 & c3 & _ & _ & Hdm & H2 & _ & E).
  pose proof (pyo_Constraint_In _ _ _ H2) as I2.
  pose proof (day_demand_map_get _ _ _ Hdm d) as G.
  rewrite (proj2 (existsb_eqb_In d days_range) Hd), (demand_of_nil _ _ Hno) in G.
  assert (Hin : In (d, Ge (Num 0) (Mul (Num 100) (Var (var_z d)))) c2).
  { apply I2. split.
    - apply pyo_Set_In; [exact Z.eqb_eq | assumption].
    - unfold min_opening_rule. now rewrite G. }
  assert (Emin : MinOpen m = Some c2) by (rewrite E; reflexivity).
  split; [eauto|].
  intros v Hb Hs. split; [|now apply occupancy_unlisted].
  rewrite Emin in Hs. simpl in Hs. rewrite sat_component_In in Hs.
  specialize (Hs _ _ Hin). unfold sat in Hs. cbn [eval] in Hs.
  apply Z.geb_le in Hs.
  pose proof (binary_on_z _ _ _ _ Fm Hb d Hd) as Bz.
  apply is_binary_cases in Bz. lia.
Qed.

(** C5. The index set of the decision variables holds exactly the pairs
    (family identifier, day) whose day is in the preference list of a family
    carrying that identifier, each once and with a binary domain: a pair of
    a family and a day it does not list gets no variable.  The day-open
    indicators are indexed by exactly the days of the range, each once, with
    a binary domain. *)
Theorem C5_sparse_variable_space fams days_range :
  let m := fst (formulate fams days_range) in
  (forall fam_id d,
      In (fam_id, d) (index_set (x m))
      <-> exists f, In f fams /\ id f = fam_id /\ In d (preferences f)) /\
  (forall f d, In f fams ->
               (forall g, In g fams -> id g = id f -> ~ In d (preferences g)) ->
               ~ In (id f, d) (index_set (x m))) /\
  index_set (x m) = Assignments m /\
  NoDup (index_set (x m)) /\
  var_domain (x m) = Binary /\
  (forall d, In d (index_set (z m)) <-> In d days_range) /\
  index_set (z m) = Days m /\
  NoDup (index_set (z m)) /\
  var_domain (z m) = Binary.
Proof.
  intros m.
  destruct (formulate_sets fams days_range) as (EA & ED & _ & Ex & Ez).
  fold m in EA, ED, Ex, Ez. rewrite Ex, Ez, EA, ED. simpl.
  assert (Hx : forall fam_id d,
             In (fam_id, d) (pyo_Set pair_eqb (valid_assignments fams))
             <-> exists f, In f fams /\ id f = fam_id /\ In d (preferences f)).
  { intros fam_id d.
    rewrite (pyo_Set_In pair_eqb pair_eqb_eq). apply valid_assignments_In. }
  repeat split; try apply Hx.
  - intros f d Hf Hno Hin. apply Hx in Hin as (g & Hg & Eg & Hd).
    exact (Hno g Hg Eg Hd).
  - exact (pyo_Set_NoDup pair_eqb pair_eqb_eq _).
  - now apply (pyo_Set_In Z.eqb Z.eqb_eq).
  - now apply (pyo_Set_In Z.eqb Z.eqb_eq).
  - exact (pyo_Set_NoDup Z.eqb Z.eqb_eq _).
Qed.

(* ===================================================================== *)
(** ** The one-day rule                                                   *)
(* ===================================================================== *)

Lemma find_unique_id fams f :
  NoDup (map id fams) -> In f fams ->
  find (fun g => id g =? id f) fams = Some f.
Proof.
  induction fams as [|g rest IH]; simpl; intros Hnd Hf; [contradiction|].
  inversion Hnd as [|? ? Hg Hrest]; subst.
  destruct Hf as [->|Hf]; [now rewrite Z.eqb_refl|].
  destruct (id g =? id f) eqn:E; [|auto].
  apply Z.eqb_eq in E. exfalso. apply Hg. rewrite E. now apply in_map.
Qed.

Lemma sum_ge_member (g : Z -> Z) l d :
  (forall a, In a l -> 0 <= g a) -> In d l ->
  g d <= fold_right Z.add 0 (map g l).
Proof.
  induction l as [|a r IH]; simpl; intros Hpos Hd; [contradiction|].
  assert (0 <= fold_right Z.add 0 (map g r)).
  { clear IH Hd. induction r as [|b r' IHr]; simpl; [lia|].
    assert (0 <= g b) by (apply Hpos; simpl; auto).
    assert (0 <= fold_right Z.add 0 (map g r'))
      by (apply IHr; intros c Hc; apply Hpos; simpl in *; tauto).
    lia. }
  assert (0 <= g a) by (apply Hpos; now left).
  destruct Hd as [->|Hd]; [lia|].
  assert (g d <= fold_right Z.add 0 (map g r)) by (apply IH; auto).
  lia.
Qed.

Lemma sum_ge_two_members (g : Z -> Z) l d1 d2 :
  (forall a, In a l -> 0 <= g a) -> In d1 l -> In d2 l -> d1 <> d2 ->
  g d1 + g d2 <= fold_right Z.add 0 (map g l).
Proof.
  induction l as [|a r IH]; simpl; intros Hpos H1 H2 N; [contradiction|].
  assert (Hr : forall b, In b r -> 0 <= g b) by auto.
  assert (0 <= g a) by (apply Hpos; now left).
  destruct H1 as [->|H1], H2 as [->|H2].
  - contradiction.
  - pose proof (sum_ge_member g r d2 Hr H2). lia.
  - pose proof (sum_ge_member g r d1 Hr H1). lia.
  - pose proof (IH Hr H1 H2 N). lia.
Qed.

Lemma sum_all_zero {A : Type} (g : A -> Z) l :
  (forall a, In a l -> g a = 0) -> fold_right Z.add 0 (map g l) = 0.
Proof.
  induction l as [|a r IH]; simpl; intros H; [reflexivity|].
  rewrite (H a (or_introl eq_refl)), IH; auto.
Qed.

(** The valuation that assigns nobody and opens no day satisfies every
    generated constraint. *)
Lemma zero_valuation_feasible fams days_range m :
  formulate fams days_range = (m, None) ->
  binary_on (fun _ => 0) m /\
  satisfies (fun _ => 0) (OneDay m) = true /\
  satisfies (fun _ => 0) (MinOpen m) = true /\
  satisfies (fun _ => 0) (MaxOpen m) = true.
Proof.
  intros F.
  destruct (formulate_ok _ _ _ F)
    as (obj & c1 & dm & c2 & c3 & _ & H1 & _ & H2 & H3 & ->).
  assert (Z0 : forall d l, eval (fun _ => 0) (occupancy_expr d l) = 0).
  { intros d l. unfold occupancy_expr. rewrite eval_py_sum, map_map.
    apply sum_all_zero. reflexivity. }
  split; [split; reflexivity|]. simpl.
  rewrite !sat_component_In. repeat split; intros i e Hin.
  - apply (pyo_Constraint_In _ _ _ H1) in Hin as [_ R].
    unfold one_day_rule in R. destruct (find _ fams); [|discriminate].
    apply Returned_inj, py_compare_Expression in R. subst e.
    unfold sat. cbn [eval].
    rewrite eval_py_sum, map_map, sum_all_zero; reflexivity.
  - apply (pyo_Constraint_In _ _ _ H2) in Hin as [_ R].
    unfold min_opening_rule in R.
    destruct (PyDict.get i dm) as [[|f l]|]; try discriminate;
      apply Returned_inj, py_compare_Expression in R; subst e;
      unfold sat; cbn [eval]; rewrite ?Z0; reflexivity.
  - apply (pyo_Constraint_In _ _ _ H3) in Hin as [_ R].
    unfold max_opening_rule in R.
    destruct (PyDict.get i dm) as [[|f l]|]; try discriminate.
    apply Returned_inj, py_compare_Expression in R. subst e.
    unfold sat. cbn [eval]. rewrite Z0. reflexivity.
Qed.

(** C2. For each family, the constraint generated by [one_day_rule] for its
    identifier is [sum(x[f.id, d] for d in f.preferences) <= 1]; under it a
    binary valuation sets the variable of at most one day of the list to 1,
    and the family may get no day at all: the valuation that assigns nobody
    is feasible.  Identifiers are unique, as in the repository. *)
Theorem C2_at_most_one_day fams days_range m f :
  formulate fams days_range = (m, None) ->
  NoDup (map id fams) ->
  In f fams ->
  (exists c, OneDay m = Some c /\
             In (id f,
                 Le (py_sum (map (fun d => Var (var_x (id f) d))
                                 (preferences f)))
                    (Num 1)) c) /\
  (forall v, binary_on v m -> satisfies v (OneDay m) = true ->
             forall d1 d2,
               In d1 (preferences f) -> In d2 (preferences f) ->
               v (var_x (id f) d1) = 1 -> v (var_x (id f) d2) = 1 ->
               d1 = d2) /\
  (binary_on (fun _ => 0) m /\
   satisfies (fun _ => 0) (OneDay m) = true /\
   satisfies (fun _ => 0) (MinOpen m) = true /\
   satisfies (fun _ => 0) (MaxOpen m) = true).
Proof.
  intros F Hid Hf.
  assert (Fm : fst (formulate fams days_range) = m) by now rewrite F.
  destruct (formulate_ok _ _ _ F)
    as (obj & c1 & dm & c2 & c3 & _ & H1 & _ & _ & _ & E).
  assert (E1 : OneDay m = Some c1) by (rewrite E; reflexivity).
  assert (Hin : In (id f,
                    Le (py_sum (map (fun d => Var (var_x (id f) d))
                                    (preferences f)))
                       (Num 1)) c1).
  { assert (Hi : In (id f) (pyo_Set Z.eqb (map id fams)))
      by (apply (pyo_Set_In Z.eqb Z.eqb_eq); now apply in_map).
    apply (pyo_Constraint_In _ _ _ H1). split; [assumption|].
    destruct (pyo_Constraint_defined _ _ _ H1 _ Hi) as [[e He]|He];
      unfold one_day_rule in He |- *;
      rewrite (find_unique_id _ _ Hid Hf) in He |- *;
      apply Returned_inj in He.
    - now rewrite He, (py_compare_Expression _ _ He).
    - now apply py_compare_not_Skip in He. }
  split; [eauto|]. split; [|now apply (zero_valuation_feasible _ _ _ F)].
  intros v Hb Hs d1 d2 Hd1 Hd2 V1 V2.
  rewrite E1 in Hs. simpl in Hs. rewrite sat_component_In in Hs.
  specialize (Hs _ _ Hin). unfold sat in Hs. cbn [eval] in Hs.
  rewrite eval_py_sum, map_map in Hs. cbn [eval] in Hs.
  apply Z.leb_le in Hs.
  destruct (Z.eq_dec d1 d2) as [|N]; [assumption|]. exfalso.
  assert (Hpos : forall a, In a (preferences f) -> 0 <= v (var_x (id f) a)).
  { intros a Ha.
    pose proof (binary_on_x _ _ _ _ Fm Hb f a Hf Ha) as B.
    apply is_binary_cases in B. lia. }
  pose proof (sum_ge_two_members (fun d => v (var_x (id f) d)) _ d1 d2
                                 Hpos Hd1 Hd2 N) as H.
  cbv beta in H. lia.
Qed.

(* ===================================================================== *)
(** ** The objective                                                      *)
(* ===================================================================== *)

Lemma points_score rank :
  (rank <= 9)%nat -> points rank = Some (score_table rank).
Proof.
  intros H. do 10 (destruct rank as [|rank]; [reflexivity|]). lia.
Qed.

Lemma score_table_step rank : score_table (S rank) <= score_table rank.
Proof.
  do 10 (destruct rank as [|rank]; [simpl; lia|]). simpl. lia.
Qed.

Lemma score_table_monotone r1 r2 :
  (r1 <= r2)%nat -> score_table r2 <= score_table r1.
Proof.
  induction 1 as [|r2 _ IH]; [lia|].
  pose proof (score_table_step r2). lia.
Qed.

Lemma objective_prefs_eval fam_id prefs rank total :
  (rank + List.length prefs <= 10)%nat ->
  exists e,
    objective_prefs fam_id prefs rank total = Returned e /\
    forall v,
      eval v e
      = eval v total
        + fold_right Z.add 0
            (map (fun i => v (var_x fam_id (nth i prefs 0))
                           * score_table (rank + i))
                 (seq 0 (List.length prefs))).
Proof.
  revert rank total. induction prefs as [|day rest IH]; intros rank total H.
  - exists total. split; [reflexivity|]. intros v. simpl. lia.
  - simpl in H. simpl objective_prefs.
    rewrite points_score by lia.
    destruct (IH (S rank)
                 (Add total (Mul (Var (var_x fam_id day))
                                 (Num (score_table rank)))))
      as [e [He Hv]]; [lia|].
    exists e. split; [assumption|]. intros v. rewrite Hv.
    assert (EQ : map (fun i => v (var_x fam_id (nth i rest 0))
                                * score_table (S rank + i))
                     (seq 0 (List.length rest))
                 = map (fun i => v (var_x fam_id (nth (S i) (day :: rest) 0))
                                 * score_table (rank + S i))
                       (seq 0 (List.length rest))).
    { apply map_ext. intros i. now rewrite Nat.add_succ_r. }
    rewrite EQ. cbn [eval List.length].
    rewrite <- cons_seq, <- seq_shift.
    cbn [map fold_right]. rewrite map_map, Nat.add_0_r.
    simpl (nth 0 _ _). lia.
Qed.

Lemma objective_families_eval fams total :
  (forall f, In f fams -> List.length (preferences f) = 10%nat) ->
  exists e,
    objective_families fams total = Returned e /\
    forall v, eval v e = eval v total + total_score v fams.
Proof.
  revert total. induction fams as [|f rest IH]; intros total H.
  - exists total. split; [reflexivity|]. intros v. unfold total_score. simpl. lia.
  - assert (L : List.length (preferences f) = 10%nat) by (apply H; now left).
    destruct (objective_prefs_eval (id f) (preferences f) 0 total)
      as [t [Ht Hvt]]; [lia|].
    destruct (IH t) as [e [He Hve]]; [intros g Hg; apply H; now right|].
    exists e. simpl. rewrite Ht. split; [assumption|].
    intros v. rewrite Hve, Hvt, L. unfold total_score. simpl.
    unfold family_score. simpl. lia.
Qed.

(** C4. For families with their ten ranked days, the objective built by
    [objective_rule] is maximized and evaluates to the sum, over every
    family and every rank 0 to 9, of [x[family, preference[rank]]] times the
    score of the rank; [HAPPINESS_POINTS] is the table 100, 90, 85, 80, 75,
    70, 60, 50, 40, 30; the table is non-increasing in the rank; a family
    none of whose binary variables is 1 contributes exactly 0. *)
Theorem C4_objective_is_total_score fams :
  (forall f, In f fams -> List.length (preferences f) = 10%nat) ->
  exists obj,
    objective_rule fams = Returned obj /\
    (forall days_range m,
        formulate fams days_range = (m, None) ->
        Obj m = Some (obj, maximize)) /\
    (forall v, eval v obj = total_score v fams) /\
    (forall rank, (rank <= 9)%nat -> points rank = Some (score_table rank)) /\
    (forall r1 r2, (r1 <= r2)%nat -> score_table r2 <= score_table r1) /\
    (forall v f,
        In f fams ->
        (forall d, In d (preferences f) ->
                   is_binary (v (var_x (id f) d)) = true /\
                   v (var_x (id f) d) <> 1) ->
        family_score v f = 0).
Proof.
  intros H.
  destruct (objective_families_eval fams (Num 0) H) as [obj [Ho Hv]].
  exists obj. split; [exact Ho|]. split; [|split; [|split; [|split]]].
  - intros days_range m F.
    destruct (formulate_ok _ _ _ F)
      as (obj' & c1 & dm & c2 & c3 & Ho' & _ & _ & _ & _ & ->).
    unfold objective_rule in Ho'. simpl. congruence.
  - intros v. rewrite Hv. simpl. lia.
  - exact points_score.
  - exact score_table_monotone.
  - intros v f Hf Hz. unfold family_score. apply sum_all_zero.
    intros rank Hr. apply in_seq in Hr.
    assert (Hd : In (nth rank (preferences f) 0) (preferences f)).
    { apply nth_In. rewrite (H f Hf). lia. }
    destruct (Hz _ Hd) as [B N]. apply is_binary_cases in B.
    destruct B as [-> | B]; [lia | contradiction].
Qed.

(* ===================================================================== *)
(** ** The result extractor                                               *)
(* ===================================================================== *)

Lemma find_last {A : Type} (p : A -> bool) l a :
  find p (l ++ [a])
  = match find p l with
    | Some b => Some b
    | None => if p a then Some a else None
    end.
Proof.
  induction l as [|b r IH]; simpl; [reflexivity|].
  destruct (p b); [reflexivity | exact IH].
Qed.

(** With every value present the loop returns; the entry of a family is the
    day of its last selected pair, or the entry it had before the loop. *)
Lemma raw_loop_spec pairs val acc :
  (forall p, In p pairs -> val p <> None) ->
  exists a,
    raw_loop pairs val acc = Returned a /\
    forall fam_id,
      PyDict.get fam_id a
      = match find (fun p => (fst p =? fam_id) && exceeds_half (val p))
                   (rev pairs) with
        | Some p => Some (snd p)
        | None => PyDict.get fam_id acc
        end.
Proof.
  revert acc. induction pairs as [|[f0 day] rest IH]; intros acc Hv.
  - exists acc. split; reflexivity.
  - assert (Hrest : forall p, In p rest -> val p <> None)
      by (intros p Hp; apply Hv; now right).
    destruct (val (f0, day)) as [q|] eqn:Eq;
      [|exfalso; apply (Hv (f0, day)); [now left | assumption]].
    simpl raw_loop. rewrite Eq.
    assert (Ex : exceeds_half (val (f0, day)) = negb (Qle_bool q (1 # 2)))
      by (unfold exceeds_half; now rewrite Eq).
    destruct (negb (Qle_bool q (1 # 2))) eqn:Eh.
    + destruct (IH (PyDict.set f0 day acc) Hrest) as [a [Ha Hg]].
      exists a. split; [assumption|]. intros fam_id.
      rewrite Hg. simpl rev. rewrite find_last. cbv beta.
      simpl fst. simpl snd. rewrite Ex, andb_true_r, get_set.
      destruct (find _ (rev rest)); [reflexivity|].
      destruct (f0 =? fam_id); reflexivity.
    + destruct (IH acc Hrest) as [a [Ha Hg]].
      exists a. split; [assumption|]. intros fam_id.
      rewrite Hg. simpl rev. rewrite find_last. cbv beta.
      simpl fst. rewrite Ex, andb_false_r.
      destruct (find _ (rev rest)); reflexivity.
Qed.

(** C6, as the code has it.  When every variable carries a solved value the
    extractor returns a mapping and raises nothing, whatever the number of
    selected pairs of a family: the entry of a family is the day of its last
    pair, in the iteration order of [Assignments], whose value exceeds 0.5.
    So every entry is a selected pair of the family, and every family with a
    selected pair has an entry; later selected pairs overwrite earlier ones
    without any validation. *)
Theorem C6_extractor_keeps_last_selected s m :
  model s = Some m ->
  (forall p, In p (Assignments m) -> value (x m) p <> None) ->
  exists a,
    get_raw_assignments s = Returned a /\
    (forall fam_id, PyDict.get fam_id a = last_selected m fam_id) /\
    (forall fam_id d, PyDict.get fam_id a = Some d -> selected m fam_id d) /\
    (forall fam_id d, selected m fam_id d ->
                      exists d', PyDict.get fam_id a = Some d').
Proof.
  intros Hm Hv. unfold get_raw_assignments. rewrite Hm.
  destruct (raw_loop_spec (Assignments m) (value (x m)) [] Hv) as [a [Ha Hg]].
  exists a. split; [assumption|].
  assert (G : forall fam_id, PyDict.get fam_id a = last_selected m fam_id).
  { intros fam_id. rewrite Hg. unfold last_selected.
    destruct (find _ (rev (Assignments m))); reflexivity. }
  split; [exact G|]. split.
  - intros fam_id d. rewrite G. unfold last_selected.
    destruct (find _ (rev (Assignments m))) as [[f' d']|] eqn:Ef; [|discriminate].
    simpl. intros [= ->]. apply find_some in Ef as [Hin Hp].
    simpl in Hp. apply andb_true_iff in Hp as [Hf Hx].
    apply Z.eqb_eq in Hf. subst f'.
    split; [now apply in_rev | assumption].
  - intros fam_id d [Hin Hx]. rewrite G. unfold last_selected.
    destruct (find _ (rev (Assignments m))) as [p|] eqn:Ef; [simpl; eauto|].
    exfalso.
    pose proof (find_none _ _ Ef (fam_id, d) (proj1 (in_rev _ _) Hin)) as N.
    simpl in N. now rewrite Z.eqb_refl, Hx in N.
Qed.

(** The extractor on a model with two selected days for family 1: it returns
    a mapping, with day 6 for family 1, and raises nothing. *)
Lemma C6_two_selected_days_no_error :
  selected Scenario.two_days_for_1 1 5 /\
  selected Scenario.two_days_for_1 1 6 /\
  get_raw_assignments (mkSolver (Some Scenario.two_days_for_1) None)
  = Returned [(1, 6)] /\
  ~ (forall s m fam_id d1 d2,
        model s = Some m ->
        selected m fam_id d1 -> selected m fam_id d2 -> d1 <> d2 ->
        exists e, get_raw_assignments s = Raised e).
Proof.
  assert (S5 : selected Scenario.two_days_for_1 1 5).
  { split; [vm_compute; tauto | vm_compute; reflexivity]. }
  assert (S6 : selected Scenario.two_days_for_1 1 6).
  { split; [vm_compute; tauto | vm_compute; reflexivity]. }
  assert (R : get_raw_assignments (mkSolver (Some Scenario.two_days_for_1) None)
              = Returned [(1, 6)]) by (vm_compute; reflexivity).
  split; [exact S5 | split; [exact S6 | split; [exact R|]]].
  intros H.
  destruct (H (mkSolver (Some Scenario.two_days_for_1) None)
              Scenario.two_days_for_1 1 5 6 eq_refl S5 S6 ltac:(lia))
    as [e He].
  rewrite R in He. discriminate.
Qed.

Lemma C6_extractor_keeps_last_selected_witness :
  exists a,
    get_raw_assignments (mkSolver (Some Scenario.two_days_for_1) None)
    = Returned a /\
    (forall fam_id,
        PyDict.get fam_id a = last_selected Scenario.two_days_for_1 fam_id) /\
    (forall fam_id d, PyDict.get fam_id a = Some d ->
                      selected Scenario.two_days_for_1 fam_id d) /\
    (forall fam_id d, selected Scenario.two_days_for_1 fam_id d ->
                      exists d', PyDict.get fam_id a = Some d').
Proof.
  apply (C6_extractor_keeps_last_selected
           (mkSolver (Some Scenario.two_days_for_1) None)
           Scenario.two_days_for_1).
  - reflexivity.
  - intros p _. vm_compute. discriminate.
Defined.

(* ===================================================================== *)
(** ** The solver adapter                                                 *)
(* ===================================================================== *)

(** One run of [SantaSolver.solve], step by step. *)
Lemma SantaSolver_solve_run o fams days_range w :
  SantaSolver_solve o fams days_range w
  = let s := self w in
    let engine e := mkManager (families s) (days s) e in
    match formulate fams days_range with
    | (m, Some e) =>
        (Raised e,
         mkWorld (engine (mkSolver (Some m) (results (solver_engine s))))
                 (trace w ++ [Print MsgBuildingModel]))
    | (m, None) =>
        match o cbc m with
        | Returned (res, (xv, zv)) =>
            (Returned (accepted (termination_condition res)),
             mkWorld (engine (mkSolver (Some (load_values m xv zv)) (Some res)))
                     (trace w ++ [Print MsgBuildingModel; Print MsgRunningCBC;
                                  Submit cbc m;
                                  Print (MsgFinalStatus
                                           (termination_condition res))]))
        | Raised e =>
            (Returned false,
             mkWorld (engine (mkSolver (Some m) (results (solver_engine s))))
                     (trace w ++ [Print MsgBuildingModel; Print MsgRunningCBC;
                                  Submit cbc m; Print (MsgSolverFailed e)]))
        end
    end.
Proof.
  unfold SantaSolver_solve, bind, emit, get_self, put_engine, put_self, raise,
    ret, bind.
  destruct (formulate fams days_range) as [m [e|]]; simpl; [reflexivity|].
  destruct (o cbc m) as [[res [xv zv]]|e]; simpl;
    rewrite <- !app_assoc; reflexivity.
Qed.

(** The verdict depends on the formulation and on the solver only. *)
Lemma SantaSolver_solve_verdict o fams days_range w w' :
  fst (SantaSolver_solve o fams days_range w)
  = fst (SantaSolver_solve o fams days_range w').
Proof.
  rewrite !SantaSolver_solve_run. cbv zeta.
  destruct (formulate fams days_range) as [m [e|]]; [reflexivity|].
  destruct (o cbc m) as [[res [xv zv]]|e]; reflexivity.
Qed.

Lemma accepted_cases status :
  accepted status = true
  <-> status = optimal \/ status = feasible \/ status = maxTimeLimit.
Proof.
  split.
  - destruct status; simpl; intros H; try discriminate; auto.
  - intros [-> | [-> | ->]]; reflexivity.
Qed.

Lemma submissions_app t1 t2 :
  submissions (t1 ++ t2) = submissions t1 ++ submissions t2.
Proof. unfold submissions. apply flat_map_app. Qed.

(* ===================================================================== *)
(** ** Applying the results                                               *)
(* ===================================================================== *)

(** One turn of the loop over the raw assignments. *)
Lemma apply_loop_cons fam_id day rest n w :
  apply_loop ((fam_id, day) :: rest) n w
  = let s := self w in
    match PyDict.get fam_id (families s) with
    | None => apply_loop rest n w
    | Some fam =>
        let assigned := PyDict.set fam_id (assign_to fam day) (families s) in
        match PyDict.get day (days s) with
        | None =>
            (Raised KeyError,
             mkWorld (mkManager assigned (days s) (solver_engine s)) (trace w))
        | Some wd =>
            apply_loop rest (n + 1)
              (mkWorld (mkManager assigned
                          (PyDict.set day (add_family wd fam_id fam) (days s))
                          (solver_engine s))
                       (trace w))
        end
    end.
Proof.
  simpl. unfold bind, get_self, put_families, put_days, put_self, raise, bind.
  simpl.
  destruct (PyDict.get fam_id (families (self w))); [|reflexivity].
  simpl. destruct (PyDict.get day (days (self w))); reflexivity.
Qed.

Lemma apply_loop_trace items n w :
  trace (snd (apply_loop items n w)) = trace w.
Proof.
  revert n w. induction items as [|[fam_id day] rest IH]; intros n w.
  - reflexivity.
  - rewrite apply_loop_cons. cbv zeta.
    destruct (PyDict.get fam_id (families (self w))); [|apply IH].
    destruct (PyDict.get day (days (self w))); [|reflexivity].
    rewrite IH. reflexivity.
Qed.

Lemma _apply_results_submissions w :
  submissions (trace (snd (_apply_results w))) = submissions (trace w).
Proof.
  unfold _apply_results, bind, get_self, lift, put_families, put_self, emit,
    ret, bind.
  simpl.
  destruct (get_raw_assignments (solver_engine (self w))) as [raw|e];
    [|reflexivity].
  simpl.
  match goal with
  | |- context [apply_loop ?i ?n ?w0] =>
      pose proof (apply_loop_trace i n w0) as T;
      destruct (apply_loop i n w0) as [[k|e] w2]
  end; simpl in T |- *; [|now rewrite T].
  destruct (_ >? 0); simpl; rewrite ?submissions_app, T; simpl;
    now rewrite ?app_nil_r.
Qed.

Lemma print_occupancy_stats_submissions w :
  submissions (trace (snd (print_occupancy_stats w))) = submissions (trace w).
Proof.
  unfold print_occupancy_stats, bind, get_self, emit, raise. simpl.
  destruct (map current_occupancy (PyDict.values (days (self w))));
    simpl; [reflexivity|].
  rewrite submissions_app. simpl. now rewrite app_nil_r.
Qed.

(* ===================================================================== *)
(** ** The orchestrator                                                   *)
(* ===================================================================== *)

(** The solver adapter leaves the entities alone; it prints no assignment
    count, and it calls the solver once when the model was built. *)
Lemma SantaSolver_solve_frame o fams days_range w :
  let r := SantaSolver_solve o fams days_range w in
  families (self (snd r)) = families (self w) /\
  days (self (snd r)) = days (self w) /\
  exists t,
    trace (snd r) = trace w ++ t /\
    (forall n, ~ In (Print (MsgFamiliesAssigned n)) t) /\
    (forall m, formulate fams days_range = (m, None) ->
               submissions t = [(cbc, m)]).
Proof.
  cbv zeta. rewrite SantaSolver_solve_run. cbv zeta.
  destruct (formulate fams days_range) as [m [e|]].
  - simpl. repeat split. eexists. split; [reflexivity|]. split.
    + intros n [H|[]]; discriminate.
    + intros m' [=].
  - destruct (o cbc m) as [[res [xv zv]]|e]; simpl; repeat split;
      (eexists; split; [reflexivity|]; split;
       [ intros n H; simpl in H; intuition discriminate
       | intros m' [= <-]; reflexivity ]).
Qed.

(** [SolutionManager.solve], by the verdict of the adapter. *)
Lemma solve_run o w :
  solve o w
  = match SantaSolver_solve o (PyDict.values (families (self w)))
                            (PyDict.keys (days (self w)))
                            (mkWorld (self w)
                                     (trace w ++ [Print MsgStartingModelA])) with
    | (Returned true, w1) => (_apply_results ;; print_occupancy_stats) w1
    | (Returned false, w1) => emit (Print MsgNoFeasibleSolution) w1
    | (Raised e, w1) => (Raised e, w1)
    end.
Proof.
  unfold solve, bind, emit, get_self. simpl.
  destruct (SantaSolver_solve o _ _ _) as [[[|]|e] w1]; reflexivity.
Qed.

(** What the orchestrator does with a rejected verdict. *)
Lemma solve_rejected o w :
  fst (SantaSolver_solve o (PyDict.values (families (self w)))
                         (PyDict.keys (days (self w))) w) = Returned false ->
  exists w',
    solve o w = (Returned tt, w') /\
    families (self w') = families (self w) /\
    days (self w') = days (self w) /\
    exists t,
      trace w' = trace w ++ t ++ [Print MsgNoFeasibleSolution] /\
      forall n, ~ In (Print (MsgFamiliesAssigned n)) t.
Proof.
  intros H. rewrite solve_run.
  set (w0 := mkWorld (self w) (trace w ++ [Print MsgStartingModelA])).
  rewrite (SantaSolver_solve_verdict o _ _ w w0) in H.
  destruct (SantaSolver_solve_frame o (PyDict.values (families (self w)))
                                    (PyDict.keys (days (self w))) w0)
    as (Ff & Fd & t & Ft & Fn & _).
  destruct (SantaSolver_solve o _ _ w0) as [r w1].
  simpl in H, Ff, Fd, Ft. subst r.
  eexists. split; [reflexivity|]. simpl.
  split; [assumption|]. split; [assumption|].
  exists (Print MsgStartingModelA :: t). split.
  - rewrite Ft. simpl. now rewrite <- !app_assoc.
  - intros n [E|E]; [discriminate | exact (Fn n E)].
Qed.

(** C7. When the solver adapter reports a rejected verdict, the
    orchestrator returns without raising, leaves the families and the
    workshop days exactly as they were (families that were unassigned remain
    so, no occupancy or membership changes), reports the failure as its last
    message and reports no assignment. *)
Theorem C7_rejected_verdict_applies_nothing o w :
  fst (SantaSolver_solve o (PyDict.values (families (self w)))
                         (PyDict.keys (days (self w))) w) = Returned false ->
  exists w',
    solve o w = (Returned tt, w') /\
    families (self w') = families (self w) /\
    days (self w') = days (self w) /\
    ((forall f, In f (PyDict.values (families (self w))) ->
                assigned_day f = -1) ->
     forall f, In f (PyDict.values (families (self w'))) ->
               assigned_day f = -1) /\
    exists t,
      trace w' = trace w ++ t ++ [Print MsgNoFeasibleSolution] /\
      forall n, ~ In (Print (MsgFamiliesAssigned n)) t.
Proof.
  intros H. destruct (solve_rejected o w H) as (w' & Hs & Hf & Hd & Ht).
  exists w'. repeat split; try assumption.
  now rewrite Hf.
Qed.

(** C8. Once the model is built, [SantaSolver.solve] returns [True] exactly
    when the solver returns with termination condition optimal, feasible or
    maxTimeLimit, and [False] when the solver raises, as it does on an
    infeasible outcome; it never raises itself, and it calls the solver
    exactly once, with the fixed options (450 seconds, ratio 0.01).  In the
    orchestrator a whole run calls the solver once too; an accepted verdict,
    time-limited or not, is followed by [_apply_results] on the values the
    solver left, and after a rejected verdict, from an exception or from an
    infeasible outcome alike, the entities are as they were. *)
Theorem C8_solver_verdict o fams days_range m w :
  formulate fams days_range = (m, None) ->
  let run := SantaSolver_solve o fams days_range w in
  (fst run = Returned true
   <-> exists res vals,
        o cbc m = Returned (res, vals) /\
        (termination_condition res = optimal \/
         termination_condition res = feasible \/
         termination_condition res = maxTimeLimit)) /\
  (forall e, o cbc m = Raised e -> fst run = Returned false) /\
  (forall res vals, o cbc m = Returned (res, vals) ->
                    termination_condition res = infeasible ->
                    fst run = Returned false) /\
  (exists b, fst run = Returned b) /\
  submissions (trace (snd run)) = submissions (trace w) ++ [(cbc, m)] /\
  seconds cbc = 450 /\ ratio cbc = (1 # 100)%Q /\
  (fams = PyDict.values (families (self w)) ->
   days_range = PyDict.keys (days (self w)) ->
   submissions (trace (snd (solve o w))) = submissions (trace w) ++ [(cbc, m)] /\
   (fst run = Returned true ->
    exists w1,
      SantaSolver_solve o fams days_range
        (mkWorld (self w) (trace w ++ [Print MsgStartingModelA]))
      = (Returned true, w1) /\
      solve o w = (_apply_results ;; print_occupancy_stats) w1) /\
   (fst run = Returned false ->
    fst (solve o w) = Returned tt /\
    families (self (snd (solve o w))) = families (self w) /\
    days (self (snd (solve o w))) = days (self w))).
Proof.
  intros F run.
  assert (R := SantaSolver_solve_run o fams days_range w).
  fold run in R. cbv zeta in R. rewrite F in R.
  split; [|split; [|split; [|split; [|split; [|split; [|split]]]]]].
  - rewrite R. split.
    + destruct (o cbc m) as [[res [xv zv]]|e]; simpl; [|discriminate].
      intros [= A]. exists res, (xv, zv). split; [reflexivity|].
      now apply accepted_cases.
    + intros (res & [xv zv] & -> & A). simpl. f_equal.
      now apply accepted_cases.
  - intros e E. rewrite R, E. reflexivity.
  - intros res [xv zv] E T. rewrite R, E. simpl. now rewrite T.
  - rewrite R. destruct (o cbc m) as [[res [xv zv]]|e]; simpl; eauto.
  - rewrite R. destruct (o cbc m) as [[res [xv zv]]|e]; simpl;
      rewrite submissions_app; reflexivity.
  - reflexivity.
  - reflexivity.
  - intros -> ->.
    set (w0 := mkWorld (self w) (trace w ++ [Print MsgStartingModelA])).
    assert (V := SantaSolver_solve_verdict
                   o (PyDict.values (families (self w)))
                   (PyDict.keys (days (self w))) w w0).
    fold run in V.
    destruct (SantaSolver_solve_frame o (PyDict.values (families (self w)))
                                      (PyDict.keys (days (self w))) w0)
      as (Ff & Fd & t & Ft & _ & Fs).
    specialize (Fs m F).
    assert (S := solve_run o w). fold w0 in S.
    destruct (SantaSolver_solve o _ _ w0) as [r w1] eqn:E0.
    simpl in V, Ff, Fd, Ft.
    assert (Sub : submissions (trace w1) = submissions (trace w) ++ [(cbc, m)]).
    { rewrite Ft. unfold w0. simpl.
      rewrite !submissions_app, Fs. simpl. now rewrite app_nil_r. }
    split; [|split].
    + rewrite S. destruct r as [[|]|e]; simpl.
      * unfold bind.
        pose proof (_apply_results_submissions w1) as A.
        destruct (_apply_results w1) as [[u|e] w2]; simpl in A |- *.
        -- rewrite print_occupancy_stats_submissions. congruence.
        -- congruence.
      * rewrite submissions_app, Sub. simpl. now rewrite app_nil_r.
      * exact Sub.
    + intros T. rewrite T in V. subst r. exists w1. split; [reflexivity|].
      exact S.
    + intros T. rewrite T in V. subst r. rewrite S. simpl. auto.
Qed.

Lemma get_reset_families f k :
  PyDict.get k (reset_families f)
  = option_map (fun fam => assign_to fam (-1)) (PyDict.get k f).
Proof.
  induction f as [|[k' fam] r IH]; simpl; [reflexivity|].
  destruct (k' =? k); [reflexivity | exact IH].
Qed.

(** C10. A pair of the raw assignments whose family identifier is not a key
    of the repository is skipped: the loop behaves as if the pair were not
    there (same state, same count of assigned families, same outcome), and
    on its own the pair changes nothing and raises nothing, even when its
    day is no workshop day.  The reset that precedes the loop keeps the
    identifier unknown. *)
Theorem C10_unknown_family_skipped items1 items2 fam_id day n w :
  ~ In fam_id (PyDict.keys (families (self w))) ->
  apply_loop (items1 ++ (fam_id, day) :: items2) n w
  = apply_loop (items1 ++ items2) n w /\
  apply_loop [(fam_id, day)] n w = (Returned n, w) /\
  ~ In fam_id (PyDict.keys (reset_families (families (self w)))).
Proof.
  intros H. apply get_None_keys in H.
  rewrite <- get_None_keys. split; [|split].
  - revert n w H. induction items1 as [|[f' d'] rest IH]; intros n w H.
    + simpl app. rewrite apply_loop_cons. cbv zeta. now rewrite H.
    + simpl app. rewrite !apply_loop_cons. cbv zeta.
      destruct (PyDict.get f' (families (self w))) as [fam|] eqn:Ef;
        [|now apply IH].
      destruct (PyDict.get d' (days (self w))) as [wd|]; [|reflexivity].
      apply IH. simpl. rewrite get_set.
      destruct (f' =? fam_id) eqn:E; [|assumption].
      apply Z.eqb_eq in E. subst. congruence.
  - rewrite apply_loop_cons. cbv zeta. now rewrite H.
  - now rewrite get_reset_families, H.
Qed.

(* ===================================================================== *)
(** ** The instance                                                       *)
(* ===================================================================== *)

Lemma binary_onb_spec v m : binary_onb v m = true -> binary_on v m.
Proof.
  unfold binary_onb, binary_on. rewrite andb_true_iff, !forallb_forall.
  intros [Hx Hz]. split.
  - intros fam_id day H. exact (Hx _ H).
  - exact Hz.
Qed.

Lemma Scenario_fams :
  Scenario.fams = [Family_init 1 150 [5; 6; 7; 8; 9; 10; 11; 12; 13; 14];
                   Family_init 2 150 [5; 15; 16; 17; 18; 19; 20; 21; 22; 23]].
Proof. reflexivity. Qed.

(** C9, on the instance.  After a first run both families are on day 5,
    whose occupancy is 300 with the two families as members.  Applying the
    results a second time (directly, or by a second run of the whole
    pipeline) resets and reassigns the families, but day 5 keeps the state
    of the first application and adds to it: occupancy 600, each family
    twice among the members. *)
Theorem C9_second_application_accumulates :
  let w1 := snd (solve Scenario.optimal_oracle (mkWorld Scenario.manager [])) in
  let again := _apply_results w1 in
  let rerun := solve Scenario.optimal_oracle w1 in
  map assigned_day (PyDict.values (families (self w1))) = [5; 5] /\
  PyDict.get 5 (days (self w1)) = Some (mkWorkshopDay 5 [1; 2] 300) /\
  fst again = Returned tt /\
  map assigned_day (PyDict.values (families (self (snd again)))) = [5; 5] /\
  PyDict.get 5 (days (self (snd again)))
  = Some (mkWorkshopDay 5 [1; 2; 1; 2] 600) /\
  fst rerun = Returned tt /\
  PyDict.get 5 (days (self (snd rerun)))
  = Some (mkWorkshopDay 5 [1; 2; 1; 2] 600).
Proof.
  vm_compute. split; [reflexivity|]. split; [reflexivity|].
  split; [reflexivity|]. split; [reflexivity|]. split; [reflexivity|].
  split; reflexivity.
Qed.

(** The construction of the model is interrupted by a [KeyError] when a
    family requests a day outside the range, ... *)
Example formulate_day_out_of_range :
  snd (formulate [Family_init 1 4 [1; 2; 7]] [1; 2; 3]) = Some KeyError.
Proof. reflexivity. Qed.

(** ... by a [KeyError] when a family has more than ten preferences, ... *)
Example formulate_eleven_preferences :
  snd (formulate [Family_init 1 4 [1; 2; 3; 4; 5; 6; 7; 8; 9; 10; 11]]
                 [1; 2; 3; 4; 5; 6; 7; 8; 9; 10; 11])
  = Some KeyError.
Proof. reflexivity. Qed.

(** ... and by a [ValueError] when a family has no preference at all. *)
Example formulate_no_preference :
  snd (formulate [Family_init 1 4 []] [1; 2; 3]) = Some ValueError.
Proof. reflexivity. Qed.

(** On the instance the objective of the solution that puts both families
    on day 5 is 200, and day 5 is full. *)
Example Scenario_objective :
  option_map (fun o => eval Scenario.both_on_5 (fst o)) (Obj Scenario.built)
  = Some 200 /\
  occupancy Scenario.both_on_5 Scenario.fams 5 = MAX_CAPACITY.
Proof. split; reflexivity. Qed.

(** The hypotheses of the theorems, discharged on the instance. *)

Ltac in_fams H :=
  rewrite Scenario_fams in H; destruct H as [<-|[<-|[]]].


Lemma C2_at_most_one_day_witness :
  exists c, OneDay Scenario.built = Some c /\
            In (1, Le (py_sum (map (fun d => Var (var_x 1 d))
                                   [5; 6; 7; 8; 9; 10; 11; 12; 13; 14]))
                      (Num 1)) c.
Proof.
  apply (proj1 (C2_at_most_one_day
                  Scenario.fams Scenario.days_range Scenario.built
                  (Family_init 1 150 [5; 6; 7; 8; 9; 10; 11; 12; 13; 14])
                  ltac:(vm_compute; reflexivity)
                  ltac:(vm_compute; repeat (constructor; [simpl; lia|]);
                        constructor)
                  ltac:(vm_compute; left; reflexivity))).
Defined.

Lemma C3_unrequested_day_closed_witness :
  In 50 Scenario.days_range /\
  Scenario.both_on_5 (var_z 50) = 0 /\
  occupancy Scenario.both_on_5 Scenario.fams 50 = 0.
Proof.
  assert (D : In 50 Scenario.days_range)
    by (vm_compute; do 49 right; left; reflexivity).
  split; [exact D|].
  apply (C3_unrequested_day_closed
           Scenario.fams Scenario.days_range Scenario.built 50).
  - vm_compute. reflexivity.
  - exact D.
  - intros f H. in_fams H; simpl; lia.
  - apply binary_onb_spec. vm_compute. reflexivity.
  - vm_compute. reflexivity.
Defined.

Lemma C4_objective_is_total_score_witness :
  exists obj,
    objective_rule Scenario.fams = Returned obj /\
    eval Scenario.both_on_5 obj = 200.
Proof.
  destruct (C4_objective_is_total_score Scenario.fams) as (obj & Ho & _ & Hv & _).
  - intros f H. in_fams H; reflexivity.
  - exists obj. split; [exact Ho|]. rewrite Hv. reflexivity.
Defined.

Lemma C7_rejected_verdict_applies_nothing_witness :
  (exists w',
      solve Scenario.infeasible_oracle (mkWorld Scenario.manager [])
      = (Returned tt, w') /\
      families (self w') = families Scenario.manager /\
      days (self w') = days Scenario.manager) /\
  (exists w',
      solve Scenario.crashing_oracle (mkWorld Scenario.manager [])
      = (Returned tt, w') /\
      families (self w') = families Scenario.manager /\
      days (self w') = days Scenario.manager).
Proof.
  split.
  - destruct (C7_rejected_verdict_applies_nothing
                Scenario.infeasible_oracle (mkWorld Scenario.manager []))
      as (w' & Hs & Hf & Hd & _).
    + vm_compute. reflexivity.
    + exists w'. auto.
  - destruct (C7_rejected_verdict_applies_nothing
                Scenario.crashing_oracle (mkWorld Scenario.manager []))
      as (w' & Hs & Hf & Hd & _).
    + vm_compute. reflexivity.
    + exists w'. auto.
Defined.

Lemma C8_solver_verdict_witness :
  fst (SantaSolver_solve Scenario.time_limited_oracle Scenario.fams
                         Scenario.days_range (mkWorld Scenario.manager []))
  = Returned true
  <-> exists res vals,
       Scenario.time_limited_oracle cbc Scenario.built = Returned (res, vals) /\
       (termination_condition res = optimal \/
        termination_condition res = feasible \/
        termination_condition res = maxTimeLimit).
Proof.
  apply (C8_solver_verdict Scenario.time_limited_oracle Scenario.fams
           Scenario.days_range Scenario.built (mkWorld Scenario.manager [])).
  vm_compute. reflexivity.
Defined.

Lemma C10_unknown_family_skipped_witness :
  apply_loop ([(1, 5)] ++ (99, 7) :: [(2, 5)]) 0 (mkWorld Scenario.manager [])
  = apply_loop ([(1, 5)] ++ [(2, 5)]) 0 (mkWorld Scenario.manager []).
Proof.
  apply (C10_unknown_family_skipped [(1, 5)] [(2, 5)] 99 7 0
           (mkWorld Scenario.manager [])).
  vm_compute. lia.
Defined.

(* ===================================================================== *)
(** ** Further properties of the formulation                              *)
(* ===================================================================== *)

Lemma points_out_of_table rank : (10 <= rank)%nat -> points rank = None.
Proof.
  intros H. do 10 (destruct rank as [|rank]; [lia|]). reflexivity.
Qed.

Lemma objective_prefs_raises fam_id prefs rank total :
  (rank <= 10)%nat -> (10 < rank + List.length prefs)%nat ->
  objective_prefs fam_id prefs rank total = Raised KeyError.
Proof.
  revert rank total. induction prefs as [|d rest IH]; intros rank total H1 H2.
  - simpl in H2. lia.
  - simpl in H2. simpl.
    destruct (Nat.eq_dec rank 10) as [->|N]; [reflexivity|].
    rewrite points_score by lia. apply IH; lia.
Qed.

Lemma objective_families_ranked fams total :
  (forall f, In f fams -> (List.length (preferences f) <= 10)%nat) ->
  exists e,
    objective_families fams total = Returned e /\
    forall v, eval v e
              = eval v total
                + fold_right Z.add 0 (map (family_score_ranked v) fams).
Proof.
  revert total. induction fams as [|f rest IH]; intros total H.
  - exists total. split; [reflexivity|]. intros v. simpl. lia.
  - assert (L : (List.length (preferences f) <= 10)%nat) by (apply H; now left).
    destruct (objective_prefs_eval (id f) (preferences f) 0 total)
      as [t [Ht Hvt]]; [lia|].
    destruct (IH t) as [e [He Hve]]; [intros g Hg; apply H; now right|].
    exists e. simpl. rewrite Ht. split; [assumption|].
    intros v. rewrite Hve, Hvt. unfold family_score_ranked. simpl. lia.
Qed.

Lemma objective_families_raises fams total :
  (exists f, In f fams /\ (10 < List.length (preferences f))%nat) ->
  objective_families fams total = Raised KeyError.
Proof.
  revert total. induction fams as [|f rest IH]; intros total [g [Hg L]].
  - contradiction.
  - simpl.
    destruct (le_lt_dec (List.length (preferences f)) 10) as [Lf|Lf].
    + destruct (objective_prefs_eval (id f) (preferences f) 0 total)
        as [t [-> _]]; [lia|].
      apply IH. destruct Hg as [->|Hg]; [lia|eauto].
    + rewrite objective_prefs_raises; [reflexivity | lia | lia].
Qed.

Lemma preferences_length_cases fams :
  (forall f, In f fams -> (List.length (preferences f) <= 10)%nat) \/
  exists f, In f fams /\ (10 < List.length (preferences f))%nat.
Proof.
  induction fams as [|f rest IH]; [left; intros f []|].
  destruct (le_lt_dec (List.length (preferences f)) 10) as [L|L].
  - destruct IH as [IH|[g [Hg Lg]]].
    + left. intros g [<-|Hg]; auto.
    + right. exists g. simpl. auto.
  - right. exists f. simpl. auto.
Qed.

Lemma objective_rule_eval fams obj :
  objective_rule fams = Returned obj ->
  (forall f, In f fams -> (List.length (preferences f) <= 10)%nat) /\
  forall v, eval v obj = fold_right Z.add 0 (map (family_score_ranked v) fams).
Proof.
  unfold objective_rule. intros H.
  destruct (preferences_length_cases fams) as [D|D].
  - split; [exact D|].
    destruct (objective_families_ranked fams (Num 0) D) as [obj' [Ho Hv]].
    intros v. rewrite Ho in H. injection H as <-. rewrite Hv. simpl. lia.
  - rewrite (objective_families_raises fams (Num 0) D) in H. discriminate.
Qed.

(** X1. [objective_rule] raises, with a [KeyError], exactly when some
    family has more than ten preferences; otherwise it returns an expression
    whose value is the sum over the families and over the ranks they use of
    [x[family, preference[rank]]] times the score of the rank. *)
Theorem X1_objective_rule_table_bound fams :
  (objective_rule fams = Raised KeyError
   <-> exists f, In f fams /\ (10 < List.length (preferences f))%nat) /\
  (forall e, objective_rule fams = Raised e -> e = KeyError) /\
  ((forall f, In f fams -> (List.length (preferences f) <= 10)%nat)
   <-> exists obj, objective_rule fams = Returned obj) /\
  (forall obj v,
      objective_rule fams = Returned obj ->
      eval v obj = fold_right Z.add 0 (map (family_score_ranked v) fams)).
Proof.
  assert (E : forall obj v,
             objective_rule fams = Returned obj ->
             eval v obj
             = fold_right Z.add 0 (map (family_score_ranked v) fams))
    by (intros obj v H; now apply objective_rule_eval).
  unfold objective_rule in *.
  destruct (preferences_length_cases fams) as [D|D].
  - destruct (objective_families_ranked fams (Num 0) D) as [obj [Ho Hv]].
    rewrite Ho. repeat split; try discriminate.
    + intros [f [Hf L]]. specialize (D f Hf). lia.
    + eauto.
    + auto.
    + intros obj' v H. apply E. now rewrite Ho.
  - rewrite (objective_families_raises fams (Num 0) D).
    repeat split; auto; try discriminate.
    + now intros e [= <-].
    + intros H. destruct D as [f [Hf L]]. specialize (H f Hf). lia.
    + intros [obj [=]].
Qed.

Lemma demand_prefs_total f prefs m :
  (forall d, In d prefs -> PyDict.get d m <> None) ->
  exists m', demand_prefs f prefs m = Returned m'.
Proof.
  revert m. induction prefs as [|a rest IH]; intros m H; simpl; [eauto|].
  destruct (PyDict.get a m) as [l|] eqn:Ea;
    [|exfalso; apply (H a); [now left | assumption]].
  apply IH. intros d Hd. rewrite get_set.
  destruct (a =? d); [discriminate | apply H; now right].
Qed.

Lemma demand_families_total fams m :
  (forall f d, In f fams -> In d (preferences f) -> PyDict.get d m <> None) ->
  exists m', demand_families fams m = Returned m'.
Proof.
  revert m. induction fams as [|f rest IH]; intros m H; simpl; [eauto|].
  destruct (demand_prefs_total f (preferences f) m) as [m1 E1];
    [intros d Hd; apply (H f d); [now left | assumption]|].
  rewrite E1. apply IH. intros g d Hg Hd.
  rewrite (demand_prefs_get _ _ _ _ E1 d).
  specialize (H g d (or_intror Hg) Hd).
  destruct (PyDict.get d m); [discriminate | contradiction].
Qed.

Lemma demand_prefs_KeyError f prefs m e :
  demand_prefs f prefs m = Raised e -> e = KeyError.
Proof.
  revert m. induction prefs as [|a rest IH]; intros m; simpl; [discriminate|].
  destruct (PyDict.get a m); [apply IH | now intros [= <-]].
Qed.

Lemma demand_families_KeyError fams m e :
  demand_families fams m = Raised e -> e = KeyError.
Proof.
  revert m. induction fams as [|f rest IH]; intros m; simpl; [discriminate|].
  destruct (demand_prefs f (preferences f) m) eqn:E; [apply IH|].
  intros [= <-]. eapply demand_prefs_KeyError; eauto.
Qed.

Lemma day_demand_map_total fams days_range :
  (forall f d, In f fams -> In d (preferences f) -> In d days_range) ->
  exists dm, day_demand_map fams days_range = Returned dm.
Proof.
  intros H. apply demand_families_total. intros f d Hf Hd.
  rewrite empty_demand_get.
  now rewrite (proj2 (existsb_eqb_In d days_range) (H f d Hf Hd)).
Qed.

(** X2. Building the demand map raises, with a [KeyError], exactly when
    some family prefers a day that is not in [days_range]; it returns
    exactly when every preferred day is in the range. *)
Theorem X2_day_demand_map_KeyError fams days_range :
  ((exists dm, day_demand_map fams days_range = Returned dm)
   <-> forall f d, In f fams -> In d (preferences f) -> In d days_range) /\
  (day_demand_map fams days_range = Raised KeyError
   <-> exists f d, In f fams /\ In d (preferences f) /\ ~ In d days_range) /\
  (forall e, day_demand_map fams days_range = Raised e -> e = KeyError).
Proof.
  assert (K : forall e, day_demand_map fams days_range = Raised e ->
                        e = KeyError)
    by (intros e; apply demand_families_KeyError).
  split; [|split; [|exact K]].
  - split.
    + intros [dm H]. exact (day_demand_map_range _ _ _ H).
    + apply day_demand_map_total.
  - split.
    + intros H.
      assert (N : ~ forall f d, In f fams -> In d (preferences f) ->
                                In d days_range).
      { intros A. destruct (day_demand_map_total _ _ A) as [dm E]. congruence. }
      clear H K. induction fams as [|f rest IH].
      * exfalso. apply N. intros f d [].
      * assert (Df : (forall d, In d (preferences f) -> In d days_range) \/
                     exists d, In d (preferences f) /\ ~ In d days_range).
        { induction (preferences f) as [|a r IHr]; [left; intros d []|].
          destruct (in_dec Z.eq_dec a days_range) as [Ia|Ia].
          - destruct IHr as [IHr|[d [Hd Nd]]].
            + left. intros d [<-|Hd]; auto.
            + right. exists d. simpl. auto.
          - right. exists a. simpl. auto. }
        destruct Df as [Df|[d [Hd Nd]]].
        -- destruct IH as (g & d & Hg & Hd & Nd).
           ++ intros A. apply N. intros g d [<-|Hg] Hd; eauto.
           ++ exists g, d. simpl. auto.
        -- exists f, d. simpl. auto.
    + intros (f & d & Hf & Hd & Nd).
      destruct (day_demand_map fams days_range) as [dm|e] eqn:E.
      * exfalso. apply Nd. exact (day_demand_map_range _ _ _ E f d Hf Hd).
      * now rewrite (K e eq_refl).
Qed.

Lemma demand_of_In fams d f :
  In f (demand_of fams d) <-> In f fams /\ In d (preferences f).
Proof.
  unfold demand_of. rewrite in_flat_map. split.
  - intros [g [Hg H]]. apply in_map_iff in H as [d' [<- Hd']].
    apply filter_In in Hd' as [Hd' E]. apply Z.eqb_eq in E. subst d'. auto.
  - intros [Hf Hd]. exists f. split; [assumption|].
    apply in_map_iff. exists d. split; [reflexivity|].
    apply filter_In. split; [assumption | apply Z.eqb_refl].
Qed.

Lemma demand_of_NoDup fams d :
  (forall f, In f fams -> NoDup (preferences f)) ->
  demand_of fams d = filter (fun f => lists f d) fams.
Proof.
  induction fams as [|f rest IH]; intros H; simpl; [reflexivity|].
  rewrite IH by (intros g Hg; apply H; now right).
  rewrite filter_eqb_NoDup by (apply H; now left).
  change (existsb (Z.eqb d) (preferences f)) with (lists f d).
  destruct (lists f d); reflexivity.
Qed.

(** X3. In a demand map that was built, a day of the range is mapped to the
    families that list it (exactly the families of the input that list the
    day, in input order, when no family lists a day twice), and a day
    outside the range has no entry. *)
Theorem X3_day_demand_map_contents fams days_range dm d :
  day_demand_map fams days_range = Returned dm ->
  (In d days_range ->
   exists demand,
     PyDict.get d dm = Some demand /\
     (forall f, In f demand <-> In f fams /\ In d (preferences f)) /\
     ((forall f, In f fams -> NoDup (preferences f)) ->
      demand = filter (fun f => lists f d) fams)) /\
  (~ In d days_range -> PyDict.get d dm = None).
Proof.
  intros H. pose proof (day_demand_map_get _ _ _ H d) as G. split.
  - intros Hd. rewrite (proj2 (existsb_eqb_In d days_range) Hd) in G.
    exists (demand_of fams d). split; [assumption|]. split.
    + intros f. apply demand_of_In.
    + apply demand_of_NoDup.
  - intros Hd. destruct (existsb (Z.eqb d) days_range) eqn:E; [|assumption].
    apply existsb_eqb_In in E. contradiction.
Qed.

Lemma fold_left_Add_shape ts a b :
  exists a' b', fold_left Add ts (Add a b) = Add a' b'.
Proof.
  revert a b. induction ts as [|t r IH]; intros a b; simpl; eauto.
Qed.

Lemma py_compare_sum_nonempty t ts b :
  py_compare (Le (py_sum (t :: ts)) b) = Expression (Le (py_sum (t :: ts)) b).
Proof.
  unfold py_sum. simpl.
  destruct (fold_left_Add_shape ts (Num 0) t) as (a' & b' & ->). reflexivity.
Qed.

Lemma find_by_id fams fam_id :
  In fam_id (map id fams) ->
  exists f, find (fun g => id g =? fam_id) fams = Some f /\
            In f fams /\ id f = fam_id.
Proof.
  intros H. destruct (find (fun g => id g =? fam_id) fams) as [f|] eqn:E.
  - apply find_some in E as [Hf Ef]. apply Z.eqb_eq in Ef. eauto.
  - apply in_map_iff in H as [g [Eg Hg]].
    pose proof (find_none _ _ E g Hg) as N. simpl in N.
    rewrite Eg, Z.eqb_refl in N. discriminate.
Qed.

Lemma pyo_Constraint_total index rule :
  (forall i, In i index ->
             (exists e, rule i = Returned (Expression e)) \/
             rule i = Returned Skip) ->
  exists c, pyo_Constraint index rule = Returned c.
Proof.
  induction index as [|j rest IH]; intros H; simpl; [eauto|].
  destruct IH as [c Hc]; [intros i Hi; apply H; now right|].
  rewrite Hc.
  destruct (H j (or_introl eq_refl)) as [[e ->] | ->]; eauto.
Qed.

Lemma pyo_Constraint_every_index index rule :
  (forall i, In i index -> exists e, rule i = Returned (Expression e)) ->
  exists c, pyo_Constraint index rule = Returned c /\ map fst c = index.
Proof.
  induction index as [|j rest IH]; intros H; simpl; [eauto|].
  destruct IH as [c [Hc Hk]]; [intros i Hi; apply H; now right|].
  rewrite Hc. destruct (H j (or_introl eq_refl)) as [e ->].
  eexists. split; [reflexivity|]. simpl. now rewrite Hk.
Qed.

Lemma formulate_built fams days_range obj c1 dm c2 c3 :
  objective_rule fams = Returned obj ->
  pyo_Constraint (pyo_Set Z.eqb (map id fams)) (one_day_rule fams)
    = Returned c1 ->
  day_demand_map fams days_range = Returned dm ->
  pyo_Constraint (pyo_Set Z.eqb days_range) (min_opening_rule dm)
    = Returned c2 ->
  pyo_Constraint (pyo_Set Z.eqb days_range) (max_opening_rule dm)
    = Returned c3 ->
  formulate fams days_range
  = (with_MaxOpen
       (with_MinOpen
          (with_OneDay
             (with_Obj (sets_and_variables fams days_range) obj) c1) c2) c3,
     None).
Proof.
  intros E0 E1 E2 E3 E4. unfold formulate. cbv zeta. rewrite E0.
  change (Families (with_Obj (sets_and_variables fams days_range) obj))
    with (pyo_Set Z.eqb (map id fams)).
  rewrite E1.
  change (Days (with_OneDay (with_Obj (sets_and_variables fams days_range) obj) c1))
    with (pyo_Set Z.eqb days_range).
  rewrite E2, E3.
  change (Days (with_MinOpen
                  (with_OneDay
                     (with_Obj (sets_and_variables fams days_range) obj) c1) c2))
    with (pyo_Set Z.eqb days_range).
  now rewrite E4.
Qed.

(** The formulation of families with one to ten preferences, all of them
    days of the range, is built to the end. *)
Lemma formulate_completes fams days_range :
  (forall f, In f fams ->
             (1 <= List.length (preferences f) <= 10)%nat) ->
  (forall f d, In f fams -> In d (preferences f) -> In d days_range) ->
  exists obj c1 dm c2 c3,
    objective_rule fams = Returned obj /\
    pyo_Constraint (pyo_Set Z.eqb (map id fams)) (one_day_rule fams)
      = Returned c1 /\
    map fst c1 = pyo_Set Z.eqb (map id fams) /\
    day_demand_map fams days_range = Returned dm /\
    pyo_Constraint (pyo_Set Z.eqb days_range) (min_opening_rule dm)
      = Returned c2 /\
    map fst c2 = pyo_Set Z.eqb days_range /\
    pyo_Constraint (pyo_Set Z.eqb days_range) (max_opening_rule dm)
      = Returned c3 /\
    formulate fams days_range
    = (with_MaxOpen
         (with_MinOpen
            (with_OneDay
               (with_Obj (sets_and_variables fams days_range) obj) c1) c2) c3,
       None).
Proof.
  intros Hlen Hrange.
  destruct (objective_families_ranked fams (Num 0)) as [obj [Ho _]];
    [intros f Hf; apply Hlen; assumption|].
  destruct (pyo_Constraint_every_index
              (pyo_Set Z.eqb (map id fams)) (one_day_rule fams))
    as [c1 [H1 K1]].
  { intros i Hi. apply (proj1 (pyo_Set_In Z.eqb Z.eqb_eq _ _)) in Hi.
    destruct (find_by_id fams i Hi) as (f & Ef & Hf & _).
    unfold one_day_rule. rewrite Ef.
    specialize (Hlen f Hf).
    destruct (preferences f) as [|d r]; [simpl in Hlen; lia|].
    simpl map. rewrite py_compare_sum_nonempty. eauto. }
  destruct (day_demand_map_total fams days_range Hrange) as [dm Hdm].
  assert (G : forall d, In d (pyo_Set Z.eqb days_range) ->
                        PyDict.get d dm = Some (demand_of fams d)).
  { intros d Hd. apply (proj1 (pyo_Set_In Z.eqb Z.eqb_eq _ _)) in Hd.
    rewrite (day_demand_map_get _ _ _ Hdm d).
    now rewrite (proj2 (existsb_eqb_In d days_range) Hd). }
  destruct (pyo_Constraint_every_index
              (pyo_Set Z.eqb days_range) (min_opening_rule dm))
    as [c2 [H2 K2]].
  { intros d Hd. unfold min_opening_rule. rewrite (G d Hd).
    destruct (demand_of fams d); rewrite py_compare_Ge_Mul; eauto. }
  destruct (pyo_Constraint_total
              (pyo_Set Z.eqb days_range) (max_opening_rule dm))
    as [c3 H3].
  { intros d Hd. unfold max_opening_rule. rewrite (G d Hd).
    destruct (demand_of fams d); [now right|].
    left. rewrite py_compare_Le_Mul. eauto. }
  exists obj, c1, dm, c2, c3.
  repeat (split; [assumption|]).
  apply (formulate_built _ _ obj c1 dm c2 c3); assumption.
Qed.

(** X4. When every family has between one and ten preferences and every
    preferred day is in [days_range], the model is built to the end: it has
    an objective, one OneDay constraint per family identifier, one MinOpen
    constraint per day, and a MaxOpen constraint for exactly the days that
    some family lists. *)
Theorem X4_formulate_completes fams days_range :
  (forall f, In f fams ->
             (1 <= List.length (preferences f) <= 10)%nat) ->
  (forall f d, In f fams -> In d (preferences f) -> In d days_range) ->
  exists m obj c1 c2 c3,
    formulate fams days_range = (m, None) /\
    Obj m = Some (obj, maximize) /\
    OneDay m = Some c1 /\ map fst c1 = Families m /\
    MinOpen m = Some c2 /\ map fst c2 = Days m /\
    MaxOpen m = Some c3 /\
    (forall d, In d (map fst c3)
               <-> In d days_range /\
                   exists f, In f fams /\ In d (preferences f)).
Proof.
  intros Hlen Hrange.
  destruct (formulate_completes fams days_range Hlen Hrange)
    as (obj & c1 & dm & c2 & c3 & Ho & H1 & K1 & Hdm & H2 & K2 & H3 & F).
  eexists. exists obj, c1, c2, c3.
  split; [exact F|]. simpl.
  repeat (split; [first [reflexivity | assumption]|]).
  intros d. split.
  - intros Hd. apply in_map_iff in Hd as [[d' e] [<- Hin]].
    apply (pyo_Constraint_In _ _ _ H3) in Hin as [Hi R]. simpl.
    apply (proj1 (pyo_Set_In Z.eqb Z.eqb_eq _ _)) in Hi. split; [assumption|].
    unfold max_opening_rule in R.
    rewrite (day_demand_map_get _ _ _ Hdm d'),
      (proj2 (existsb_eqb_In d' days_range) Hi) in R.
    destruct (demand_of fams d') as [|f l] eqn:D; [discriminate|].
    assert (Hf : In f (demand_of fams d')) by (rewrite D; now left).
    apply demand_of_In in Hf. eauto.
  - intros [Hd (f & Hf & Hp)].
    assert (Hin : In f (demand_of fams d)) by (apply demand_of_In; auto).
    destruct (demand_of fams d) as [|g l] eqn:D; [contradiction|].
    apply in_map_iff.
    exists (d, Le (occupancy_expr d (g :: l)) (Mul (Num 300) (Var (var_z d)))).
    split; [reflexivity|].
    apply (pyo_Constraint_In _ _ _ H3). split.
    + now apply (pyo_Set_In Z.eqb Z.eqb_eq).
    + unfold max_opening_rule.
      rewrite (day_demand_map_get _ _ _ Hdm d),
        (proj2 (existsb_eqb_In d days_range) Hd), D.
      now rewrite py_compare_Le_Mul.
Qed.

(** The capacity rules tie the occupancy of a day to its indicator. *)
Lemma capacity_bounds fams days_range m v d :
  formulate fams days_range = (m, None) ->
  (forall f, In f fams -> NoDup (preferences f)) ->
  binary_on v m ->
  satisfies v (MinOpen m) = true ->
  satisfies v (MaxOpen m) = true ->
  In d days_range ->
  (v (var_z d) = 0 \/ v (var_z d) = 1) /\
  100 * v (var_z d) <= occupancy v fams d <= 300 * v (var_z d).
Proof.
  intros F Hnd Hb Hmin Hmax Ed.
  assert (Fm : fst (formulate fams days_range) = m) by now rewrite F.
  destruct (formulate_ok _ _ _ F)
    as (obj & c1 & dm & c2 & c3 & _ & _ & Hdm & H2 & H3 & ->).
  simpl in Hmin, Hmax. rewrite sat_component_In in Hmin, Hmax.
  pose proof (pyo_Constraint_In _ _ _ H2) as I2.
  pose proof (pyo_Constraint_In _ _ _ H3) as I3.
  pose proof (day_demand_map_get _ _ _ Hdm d) as G.
  rewrite (proj2 (existsb_eqb_In d days_range) Ed) in G.
  assert (Hd : In d (pyo_Set Z.eqb days_range))
    by (apply pyo_Set_In; [exact Z.eqb_eq | assumption]).
  pose proof (binary_on_z _ _ _ _ Fm Hb d Ed) as Bz.
  apply is_binary_cases in Bz. split; [exact Bz|].
  rewrite <- (eval_occupancy_expr v fams d Hnd)
    by (intros f Hf Hp; eapply binary_on_x; eauto).
  destruct (demand_of fams d) as [|f l] eqn:Dm.
  - assert (S2 : sat v (Ge (Num 0) (Mul (Num 100) (Var (var_z d)))) = true).
    { apply (Hmin d). apply I2. split; [assumption|].
      unfold min_opening_rule. now rewrite G. }
    unfold sat in S2. cbn [eval] in S2. apply Z.geb_le in S2.
    change (eval v (occupancy_expr d [])) with 0. lia.
  - assert (S2 : sat v (Ge (occupancy_expr d (f :: l))
                           (Mul (Num 100) (Var (var_z d)))) = true).
    { apply (Hmin d). apply I2. split; [assumption|].
      unfold min_opening_rule. now rewrite G, py_compare_Ge_Mul. }
    assert (S3 : sat v (Le (occupancy_expr d (f :: l))
                           (Mul (Num 300) (Var (var_z d)))) = true).
    { apply (Hmax d). apply I3. split; [assumption|].
      unfold max_opening_rule. now rewrite G, py_compare_Le_Mul. }
    unfold sat in S2, S3. cbn [eval] in S2, S3.
    apply Z.geb_le in S2. apply Z.leb_le in S3. lia.
Qed.

Lemma positive_sum_nil (l : list Family) :
  (forall f, In f l -> 0 < n_members f) ->
  fold_right Z.add 0 (map n_members l) = 0 -> l = [].
Proof.
  intros Hpos. destruct l as [|f r]; [reflexivity|]. simpl. intros H.
  assert (0 <= fold_right Z.add 0 (map n_members r)).
  { clear H. induction r as [|g r' IH]; simpl; [lia|].
    assert (0 < n_members g) by (apply Hpos; simpl; auto).
    assert (0 <= fold_right Z.add 0 (map n_members r'))
      by (apply IH; intros h Hh; apply Hpos; simpl in *; tauto).
    lia. }
  assert (0 < n_members f) by (apply Hpos; now left). lia.
Qed.

(** X5. In every valuation of the binary variables that satisfies MinOpen
    and MaxOpen (families without a day listed twice), the indicator of a
    day of the range tells whether the day is used: it is 0 exactly when the
    occupancy is 0 and 1 exactly when the occupancy is in [[100, 300]]; and
    when every family has a positive size, closing a day sets to 0 the
    variable of every family that lists it. *)
Theorem X5_indicator_matches_occupancy fams days_range m v d :
  formulate fams days_range = (m, None) ->
  (forall f, In f fams -> NoDup (preferences f)) ->
  binary_on v m ->
  satisfies v (MinOpen m) = true ->
  satisfies v (MaxOpen m) = true ->
  In d days_range ->
  (v (var_z d) = 0 <-> occupancy v fams d = 0) /\
  (v (var_z d) = 1
   <-> MIN_CAPACITY <= occupancy v fams d <= MAX_CAPACITY) /\
  ((forall f, In f fams -> 0 < n_members f) ->
   v (var_z d) = 0 ->
   forall f, In f fams -> In d (preferences f) -> v (var_x (id f) d) = 0).
Proof.
  intros F Hnd Hb Hmin Hmax Ed.
  destruct (capacity_bounds _ _ _ _ _ F Hnd Hb Hmin Hmax Ed) as [Bz Hocc].
  unfold MIN_CAPACITY, MAX_CAPACITY.
  split; [lia|]. split; [lia|].
  intros Hpos Hz f Hf Hp.
  assert (O : occupancy v fams d = 0) by lia.
  unfold occupancy in O. apply positive_sum_nil in O.
  - assert (Fm : fst (formulate fams days_range) = m) by now rewrite F.
    pose proof (binary_on_x _ _ _ _ Fm Hb f d Hf Hp) as B.
    apply is_binary_cases in B. destruct B as [B|B]; [assumption|].
    exfalso.
    assert (I : In f (filter (fun f => lists f d && (v (var_x (id f) d) =? 1))
                             fams)).
    { apply filter_In. split; [assumption|].
      rewrite (proj2 (lists_In f d) Hp), B. reflexivity. }
    rewrite O in I. contradiction.
  - intros g Hg. apply filter_In in Hg as [Hg _]. auto.
Qed.

(* --------------------------------------------------------------------- *)

Lemma score_table_range rank : 0 <= score_table rank <= 100.
Proof.
  do 10 (destruct rank as [|rank]; [simpl; lia|]). simpl. lia.
Qed.

Lemma nth_seq_map (g : Z -> Z) l :
  map (fun i => g (nth i l 0)) (seq 0 (List.length l)) = map g l.
Proof.
  induction l as [|a r IH]; [reflexivity|].
  cbn [List.length]. rewrite <- cons_seq, <- seq_shift.
  cbn [map nth]. rewrite map_map. cbn [nth]. now rewrite IH.
Qed.

Lemma scaled_sum_bounds (a : nat -> Z) l :
  (forall i, In i l -> 0 <= a i) ->
  0 <= fold_right Z.add 0 (map (fun i => a i * score_table i) l)
  <= 100 * fold_right Z.add 0 (map a l).
Proof.
  induction l as [|i r IH]; intros H; cbn [map fold_right]; [lia|].
  assert (0 <= a i) by (apply H; now left).
  pose proof (score_table_range i).
  assert (IH' := IH (fun j Hj => H j (or_intror Hj))).
  assert (0 <= a i * score_table i <= 100 * a i) by nia.
  lia.
Qed.

(** The one-day constraint of a family, once the model is built. *)
Lemma one_day_sum fams days_range m v f :
  formulate fams days_range = (m, None) ->
  NoDup (map id fams) -> In f fams ->
  binary_on v m -> satisfies v (OneDay m) = true ->
  (forall d, In d (preferences f) -> 0 <= v (var_x (id f) d) <= 1) /\
  fold_right Z.add 0 (map (fun d => v (var_x (id f) d)) (preferences f)) <= 1.
Proof.
  intros F Hid Hf Hb Hs.
  assert (Fm : fst (formulate fams days_range) = m) by now rewrite F.
  split.
  - intros d Hd. pose proof (binary_on_x _ _ _ _ Fm Hb f d Hf Hd) as B.
    apply is_binary_cases in B. lia.
  - destruct (formulate_ok _ _ _ F)
      as (obj & c1 & dm & c2 & c3 & _ & H1 & _ & _ & _ & ->).
    simpl in Hs. rewrite sat_component_In in Hs.
    assert (Hi : In (id f) (pyo_Set Z.eqb (map id fams)))
      by (apply (pyo_Set_In Z.eqb Z.eqb_eq); now apply in_map).
    destruct (pyo_Constraint_defined _ _ _ H1 _ Hi) as [[e He]|He];
      unfold one_day_rule in He;
      rewrite (find_unique_id _ _ Hid Hf) in He;
      apply Returned_inj in He.
    + assert (Hin : In (id f, e) c1).
      { apply (pyo_Constraint_In _ _ _ H1). split; [assumption|].
        unfold one_day_rule. now rewrite (find_unique_id _ _ Hid Hf), He. }
      specialize (Hs _ _ Hin). apply py_compare_Expression in He. subst e.
      unfold sat in Hs. cbn [eval] in Hs.
      rewrite eval_py_sum, map_map in Hs. cbn [eval] in Hs.
      now apply Z.leb_le in Hs.
    + now apply py_compare_not_Skip in He.
Qed.

(** X6. For unique identifiers, in every valuation of the binary variables
    that satisfies the OneDay constraints every family contributes between
    0 and 100 to the objective, so the objective lies between 0 and 100
    times the number of families. *)
Theorem X6_objective_bounds fams days_range m v :
  formulate fams days_range = (m, None) ->
  NoDup (map id fams) ->
  binary_on v m ->
  satisfies v (OneDay m) = true ->
  (forall f, In f fams -> 0 <= family_score_ranked v f <= 100) /\
  exists obj,
    Obj m = Some (obj, maximize) /\
    0 <= eval v obj <= 100 * Z.of_nat (List.length fams).
Proof.
  intros F Hid Hb Hs.
  assert (B : forall f, In f fams -> 0 <= family_score_ranked v f <= 100).
  { intros f Hf.
    destruct (one_day_sum _ _ _ _ _ F Hid Hf Hb Hs) as [Hx Hsum].
    unfold family_score_ranked.
    pose proof (scaled_sum_bounds
                  (fun i => v (var_x (id f) (nth i (preferences f) 0)))
                  (seq 0 (List.length (preferences f)))) as S.
    cbv beta in S.
    rewrite (nth_seq_map (fun d => v (var_x (id f) d))) in S.
    assert (P : forall i, In i (seq 0 (List.length (preferences f))) ->
                          0 <= v (var_x (id f) (nth i (preferences f) 0))).
    { intros i Hi. apply in_seq in Hi. apply Hx. apply nth_In. lia. }
    specialize (S P). lia. }
  split; [exact B|].
  destruct (formulate_ok _ _ _ F)
    as (obj & c1 & dm & c2 & c3 & Ho & _ & _ & _ & _ & ->).
  exists obj. split; [reflexivity|].
  destruct (objective_rule_eval _ _ Ho) as [_ E]. rewrite E.
  clear - B. induction fams as [|f rest IH]; [simpl; lia|].
  cbn [map fold_right List.length]. rewrite Nat2Z.inj_succ.
  pose proof (B f (or_introl eq_refl)).
  assert (IH' := IH (fun g Hg => B g (or_intror Hg))). lia.
Qed.

(* ===================================================================== *)
(** ** The capacity rule and its encoding                                  *)
(* ===================================================================== *)

Lemma occupancy_ext v v' fams d :
  (forall k, v (var_x k d) = v' (var_x k d)) ->
  occupancy v fams d = occupancy v' fams d.
Proof.
  intros H. unfold occupancy. do 2 f_equal.
  apply filter_ext. intros f. now rewrite H.
Qed.

Lemma occupancy_le_demand v fams d :
  (forall f, In f fams -> 0 <= n_members f) ->
  0 <= occupancy v fams d
  <= fold_right Z.add 0 (map n_members (filter (fun f => lists f d) fams)).
Proof.
  unfold occupancy. induction fams as [|f rest IH]; intros H; simpl; [lia|].
  assert (0 <= n_members f) by (apply H; now left).
  assert (IH' := IH (fun g Hg => H g (or_intror Hg))).
  destruct (lists f d); simpl; [|exact IH'].
  destruct (v (var_x (id f) d) =? 1); simpl; lia.
Qed.

(** X20. A day of the range whose total demand (the sizes of all the
    families that list it) is below 100 cannot open: in every valuation of
    the binary variables that satisfies MinOpen and MaxOpen its indicator
    and its occupancy are 0, and with positive sizes no family is assigned
    to it. *)
Theorem X20_insufficient_demand_closes_day fams days_range m v d :
  formulate fams days_range = (m, None) ->
  (forall f, In f fams -> NoDup (preferences f)) ->
  (forall f, In f fams -> 0 < n_members f) ->
  binary_on v m ->
  satisfies v (MinOpen m) = true ->
  satisfies v (MaxOpen m) = true ->
  In d days_range ->
  fold_right Z.add 0 (map n_members (filter (fun f => lists f d) fams))
  < MIN_CAPACITY ->
  v (var_z d) = 0 /\ occupancy v fams d = 0 /\
  forall f, In f fams -> In d (preferences f) -> v (var_x (id f) d) = 0.
Proof.
  intros F Hnd Hpos Hb Hmin Hmax Ed Hlow. unfold MIN_CAPACITY in Hlow.
  destruct (capacity_bounds _ _ _ _ _ F Hnd Hb Hmin Hmax Ed) as [Bz Hocc].
  pose proof (occupancy_le_demand v fams d) as Hle.
  assert (Z0 : v (var_z d) = 0).
  { destruct Bz as [Bz|Bz]; [assumption|].
    assert (forall f, In f fams -> 0 <= n_members f)
      by (intros f Hf; specialize (Hpos f Hf); lia).
    specialize (Hle H). lia. }
  assert (O : occupancy v fams d = 0) by lia.
  split; [assumption|]. split; [assumption|].
  intros f Hf Hp.
  unfold occupancy in O. apply positive_sum_nil in O.
  - assert (Fm : fst (formulate fams days_range) = m) by now rewrite F.
    pose proof (binary_on_x _ _ _ _ Fm Hb f d Hf Hp) as B.
    apply is_binary_cases in B. destruct B as [B|B]; [assumption|].
    exfalso.
    assert (I : In f (filter (fun f => lists f d && (v (var_x (id f) d) =? 1))
                             fams)).
    { apply filter_In. split; [assumption|].
      rewrite (proj2 (lists_In f d) Hp), B. reflexivity. }
    rewrite O in I. contradiction.
  - intros g Hg. apply filter_In in Hg as [Hg _]. auto.
Qed.

(* --------------------------------------------------------------------- *)

Lemma indicator_sum_NoDup (d' : Z) l :
  NoDup l ->
  0 <= fold_right Z.add 0 (map (fun d => if d' =? d then 1 else 0) l) <= 1.
Proof.
  induction 1 as [|a r Ha _ IH]; simpl; [lia|].
  destruct (d' =? a) eqn:E; [|lia].
  apply Z.eqb_eq in E. subst a.
  assert (Z0 : fold_right Z.add 0
                 (map (fun d => if d' =? d then 1 else 0) r) = 0).
  { apply sum_all_zero. intros b Hb.
    destruct (d' =? b) eqn:Eb; [|reflexivity].
    apply Z.eqb_eq in Eb. subst b. contradiction. }
  lia.
Qed.

Lemma assignment_valuation_binary assign fams y :
  is_binary (assignment_valuation assign fams y) = true.
Proof.
  destruct y as [k d|d]; simpl.
  - destruct (assign k) as [d'|]; [|reflexivity].
    destruct (d' =? d); reflexivity.
  - destruct (occupancy (assignment_x assign) fams d =? 0); reflexivity.
Qed.

(** X21. The encoding loses no solution.  Take any assignment of days to
    family identifiers such that every day of the range ends up with nobody
    or with an occupancy in [[100, 300]] (families without a day listed
    twice).  The valuation that describes it, with a day open exactly when
    somebody is on it, has binary values and satisfies the OneDay, MinOpen
    and MaxOpen constraints of the built model. *)
Theorem X21_rule_respecting_assignment_is_feasible
        fams days_range m (assign : Z -> option Z) :
  formulate fams days_range = (m, None) ->
  (forall f, In f fams -> NoDup (preferences f)) ->
  let v := assignment_valuation assign fams in
  (forall d, In d days_range ->
             occupancy v fams d = 0 \/
             MIN_CAPACITY <= occupancy v fams d <= MAX_CAPACITY) ->
  binary_on v m /\
  satisfies v (OneDay m) = true /\
  satisfies v (MinOpen m) = true /\
  satisfies v (MaxOpen m) = true.
Proof.
  intros F Hnd v Hrule. unfold MIN_CAPACITY, MAX_CAPACITY in Hrule.
  assert (Ov : forall d, occupancy (assignment_x assign) fams d
                         = occupancy v fams d)
    by (intros d; apply occupancy_ext; reflexivity).
  assert (Ev : forall d, eval v (occupancy_expr d (demand_of fams d))
                         = occupancy v fams d).
  { intros d. apply eval_occupancy_expr; [assumption|].
    intros f _ _. apply assignment_valuation_binary. }
  assert (Zv : forall d, v (var_z d)
                         = if occupancy v fams d =? 0 then 0 else 1)
    by (intros d; unfold v; simpl; now rewrite Ov).
  destruct (formulate_ok _ _ _ F)
    as (obj & c1 & dm & c2 & c3 & _ & H1 & Hdm & H2 & H3 & ->).
  split; [|simpl; rewrite !sat_component_In; repeat split].
  - split; intros; apply assignment_valuation_binary.
  - intros i e Hin.
    apply (pyo_Constraint_In _ _ _ H1) in Hin as [_ R].
    unfold one_day_rule in R.
    destruct (find (fun f => id f =? i) fams) as [cf|] eqn:Ef;
      [|discriminate].
    apply find_some in Ef as [Hcf _].
    apply Returned_inj, py_compare_Expression in R. subst e.
    unfold sat. cbn [eval]. rewrite eval_py_sum, map_map. cbn [eval].
    apply Z.leb_le. unfold v. simpl.
    destruct (assign i) as [d'|].
    + apply indicator_sum_NoDup. now apply Hnd.
    + rewrite sum_all_zero; [lia | reflexivity].
  - intros d e Hin.
    apply (pyo_Constraint_In _ _ _ H2) in Hin as [Hd R].
    apply (proj1 (pyo_Set_In Z.eqb Z.eqb_eq _ _)) in Hd.
    unfold min_opening_rule in R.
    rewrite (day_demand_map_get _ _ _ Hdm d),
      (proj2 (existsb_eqb_In d days_range) Hd) in R.
    specialize (Ev d). specialize (Zv d). specialize (Hrule d Hd).
    destruct (demand_of fams d) as [|f l];
      apply Returned_inj, py_compare_Expression in R; subst e;
      unfold sat; cbn [eval]; apply Z.geb_le.
    + change (eval v (occupancy_expr d [])) with 0 in Ev.
      rewrite Zv, <- Ev. simpl. lia.
    + rewrite Ev, Zv.
      destruct (occupancy v fams d =? 0) eqn:E0;
        [apply Z.eqb_eq in E0 | apply Z.eqb_neq in E0]; lia.
  - intros d e Hin.
    apply (pyo_Constraint_In _ _ _ H3) in Hin as [Hd R].
    apply (proj1 (pyo_Set_In Z.eqb Z.eqb_eq _ _)) in Hd.
    unfold max_opening_rule in R.
    rewrite (day_demand_map_get _ _ _ Hdm d),
      (proj2 (existsb_eqb_In d days_range) Hd) in R.
    specialize (Ev d). specialize (Zv d). specialize (Hrule d Hd).
    destruct (demand_of fams d) as [|f l]; [discriminate|].
    apply Returned_inj, py_compare_Expression in R. subst e.
    unfold sat. cbn [eval]. apply Z.leb_le. rewrite Ev, Zv.
    destruct (occupancy v fams d =? 0) eqn:E0;
      [apply Z.eqb_eq in E0 | apply Z.eqb_neq in E0]; lia.
Qed.

(* --------------------------------------------------------------------- *)

Lemma filter_eqb_count d l :
  List.length (filter (Z.eqb d) l) = count_occ Z.eq_dec l d.
Proof.
  induction l as [|a r IH]; [reflexivity|]. cbn [filter].
  destruct (Z.eq_dec a d) as [->|N].
  - rewrite Z.eqb_refl, count_occ_cons_eq by reflexivity.
    cbn [List.length]. now rewrite IH.
  - rewrite count_occ_cons_neq by assumption.
    destruct (d =? a) eqn:E; [|exact IH].
    apply Z.eqb_eq in E. congruence.
Qed.

Lemma sum_ge_occurrences (g : Z -> Z) l d :
  (forall a, In a l -> 0 <= g a) ->
  Z.of_nat (count_occ Z.eq_dec l d) * g d <= fold_right Z.add 0 (map g l).
Proof.
  induction l as [|a r IH]; intros Hpos; [simpl; lia|].
  cbn [map fold_right].
  assert (0 <= g a) by (apply Hpos; now left).
  assert (IH' := IH (fun b Hb => Hpos b (or_intror Hb))).
  destruct (Z.eq_dec a d) as [->|N].
  - rewrite count_occ_cons_eq, Nat2Z.inj_succ, Z.mul_succ_l by reflexivity.
    lia.
  - rewrite count_occ_cons_neq by assumption. lia.
Qed.

(** Under the one-day constraint of a family the variable of a day that the
    family lists more than once is 0: the day enters the sum once per
    occurrence. *)
Lemma one_day_repeated fams days_range m v f d :
  formulate fams days_range = (m, None) ->
  NoDup (map id fams) -> In f fams ->
  binary_on v m -> satisfies v (OneDay m) = true ->
  (1 < count_occ Z.eq_dec (preferences f) d)%nat ->
  v (var_x (id f) d) = 0.
Proof.
  intros F Hid Hf Hb Hs Hc.
  destruct (one_day_sum _ _ _ _ _ F Hid Hf Hb Hs) as [Hx Hsum].
  pose proof (sum_ge_occurrences (fun d => v (var_x (id f) d))
                                 (preferences f) d
                                 (fun a Ha => proj1 (Hx a Ha))) as G.
  cbv beta in G.
  assert (Hd : In d (preferences f))
    by (apply (count_occ_In Z.eq_dec); lia).
  specialize (Hx d Hd). nia.
Qed.

(** The occupancy expression of a family that is entered [n] times. *)
Lemma eval_repeated v d f (l : list Z) :
  fold_right Z.add 0
    (map (eval v)
         (map (fun f => Mul (Var (var_x (id f) d)) (Num (n_members f)))
              (map (fun _ => f) l)))
  = Z.of_nat (List.length l) * (v (var_x (id f) d) * n_members f).
Proof.
  induction l as [|a r IH]; [reflexivity|].
  cbn [map fold_right List.length eval].
  rewrite IH, Nat2Z.inj_succ, Z.mul_succ_l. lia.
Qed.

(** The occupancy expression of the capacity rules evaluates to the
    occupancy of the day as soon as the variable of every family that lists
    the day more than once is 0. *)
Lemma eval_occupancy_expr_repeated v fams d :
  (forall f, In f fams -> In d (preferences f) ->
             is_binary (v (var_x (id f) d)) = true) ->
  (forall f, In f fams -> (1 < count_occ Z.eq_dec (preferences f) d)%nat ->
             v (var_x (id f) d) = 0) ->
  eval v (occupancy_expr d (demand_of fams d)) = occupancy v fams d.
Proof.
  unfold occupancy_expr, occupancy. rewrite eval_py_sum.
  induction fams as [|f rest IH]; intros Hb H0; [reflexivity|].
  change (demand_of (f :: rest) d)
    with (map (fun _ : Z => f) (filter (Z.eqb d) (preferences f))
          ++ demand_of rest d).
  cbn [filter]. rewrite !map_app, fold_right_app.
  assert (IH' := IH (fun g Hg => Hb g (or_intror Hg))
                    (fun g Hg => H0 g (or_intror Hg))).
  assert (S : forall (l1 l2 : list Z),
             fold_right Z.add (fold_right Z.add 0 l2) l1
             = fold_right Z.add 0 l1 + fold_right Z.add 0 l2).
  { intros l1 l2. induction l1 as [|a r IHl]; simpl; [reflexivity|].
    rewrite IHl. lia. }
  rewrite S, IH', eval_repeated, filter_eqb_count.
  specialize (Hb f (or_introl eq_refl)).
  specialize (H0 f (or_introl eq_refl)).
  destruct (lists f d) eqn:L.
  - apply lists_In in L. specialize (Hb L).
    apply is_binary_cases in Hb. destruct Hb as [E|E]; rewrite E.
    + change (true && (0 =? 1)) with false. cbv iota. lia.
    + change (true && (1 =? 1)) with true. cbv iota.
      cbn [map fold_right].
      destruct (le_lt_dec (count_occ Z.eq_dec (preferences f) d) 1)
        as [Hle|Hgt]; [|specialize (H0 Hgt); lia].
      apply (count_occ_In Z.eq_dec) in L.
      assert (C : count_occ Z.eq_dec (preferences f) d = 1%nat) by lia.
      rewrite C. lia.
  - cbn [andb].
    assert (C : count_occ Z.eq_dec (preferences f) d = 0%nat).
    { apply count_occ_not_In. intros I. apply lists_In in I. congruence. }
    rewrite C. lia.
Qed.

(** X22. In the whole model (unique identifiers) the occupancy is
    semicontinuous whatever the preference lists: in every valuation of
    the binary variables that satisfies OneDay, MinOpen and MaxOpen, the
    variable of a family for a day that it lists more than once is 0, so the
    double count of the capacity rules never shows, and the occupancy of
    every day is exactly 0 or lies in [[100, 300]]. *)
Theorem X22_feasible_occupancy_semicontinuous fams days_range m v d :
  formulate fams days_range = (m, None) ->
  NoDup (map id fams) ->
  binary_on v m ->
  satisfies v (OneDay m) = true ->
  satisfies v (MinOpen m) = true ->
  satisfies v (MaxOpen m) = true ->
  (forall f, In f fams -> (1 < count_occ Z.eq_dec (preferences f) d)%nat ->
             v (var_x (id f) d) = 0) /\
  (occupancy v fams d = 0 \/
   MIN_CAPACITY <= occupancy v fams d <= MAX_CAPACITY).
Proof.
  intros F Hid Hb H1 Hmin Hmax.
  assert (Fm : fst (formulate fams days_range) = m) by now rewrite F.
  assert (R : forall f, In f fams ->
                        (1 < count_occ Z.eq_dec (preferences f) d)%nat ->
                        v (var_x (id f) d) = 0)
    by (intros f Hf Hc; exact (one_day_repeated _ _ _ _ _ _ F Hid Hf Hb H1 Hc)).
  split; [exact R|].
  rewrite <- (eval_occupancy_expr_repeated v fams d)
    by (assumption || (intros f Hf Hd; eapply binary_on_x; eauto)).
  destruct (formulate_ok _ _ _ F)
    as (obj & c1 & dm & c2 & c3 & _ & _ & Hdm & H2 & H3 & ->).
  simpl in Hmin, Hmax. rewrite sat_component_In in Hmin, Hmax.
  pose proof (pyo_Constraint_In _ _ _ H2) as I2.
  pose proof (pyo_Constraint_In _ _ _ H3) as I3.
  pose proof (day_demand_map_get _ _ _ Hdm d) as G.
  destruct (existsb (Z.eqb d) days_range) eqn:Ed.
  - apply existsb_eqb_In in Ed.
    assert (Hd : In d (pyo_Set Z.eqb days_range))
      by (apply pyo_Set_In; [exact Z.eqb_eq | assumption]).
    pose proof (binary_on_z _ _ _ _ Fm Hb d Ed) as Bz.
    apply is_binary_cases in Bz.
    destruct (demand_of fams d) as [|f l] eqn:Dm; [left; reflexivity|].
    assert (S2 : sat v (Ge (occupancy_expr d (f :: l))
                           (Mul (Num 100) (Var (var_z d)))) = true).
    { apply (Hmin d). apply I2. split; [assumption|].
      unfold min_opening_rule. now rewrite G, py_compare_Ge_Mul. }
    assert (S3 : sat v (Le (occupancy_expr d (f :: l))
                           (Mul (Num 300) (Var (var_z d)))) = true).
    { apply (Hmax d). apply I3. split; [assumption|].
      unfold max_opening_rule. now rewrite G, py_compare_Le_Mul. }
    unfold sat in S2, S3. cbn [eval] in S2, S3.
    apply Z.geb_le in S2. apply Z.leb_le in S3.
    unfold MIN_CAPACITY, MAX_CAPACITY.
    destruct Bz as [E|E]; rewrite E in S2, S3; lia.
  - left. rewrite demand_of_nil; [reflexivity|].
    intros f Hf Hd.
    pose proof (day_demand_map_range _ _ _ Hdm f d Hf Hd) as Rg.
    apply existsb_eqb_In in Rg. congruence.
Qed.

(* ===================================================================== *)
(** ** Further properties of the extractor                                *)
(* ===================================================================== *)

Section MoreDictFacts.
Context {V : Type}.
Implicit Types (d : PyDict.t V) (k : Z) (v : V).

Lemma set_keys_present d k v :
  PyDict.get k d <> None -> PyDict.keys (PyDict.set k v d) = PyDict.keys d.
Proof.
  induction d as [|[k' v'] r IH]; simpl; [congruence|].
  destruct (k' =? k) eqn:E; simpl; [reflexivity|].
  intros H. f_equal. exact (IH H).
Qed.

Lemma set_fresh d k v :
  PyDict.get k d = None -> PyDict.set k v d = d ++ [(k, v)].
Proof.
  induction d as [|[k' v'] r IH]; simpl; [reflexivity|].
  destruct (k' =? k); [discriminate|]. intros H. f_equal. exact (IH H).
Qed.

Lemma set_keys_NoDup d k v :
  NoDup (PyDict.keys d) -> NoDup (PyDict.keys (PyDict.set k v d)).
Proof.
  intros H. destruct (PyDict.get k d) eqn:E.
  - rewrite set_keys_present; [assumption | congruence].
  - rewrite (set_fresh _ _ _ E). unfold PyDict.keys. rewrite map_app. simpl.
    apply NoDup_app.
    + assumption.
    + repeat constructor. intros [].
    + intros a Ha [<-|[]]. apply get_None_keys in E. contradiction.
Qed.

Lemma In_get d k v :
  NoDup (PyDict.keys d) -> In (k, v) d -> PyDict.get k d = Some v.
Proof.
  induction d as [|[k' v'] r IH]; simpl; intros Hnd Hin; [contradiction|].
  inversion Hnd as [|? ? Hk Hr]; subst.
  destruct Hin as [[= -> ->]|Hin]; [now rewrite Z.eqb_refl|].
  destruct (k' =? k) eqn:E; [|auto].
  apply Z.eqb_eq in E. subst k'. exfalso. apply Hk.
  change k with (fst (k, v)). now apply in_map.
Qed.

Lemma get_In d k v : PyDict.get k d = Some v -> In (k, v) d.
Proof.
  induction d as [|[k' v'] r IH]; simpl; [discriminate|].
  destruct (k' =? k) eqn:E.
  - apply Z.eqb_eq in E. intros [= ->]. subst. now left.
  - auto.
Qed.

End MoreDictFacts.

Lemma raw_loop_keys pairs val acc a :
  NoDup (PyDict.keys acc) -> raw_loop pairs val acc = Returned a ->
  NoDup (PyDict.keys a).
Proof.
  revert acc. induction pairs as [|[f0 d0] rest IH]; intros acc Hnd; simpl.
  - now intros [= <-].
  - destruct (val (f0, d0)) as [q|]; [|discriminate].
    destruct (negb (Qle_bool q (1 # 2))); apply IH;
      [now apply set_keys_NoDup | assumption].
Qed.

Lemma raw_loop_entries pairs val acc a :
  raw_loop pairs val acc = Returned a ->
  forall k d, PyDict.get k a = Some d ->
              PyDict.get k acc = Some d \/
              (In (k, d) pairs /\ exceeds_half (val (k, d)) = true).
Proof.
  revert acc. induction pairs as [|[f0 d0] rest IH]; intros acc; simpl.
  - intros [= <-] k d H. now left.
  - destruct (val (f0, d0)) as [q|] eqn:Eq; [|discriminate].
    destruct (negb (Qle_bool q (1 # 2))) eqn:Eh; intros H k d G;
      destruct (IH _ H k d G) as [G'|[Hin Hx]]; auto.
    rewrite get_set in G'. destruct (f0 =? k) eqn:E; [|auto].
    apply Z.eqb_eq in E. injection G' as <-. subst k. right.
    split; [now left|]. unfold exceeds_half. now rewrite Eq.
Qed.

(** X7. In a mapping returned by the extractor every family identifier
    occurs once, and every entry is a pair of [Assignments] whose solved
    value exceeds 0.5; on a model built from a list of families the day of
    an entry is therefore in the preference list of a family that carries
    the identifier. *)
Theorem X7_extracted_pairs_are_valid s m a :
  model s = Some m ->
  get_raw_assignments s = Returned a ->
  NoDup (PyDict.keys a) /\
  (forall k d, In (k, d) (PyDict.items a) -> selected m k d) /\
  (forall fams days_range,
      Assignments m = Assignments (fst (formulate fams days_range)) ->
      forall k d, In (k, d) (PyDict.items a) ->
                  exists f, In f fams /\ id f = k /\ In d (preferences f)).
Proof.
  intros Hm H. unfold get_raw_assignments in H. rewrite Hm in H.
  assert (Hnd : NoDup (PyDict.keys a))
    by (apply (raw_loop_keys _ _ [] a (NoDup_nil Z) H)).
  assert (Hsel : forall k d, In (k, d) (PyDict.items a) -> selected m k d).
  { intros k d Hin. apply (In_get _ _ _ Hnd) in Hin.
    destruct (raw_loop_entries _ _ _ _ H k d Hin) as [G|G];
      [discriminate | exact G]. }
  split; [assumption|]. split; [assumption|].
  intros fams days_range EA k d Hin.
  destruct (Hsel k d Hin) as [HA _]. rewrite EA in HA.
  destruct (formulate_sets fams days_range) as (E & _).
  rewrite E in HA. simpl in HA.
  apply (proj1 (pyo_Set_In pair_eqb pair_eqb_eq _ _)) in HA.
  now apply valid_assignments_In.
Qed.

(* ===================================================================== *)
(** ** Further properties of the orchestrator                             *)
(* ===================================================================== *)

Lemma same_family_refl f : same_family f f.
Proof. repeat split. Qed.

Lemma same_family_trans f g h :
  same_family f g -> same_family g h -> same_family f h.
Proof. unfold same_family. intuition congruence. Qed.

Lemma families_frame_refl F : families_frame F F.
Proof.
  split; [reflexivity|]. intros k.
  destruct (PyDict.get k F); [apply same_family_refl | exact I].
Qed.

Lemma families_frame_trans F G H :
  families_frame F G -> families_frame G H -> families_frame F H.
Proof.
  intros [K1 A] [K2 B]. split; [congruence|]. intros k.
  specialize (A k). specialize (B k).
  destruct (PyDict.get k F), (PyDict.get k G), (PyDict.get k H);
    try contradiction; try exact I.
  eapply same_family_trans; eauto.
Qed.

Lemma families_frame_set F k f f' :
  PyDict.get k F = Some f -> same_family f f' ->
  families_frame F (PyDict.set k f' F).
Proof.
  intros G S. split.
  - apply set_keys_present. congruence.
  - intros k0. rewrite get_set. destruct (k =? k0) eqn:E.
    + apply Z.eqb_eq in E. subst k0. now rewrite G.
    + destruct (PyDict.get k0 F); [apply same_family_refl | exact I].
Qed.

Lemma families_frame_reset F : families_frame F (reset_families F).
Proof.
  split.
  - unfold PyDict.keys, reset_families. rewrite map_map. reflexivity.
  - intros k. rewrite get_reset_families.
    destruct (PyDict.get k F); simpl; [repeat split | exact I].
Qed.

Lemma members_size_app F a b :
  members_size F (a ++ b) = members_size F a + members_size F b.
Proof.
  unfold members_size. induction a as [|r a IH]; simpl; [reflexivity|].
  rewrite IH. lia.
Qed.

Lemma members_size_frame F F' refs :
  families_frame F F' -> members_size F' refs = members_size F refs.
Proof.
  intros [_ A]. unfold members_size. f_equal. apply map_ext. intros r.
  specialize (A r).
  destruct (PyDict.get r F), (PyDict.get r F'); try contradiction;
    [apply A | reflexivity].
Qed.

Lemma day_grows_refl F wd : day_grows F wd wd.
Proof.
  split; [reflexivity|]. exists []. rewrite app_nil_r.
  split; [reflexivity|]. unfold members_size. simpl. lia.
Qed.

Lemma day_grows_trans F wd1 wd2 wd3 :
  day_grows F wd1 wd2 -> day_grows F wd2 wd3 -> day_grows F wd1 wd3.
Proof.
  intros [I1 (a1 & A1 & O1)] [I2 (a2 & A2 & O2)]. split; [congruence|].
  exists (a1 ++ a2). rewrite members_size_app, A2, A1, app_assoc.
  split; [reflexivity | lia].
Qed.

Lemma days_grow_refl F D : days_grow F D D.
Proof.
  split; [reflexivity|]. intros d.
  destruct (PyDict.get d D); [apply day_grows_refl | exact I].
Qed.

Lemma days_grow_trans F D1 D2 D3 :
  days_grow F D1 D2 -> days_grow F D2 D3 -> days_grow F D1 D3.
Proof.
  intros [K1 A] [K2 B]. split; [congruence|]. intros d.
  specialize (A d). specialize (B d).
  destruct (PyDict.get d D1), (PyDict.get d D2), (PyDict.get d D3);
    try contradiction; try exact I.
  eapply day_grows_trans; eauto.
Qed.

Lemma days_grow_frame F F' D D' :
  families_frame F F' -> days_grow F' D D' -> days_grow F D D'.
Proof.
  intros Fr [K A]. split; [assumption|]. intros d. specialize (A d).
  destruct (PyDict.get d D), (PyDict.get d D'); try contradiction;
    try exact I.
  destruct A as [Hi (a & Ha & Ho)]. split; [assumption|].
  exists a. split; [assumption|].
  now rewrite <- (members_size_frame F F' a Fr).
Qed.

Lemma evolves_refl s : evolves s s.
Proof.
  split; [apply families_frame_refl|]. split; [apply days_grow_refl|].
  reflexivity.
Qed.

Lemma evolves_trans s1 s2 s3 :
  evolves s1 s2 -> evolves s2 s3 -> evolves s1 s3.
Proof.
  intros (F1 & D1 & E1) (F2 & D2 & E2). split; [|split].
  - eapply families_frame_trans; eauto.
  - eapply days_grow_trans; [exact D1|].
    eapply days_grow_frame; eauto.
  - congruence.
Qed.

(** The two effects of one turn of the loop. *)
Lemma evolves_assign s fam_id fam d :
  PyDict.get fam_id (families s) = Some fam ->
  evolves s (mkManager (PyDict.set fam_id (assign_to fam d) (families s))
                       (days s) (solver_engine s)).
Proof.
  intros G. split; [|split]; simpl.
  - apply (families_frame_set _ _ fam); [assumption | repeat split].
  - apply days_grow_refl.
  - reflexivity.
Qed.

Lemma evolves_add s fam_id fam d wd :
  PyDict.get fam_id (families s) = Some fam ->
  PyDict.get d (days s) = Some wd ->
  evolves s (mkManager (PyDict.set fam_id (assign_to fam d) (families s))
                       (PyDict.set d (add_family wd fam_id fam) (days s))
                       (solver_engine s)).
Proof.
  intros G Gd. split; [|split]; simpl.
  - apply (families_frame_set _ _ fam); [assumption | repeat split].
  - split.
    + apply set_keys_present. congruence.
    + intros d0. rewrite get_set. destruct (d =? d0) eqn:E.
      * apply Z.eqb_eq in E. subst d0. rewrite Gd.
        split; [reflexivity|]. exists [fam_id]. split; [reflexivity|].
        unfold members_size. simpl. rewrite G. lia.
      * destruct (PyDict.get d0 (days s)); [apply day_grows_refl | exact I].
  - reflexivity.
Qed.

Lemma apply_loop_evolves items n w :
  evolves (self w) (self (snd (apply_loop items n w))).
Proof.
  revert n w. induction items as [|[fam_id d] rest IH]; intros n w.
  - apply evolves_refl.
  - rewrite apply_loop_cons. cbv zeta.
    destruct (PyDict.get fam_id (families (self w))) as [fam|] eqn:G;
      [|apply IH].
    destruct (PyDict.get d (days (self w))) as [wd|] eqn:Gd.
    + eapply evolves_trans; [|apply IH]. simpl. now apply evolves_add.
    + simpl. now apply evolves_assign.
Qed.

(** [_apply_results], step by step. *)
Lemma _apply_results_run w :
  _apply_results w
  = match get_raw_assignments (solver_engine (self w)) with
    | Raised e => (Raised e, w)
    | Returned raw =>
        match apply_loop (PyDict.items raw) 0
                (mkWorld (mkManager (reset_families (families (self w)))
                                    (days (self w))
                                    (solver_engine (self w)))
                         (trace w)) with
        | (Raised e, w1) => (Raised e, w1)
        | (Returned n, w1) =>
            let u := Z.of_nat (List.length (families (self w1))) - n in
            (Returned tt,
             mkWorld (self w1)
                     (trace w1
                      ++ [Print MsgOptimizationCompleted;
                          Print (MsgFamiliesAssigned n);
                          Print (MsgFamiliesWithoutSlot u)]
                      ++ (if u >? 0 then [Print (MsgNote u)] else [])))
        end
    end.
Proof.
  unfold _apply_results, bind, get_self, lift, put_families, put_self, emit,
    ret, bind.
  simpl.
  destruct (get_raw_assignments (solver_engine (self w))) as [raw|e];
    [|reflexivity].
  simpl.
  destruct (apply_loop _ _ _) as [[n|e] w1]; simpl; [|reflexivity].
  destruct (_ >? 0); simpl; rewrite <- !app_assoc; simpl;
    rewrite ?app_nil_r; reflexivity.
Qed.

Lemma _apply_results_evolves w :
  evolves (self w) (self (snd (_apply_results w))).
Proof.
  rewrite _apply_results_run.
  destruct (get_raw_assignments (solver_engine (self w))) as [raw|e];
    [|apply evolves_refl].
  match goal with
  | |- context [apply_loop ?i ?n ?w0] =>
      pose proof (apply_loop_evolves i n w0) as E;
      destruct (apply_loop i n w0) as [[k|e] w1]
  end; simpl in E |- *;
    (eapply evolves_trans; [|exact E]);
    (split; [apply families_frame_reset|]; split;
     [apply days_grow_refl | reflexivity]).
Qed.

(** X8. Whatever its outcome, [_apply_results] never adds, removes or
    reorders a family or a workshop day, never touches a family's
    identifier, size or preference list nor a day's identifier, and leaves
    the solver engine alone. *)
Theorem X8_apply_results_frame w :
  let s := self w in
  let s' := self (snd (_apply_results w)) in
  PyDict.keys (families s') = PyDict.keys (families s) /\
  (forall k f, PyDict.get k (families s) = Some f ->
               exists f', PyDict.get k (families s') = Some f' /\
                          id f' = id f /\ n_members f' = n_members f /\
                          preferences f' = preferences f) /\
  PyDict.keys (days s') = PyDict.keys (days s) /\
  (forall d wd, PyDict.get d (days s) = Some wd ->
                exists wd', PyDict.get d (days s') = Some wd' /\
                            day_id wd' = day_id wd) /\
  solver_engine s' = solver_engine s.
Proof.
  cbv zeta. destruct (_apply_results_evolves w) as ([KF A] & [KD B] & E).
  repeat split; try assumption.
  - intros k f G. specialize (A k). rewrite G in A.
    destruct (PyDict.get k (families (self (snd (_apply_results w)))))
      as [f'|]; [|contradiction].
    exists f'. split; [reflexivity | exact A].
  - intros d wd G. specialize (B d). rewrite G in B.
    destruct (PyDict.get d (days (self (snd (_apply_results w)))))
      as [wd'|]; [|contradiction].
    exists wd'. split; [reflexivity | apply B].
Qed.

Lemma occupancy_consistent_evolves s s' :
  occupancy_consistent s -> evolves s s' -> occupancy_consistent s'.
Proof.
  intros C (Fr & [_ B] & _) d wd' G. specialize (B d). rewrite G in B.
  destruct (PyDict.get d (days s)) as [wd|] eqn:Gd; [|contradiction].
  destruct B as [_ (a & Ha & Ho)].
  rewrite (members_size_frame _ _ _ Fr), Ha, members_size_app, Ho.
  now rewrite (C d wd Gd).
Qed.

Lemma print_occupancy_stats_self w :
  self (snd (print_occupancy_stats w)) = self w.
Proof.
  unfold print_occupancy_stats, bind, get_self, emit, raise. simpl.
  destruct (map current_occupancy (PyDict.values (days (self w))));
    reflexivity.
Qed.

(** A whole run changes the entities only through [_apply_results]. *)
Lemma solve_evolves o w :
  families_frame (families (self w)) (families (self (snd (solve o w)))) /\
  days_grow (families (self w)) (days (self w))
            (days (self (snd (solve o w)))).
Proof.
  rewrite solve_run.
  set (w0 := mkWorld (self w) (trace w ++ [Print MsgStartingModelA])).
  destruct (SantaSolver_solve_frame o (PyDict.values (families (self w)))
                                    (PyDict.keys (days (self w))) w0)
    as (Ff & Fd & _).
  destruct (SantaSolver_solve o _ _ w0) as [[[|]|e] w1];
    simpl in Ff, Fd; simpl.
  - unfold bind.
    pose proof (_apply_results_evolves w1) as (A & B & _).
    rewrite Ff, Fd in *.
    destruct (_apply_results w1) as [[u|e] w2]; simpl in A, B |- *;
      rewrite ?print_occupancy_stats_self; auto.
  - rewrite Ff, Fd.
    split; [apply families_frame_refl | apply days_grow_refl].
  - rewrite Ff, Fd.
    split; [apply families_frame_refl | apply days_grow_refl].
Qed.

(** X10. If every workshop day carries the total size of the families it
    holds, counted as often as they are held, it still does after
    [_apply_results] and after a whole run of [solve], whatever their
    outcome. *)
Theorem X10_occupancy_matches_membership o w :
  occupancy_consistent (self w) ->
  occupancy_consistent (self (snd (_apply_results w))) /\
  occupancy_consistent (self (snd (solve o w))).
Proof.
  intros C. split.
  - exact (occupancy_consistent_evolves _ _ C (_apply_results_evolves w)).
  - destruct (solve_evolves o w) as [A B].
    intros d wd' G. destruct B as [_ B]. specialize (B d). rewrite G in B.
    destruct (PyDict.get d (days (self w))) as [wd|] eqn:Gd; [|contradiction].
    destruct B as [_ (a & Ha & Ho)].
    rewrite (members_size_frame _ _ _ A), Ha, members_size_app, Ho.
    now rewrite (C d wd Gd).
Qed.

Lemma members_size_nonneg F refs :
  (forall k f, PyDict.get k F = Some f -> 0 <= n_members f) ->
  0 <= members_size F refs.
Proof.
  intros H. unfold members_size. induction refs as [|r l IH]; simpl; [lia|].
  destruct (PyDict.get r F) as [f|] eqn:G; [|lia].
  specialize (H r f G). lia.
Qed.

(** X11. [_apply_results] only ever appends to the members of a workshop
    day and adds their sizes to its occupancy: what an earlier application
    put there stays, so with non-negative sizes the occupancy of a day never
    goes down. *)
Theorem X11_days_only_grow w d wd :
  PyDict.get d (days (self w)) = Some wd ->
  exists wd' added,
    PyDict.get d (days (self (snd (_apply_results w)))) = Some wd' /\
    assigned_families wd' = assigned_families wd ++ added /\
    current_occupancy wd'
    = current_occupancy wd + members_size (families (self w)) added /\
    ((forall k f, PyDict.get k (families (self w)) = Some f ->
                  0 <= n_members f) ->
     current_occupancy wd <= current_occupancy wd').
Proof.
  intros G. destruct (_apply_results_evolves w) as (_ & [_ B] & _).
  specialize (B d). rewrite G in B.
  destruct (PyDict.get d (days (self (snd (_apply_results w)))))
    as [wd'|]; [|contradiction].
  destruct B as [_ (a & Ha & Ho)]. exists wd', a.
  repeat split; try assumption.
  intros Hpos. pose proof (members_size_nonneg _ a Hpos). lia.
Qed.

(* --------------------------------------------------------------------- *)

Lemma known_assignments_frame F F' raw :
  families_frame F F' -> known_assignments F' raw = known_assignments F raw.
Proof.
  intros [_ A]. unfold known_assignments. do 2 f_equal.
  apply filter_ext. intros [k d]. simpl. specialize (A k).
  destruct (PyDict.get k F), (PyDict.get k F'); try contradiction;
    reflexivity.
Qed.

Lemma assign_to_twice f a b : assign_to (assign_to f a) b = assign_to f b.
Proof. reflexivity. Qed.

(** The loop, when it returns: every raw assignment of a known family is
    applied, and counted. *)
Lemma apply_loop_returned items :
  NoDup (map fst items) ->
  forall n w n' w',
    apply_loop items n w = (Returned n', w') ->
    (forall k f, PyDict.get k (families (self w)) = Some f ->
                 PyDict.get k (families (self w'))
                 = Some (match PyDict.get k items with
                         | Some d => assign_to f d
                         | None => f
                         end)) /\
    n' = n + known_assignments (families (self w)) items.
Proof.
  induction items as [|[k0 d0] rest IH]; intros Hnd n w n' w' H.
  - injection H as <- <-. split.
    + intros k f G. now rewrite G.
    + unfold known_assignments. simpl. lia.
  - inversion Hnd as [|? ? Hk0 Hrest]; subst.
    rewrite apply_loop_cons in H. cbv zeta in H.
    unfold known_assignments. cbn [filter fst].
    destruct (PyDict.get k0 (families (self w))) as [fam|] eqn:G0.
    + destruct (PyDict.get d0 (days (self w))) as [wd|] eqn:Gd;
        [|discriminate].
      destruct (IH Hrest _ _ _ _ H) as [A B]. simpl in A, B.
      assert (Fr : families_frame
                     (families (self w))
                     (PyDict.set k0 (assign_to fam d0) (families (self w))))
        by (apply (families_frame_set _ _ fam); [assumption | repeat split]).
      rewrite (known_assignments_frame _ _ _ Fr) in B. split.
      * intros k f G. simpl PyDict.get. destruct (k0 =? k) eqn:E.
        -- apply Z.eqb_eq in E. subst k.
           assert (f = fam) by congruence. subst f.
           rewrite (A k0 (assign_to fam d0)) by apply get_set_same.
           assert (N : PyDict.get k0 rest = None)
             by (apply get_None_keys; exact Hk0).
           now rewrite N.
        -- rewrite (A k f).
           ++ reflexivity.
           ++ rewrite get_set_other; [assumption|].
              now apply Z.eqb_neq.
      * rewrite B. unfold known_assignments. cbn [List.length].
        rewrite Nat2Z.inj_succ. lia.
    + destruct (IH Hrest _ _ _ _ H) as [A B]. split.
      * intros k f G. simpl PyDict.get. destruct (k0 =? k) eqn:E.
        -- apply Z.eqb_eq in E. subst k. congruence.
        -- now apply A.
      * exact B.
Qed.

(** [_apply_results], when it returns: the extraction returned a map and
    the loop over it returned the count. *)
Lemma _apply_results_inv w w' :
  _apply_results w = (Returned tt, w') ->
  exists raw n w1,
    get_raw_assignments (solver_engine (self w)) = Returned raw /\
    NoDup (map fst (PyDict.items raw)) /\
    apply_loop (PyDict.items raw) 0
      (mkWorld (mkManager (reset_families (families (self w)))
                          (days (self w)) (solver_engine (self w)))
               (trace w))
    = (Returned n, w1) /\
    w' = mkWorld (self w1)
           (trace w1
            ++ [Print MsgOptimizationCompleted;
                Print (MsgFamiliesAssigned n);
                Print (MsgFamiliesWithoutSlot
                         (Z.of_nat (List.length (families (self w1))) - n))]
            ++ (if Z.of_nat (List.length (families (self w1))) - n >? 0
                then [Print (MsgNote
                               (Z.of_nat (List.length (families (self w1)))
                                - n))]
                else [])).
Proof.
  intros H. rewrite _apply_results_run in H.
  destruct (get_raw_assignments (solver_engine (self w))) as [raw|e] eqn:R;
    [|discriminate].
  assert (Hnd : NoDup (map fst (PyDict.items raw))).
  { unfold get_raw_assignments in R.
    destruct (model (solver_engine (self w))) as [m|].
    - exact (raw_loop_keys _ _ [] raw (NoDup_nil Z) R).
    - injection R as <-. constructor. }
  destruct (apply_loop (PyDict.items raw) 0 _) as [[n|e] w1] eqn:L;
    [|discriminate].
  cbv zeta in H. injection H as <-.
  exists raw, n, w1. repeat split; assumption.
Qed.

(** What a family is assigned when [_apply_results] returns. *)
Lemma _apply_results_returned w w' :
  _apply_results w = (Returned tt, w') ->
  exists raw,
    get_raw_assignments (solver_engine (self w)) = Returned raw /\
    forall k f,
      PyDict.get k (families (self w)) = Some f ->
      PyDict.get k (families (self w'))
      = Some (assign_to f (match PyDict.get k raw with
                           | Some d => d
                           | None => -1
                           end)).
Proof.
  intros H.
  destruct (_apply_results_inv w w' H) as (raw & n & w1 & R & Hnd & L & ->).
  exists raw. split; [assumption|]. intros k f G.
  destruct (apply_loop_returned _ Hnd _ _ _ _ L) as [A _].
  cbn [self families] in A |- *.
  rewrite (A k (assign_to f (-1)))
    by (rewrite get_reset_families, G; reflexivity).
  unfold PyDict.items. destruct (PyDict.get k raw); reflexivity.
Qed.

(** X9. When [_apply_results] returns, the extraction had returned a map,
    and every family of the repository is assigned the day the map holds for
    its key, or [-1] when the map has none: nothing of an earlier assignment
    survives in the families.  The counts it reports are the number of map
    entries with a known family and the rest of the repository. *)
Theorem X9_apply_results_assigns w w' :
  _apply_results w = (Returned tt, w') ->
  exists raw,
    get_raw_assignments (solver_engine (self w)) = Returned raw /\
    (forall k f,
        PyDict.get k (families (self w)) = Some f ->
        PyDict.get k (families (self w'))
        = Some (assign_to f (match PyDict.get k raw with
                             | Some d => d
                             | None => -1
                             end))) /\
    let n := known_assignments (families (self w)) raw in
    let u := Z.of_nat (List.length (families (self w))) - n in
    trace w'
    = trace w
      ++ [Print MsgOptimizationCompleted; Print (MsgFamiliesAssigned n);
          Print (MsgFamiliesWithoutSlot u)]
      ++ (if u >? 0 then [Print (MsgNote u)] else []).
Proof.
  intros H.
  destruct (_apply_results_returned w w' H) as (raw & R & A).
  destruct (_apply_results_inv w w' H) as (raw' & n & w1 & R' & Hnd & L & ->).
  assert (raw' = raw) by congruence. subst raw'.
  exists raw. split; [assumption|]. split; [exact A|].
  set (w0 := mkWorld (mkManager (reset_families (families (self w)))
                                (days (self w)) (solver_engine (self w)))
                     (trace w)) in L.
  pose proof (apply_loop_evolves (PyDict.items raw) 0 w0) as ([KF _] & _).
  pose proof (apply_loop_trace (PyDict.items raw) 0 w0) as T.
  destruct (apply_loop_returned _ Hnd _ _ _ _ L) as [_ B].
  rewrite L in KF, T. cbn [snd self families trace w0] in KF, T, B.
  rewrite (known_assignments_frame _ _ _ (families_frame_reset _)) in B.
  assert (Len : List.length (families (self w1))
                = List.length (families (self w))).
  { rewrite <- (length_map fst (families (self w1))).
    change (map fst (families (self w1)))
      with (PyDict.keys (families (self w1))).
    rewrite KF. unfold PyDict.keys, reset_families.
    now rewrite !length_map. }
  cbv zeta. cbn [trace]. rewrite T, Len, B. reflexivity.
Qed.

(** The loop raises nothing when the day of every raw assignment of a known
    family is a workshop day. *)
Lemma apply_loop_returns items n w :
  (forall k d, In (k, d) items ->
               PyDict.get k (families (self w)) <> None ->
               PyDict.get d (days (self w)) <> None) ->
  exists n' w', apply_loop items n w = (Returned n', w').
Proof.
  revert n w. induction items as [|[k0 d0] rest IH]; intros n w H.
  - simpl. unfold ret. eauto.
  - rewrite apply_loop_cons. cbv zeta.
    destruct (PyDict.get k0 (families (self w))) as [fam|] eqn:G0.
    + destruct (PyDict.get d0 (days (self w))) as [wd|] eqn:Gd.
      * apply IH. simpl. intros k d Hin Hk. rewrite get_set.
        destruct (d0 =? d); [discriminate|].
        apply (H k d); [now right|].
        rewrite get_set in Hk. destruct (k0 =? k) eqn:E; [|assumption].
        apply Z.eqb_eq in E. subst. congruence.
      * exfalso. apply (H k0 d0); [now left | congruence | assumption].
    + apply IH. intros k d Hin. apply H. now right.
Qed.

Lemma _apply_results_returns w raw :
  get_raw_assignments (solver_engine (self w)) = Returned raw ->
  (forall k d, In (k, d) (PyDict.items raw) ->
               PyDict.get d (days (self w)) <> None) ->
  exists w', _apply_results w = (Returned tt, w').
Proof.
  intros R H. rewrite _apply_results_run, R.
  match goal with
  | |- context [apply_loop ?i ?n ?w0] =>
      destruct (apply_loop_returns i n w0) as (n' & w2 & L)
  end.
  - simpl. intros k d Hin _. exact (H k d Hin).
  - rewrite L. cbv zeta. eauto.
Qed.

Lemma print_occupancy_stats_returns w :
  days (self w) <> [] ->
  exists w', print_occupancy_stats w = (Returned tt, w').
Proof.
  intros D. unfold print_occupancy_stats, bind, get_self, emit, raise.
  simpl. destruct (days (self w)) as [|[d0 wd0] r]; [contradiction|].
  simpl. eauto.
Qed.

(** A whole run with an accepted verdict and a value on every variable. *)
Lemma solve_accepted o w m res xv zv :
  formulate (PyDict.values (families (self w))) (PyDict.keys (days (self w)))
  = (m, None) ->
  o cbc m = Returned (res, (xv, zv)) ->
  accepted (termination_condition res) = true ->
  (forall p, In p (Assignments m) -> xv p <> None) ->
  days (self w) <> [] ->
  exists w' raw,
    solve o w = (Returned tt, w') /\
    raw_loop (Assignments m) xv [] = Returned raw /\
    forall k f,
      PyDict.get k (families (self w)) = Some f ->
      PyDict.get k (families (self w'))
      = Some (assign_to f (match PyDict.get k raw with
                           | Some d => d
                           | None => -1
                           end)).
Proof.
  intros F O A V D. rewrite solve_run, SantaSolver_solve_run.
  cbv zeta. rewrite F, O, A. unfold bind.
  match goal with
  | |- context [_apply_results ?t] => set (w1 := t)
  end.
  destruct (raw_loop_spec (Assignments m) xv [] V) as [raw [R _]].
  pose proof (raw_loop_keys _ _ [] raw (NoDup_nil Z) R) as Hnd.
  destruct (_apply_results_returns w1 raw) as [w2 H2].
  - exact R.
  - intros k d Hin. apply (In_get _ _ _ Hnd) in Hin.
    destruct (raw_loop_entries _ _ _ _ R k d Hin) as [G|[HA _]];
      [discriminate|].
    destruct (formulate_ok _ _ _ F)
      as (obj & c1 & dm & c2 & c3 & _ & _ & Hdm & _ & _ & ->).
    simpl in HA.
    apply (proj1 (pyo_Set_In pair_eqb pair_eqb_eq _ _)) in HA.
    apply valid_assignments_In in HA as (f & Hf & _ & Hp).
    pose proof (day_demand_map_range _ _ _ Hdm f d Hf Hp) as Hk.
    intros N. apply get_None_keys in N. contradiction.
  - pose proof (_apply_results_evolves w1) as (_ & [K _] & _).
    destruct (_apply_results_returned w1 w2 H2) as (raw' & R' & Hf).
    assert (raw' = raw)
      by (unfold w1, get_raw_assignments in R'; simpl in R'; congruence).
    subst raw'.
    rewrite H2 in K |- *. simpl in K.
    destruct (print_occupancy_stats_returns w2) as [w3 H3].
    { intros E. rewrite E in K. simpl in K.
      destruct (days (self w)); [contradiction | discriminate]. }
    pose proof (print_occupancy_stats_self w2) as S3.
    rewrite H3 in S3 |- *. simpl in S3.
    exists w3, raw. split; [reflexivity|]. split; [exact R|].
    rewrite S3. exact Hf.
Qed.

(** X12. In a whole run of [solve], when the model is built, the solver
    returns an accepted termination condition and has left a value on every
    decision variable, and there is at least one workshop day, nothing
    raises: every extracted day is a key of the days (it is a preferred day,
    and the model could only be built with preferred days in the range), so
    the results are applied and the statistics reported. *)
Theorem X12_accepted_run_completes o w m res xv zv :
  formulate (PyDict.values (families (self w))) (PyDict.keys (days (self w)))
  = (m, None) ->
  o cbc m = Returned (res, (xv, zv)) ->
  accepted (termination_condition res) = true ->
  (forall p, In p (Assignments m) -> xv p <> None) ->
  days (self w) <> [] ->
  exists w', solve o w = (Returned tt, w').
Proof.
  intros F O A V D.
  destruct (solve_accepted o w m res xv zv F O A V D) as (w' & raw & H & _).
  eauto.
Qed.

(* --------------------------------------------------------------------- *)







(* ===================================================================== *)
(** ** Loading the data and writing the submission                        *)
(* ===================================================================== *)

Lemma load_families_get rows F k :
  PyDict.get k (load_families rows F)
  = match find (fun r => familyID r =? k) (rev rows) with
    | Some r => Some (Family_init (familyID r) (nrMembers r)
                                  (row_preferences r))
    | None => PyDict.get k F
    end.
Proof.
  unfold load_families. revert F.
  induction rows as [|r rest IH]; intros F; simpl; [reflexivity|].
  rewrite IH, find_last, get_set.
  destruct (find _ (rev rest)); [reflexivity|].
  destruct (familyID r =? k); reflexivity.
Qed.

Lemma load_families_keys rows F :
  NoDup (PyDict.keys F) -> NoDup (PyDict.keys (load_families rows F)).
Proof.
  unfold load_families. revert F.
  induction rows as [|r rest IH]; intros F H; simpl; [assumption|].
  apply IH. now apply set_keys_NoDup.
Qed.

Lemma load_days_fold (l : list Z) D d :
  PyDict.get d (fold_left (fun ds d => PyDict.set d (WorkshopDay_init d) ds)
                          l D)
  = if existsb (Z.eqb d) l then Some (WorkshopDay_init d)
    else PyDict.get d D.
Proof.
  revert D. induction l as [|a r IH]; intros D; simpl; [reflexivity|].
  rewrite IH, get_set, (Z.eqb_sym d a).
  destruct (a =? d) eqn:E; [|destruct (existsb (Z.eqb d) r); reflexivity].
  apply Z.eqb_eq in E. subst a.
  destruct (existsb (Z.eqb d) r); reflexivity.
Qed.

Lemma In_days_1_100 d : In d (map Z.of_nat (seq 1 100)) <-> 1 <= d <= 100.
Proof.
  rewrite in_map_iff. split.
  - intros [n [<- Hn]]. apply in_seq in Hn. lia.
  - intros H. exists (Z.to_nat d). split; [lia|]. apply in_seq. lia.
Qed.

Lemma load_days_get D d :
  PyDict.get d (load_days D)
  = if (1 <=? d) && (d <=? 100) then Some (WorkshopDay_init d)
    else PyDict.get d D.
Proof.
  unfold load_days. rewrite load_days_fold.
  destruct (existsb (Z.eqb d) (map Z.of_nat (seq 1 100))) eqn:E.
  - apply existsb_eqb_In, In_days_1_100 in E.
    now rewrite (proj2 (Z.leb_le 1 d)), (proj2 (Z.leb_le d 100)) by lia.
  - destruct ((1 <=? d) && (d <=? 100)) eqn:B; [|reflexivity].
    apply andb_true_iff in B as [B1 B2].
    apply Z.leb_le in B1. apply Z.leb_le in B2.
    assert (I : In d (map Z.of_nat (seq 1 100)))
      by (apply In_days_1_100; lia).
    apply existsb_eqb_In in I. congruence.
Qed.

Lemma row_preferences_length row : List.length (row_preferences row) = 10%nat.
Proof. reflexivity. Qed.

(** X14. [load_data] stores, under every identifier that occurs in the
    rows, a fresh unassigned family built from the last row with that
    identifier, with exactly ten preferences; families loaded earlier under
    other identifiers stay.  It replaces the days 1 to 100 by fresh empty
    workshop days, keeps any other day, remembers the rows as input data and
    leaves the solver engine alone. *)
Theorem X14_load_data rows mgr :
  let mgr' := fst (load_data rows mgr) in
  let s' := core mgr' in
  input_data mgr' = Some rows /\
  (forall k,
      PyDict.get k (families s')
      = match find (fun r => familyID r =? k) (rev rows) with
        | Some r => Some (Family_init (familyID r) (nrMembers r)
                                      (row_preferences r))
        | None => PyDict.get k (families (core mgr))
        end) /\
  (forall row, In row rows ->
     exists f row',
       PyDict.get (familyID row) (families s') = Some f /\
       In row' rows /\ familyID row' = familyID row /\
       f = Family_init (familyID row) (nrMembers row') (row_preferences row') /\
       assigned_day f = -1 /\
       List.length (preferences f) = 10%nat) /\
  (forall d,
      PyDict.get d (days s')
      = if (1 <=? d) && (d <=? 100) then Some (WorkshopDay_init d)
        else PyDict.get d (days (core mgr))) /\
  solver_engine s' = solver_engine (core mgr).
Proof.
  cbv zeta. unfold load_data.
  cbn [fst core input_data families days solver_engine].
  split; [reflexivity|].
  split; [intros k; apply load_families_get|].
  split; [|split; [intros d; apply load_days_get | reflexivity]].
  intros row Hrow. rewrite load_families_get.
  destruct (find (fun r => familyID r =? familyID row) (rev rows))
    as [r|] eqn:E.
  - apply find_some in E as [Hr Er]. apply Z.eqb_eq in Er.
    exists (Family_init (familyID r) (nrMembers r) (row_preferences r)), r.
    split; [reflexivity|]. split; [now apply in_rev|].
    split; [assumption|]. rewrite Er. repeat split.
  - exfalso.
    pose proof (find_none _ _ E row (proj1 (in_rev _ _) Hrow)) as N.
    simpl in N. now rewrite Z.eqb_refl in N.
Qed.

(* --------------------------------------------------------------------- *)

Lemma fold_set_fresh {V : Type} (g : Z -> V) l (D : PyDict.t V) :
  NoDup l -> (forall d, In d l -> PyDict.get d D = None) ->
  fold_left (fun ds d => PyDict.set d (g d) ds) l D
  = D ++ map (fun d => (d, g d)) l.
Proof.
  revert D. induction l as [|a r IH]; intros D Hnd Hf; simpl.
  - now rewrite app_nil_r.
  - inversion Hnd as [|? ? Ha Hr]; subst.
    rewrite (set_fresh D a (g a)) by (apply Hf; now left).
    rewrite IH; [now rewrite <- app_assoc | assumption|].
    intros d Hd. rewrite <- set_fresh by (apply Hf; now left).
    rewrite get_set_other; [apply Hf; now right|].
    intros ->. contradiction.
Qed.

Lemma days_1_100_NoDup : NoDup (map Z.of_nat (seq 1 100)).
Proof.
  generalize (seq_NoDup 100 1). generalize (seq 1 100).
  induction 1 as [|n l Hn _ IH]; simpl; constructor; [|assumption].
  intros H. apply in_map_iff in H as [k [E Hk]].
  apply Nat2Z.inj in E. now subst k.
Qed.

Lemma load_days_fresh :
  load_days [] = map (fun d => (d, WorkshopDay_init d))
                     (map Z.of_nat (seq 1 100)).
Proof.
  unfold load_days.
  rewrite (fold_set_fresh WorkshopDay_init _ [] days_1_100_NoDup);
    [reflexivity | reflexivity].
Qed.

Lemma loaded_days_keys :
  PyDict.keys (load_days []) = map Z.of_nat (seq 1 100).
Proof.
  rewrite load_days_fresh. unfold PyDict.keys. rewrite map_map.
  exact (map_id _).
Qed.

(** The repository of a manager that loaded its data once. *)
Lemma loaded_families rows f :
  In f (PyDict.values (load_families rows [])) ->
  exists row, In row rows /\
              f = Family_init (familyID row) (nrMembers row)
                              (row_preferences row) /\
              PyDict.get (familyID row) (load_families rows []) = Some f.
Proof.
  intros H. unfold PyDict.values in H.
  apply in_map_iff in H as [[k f'] [E Hin]]. simpl in E. subst f'.
  apply In_get in Hin; [|apply load_families_keys; constructor].
  pose proof Hin as G. rewrite load_families_get in G.
  destruct (find (fun r => familyID r =? k) (rev rows)) as [r|] eqn:Ef;
    [|discriminate].
  apply find_some in Ef as [Hr Er]. apply Z.eqb_eq in Er.
  injection G as <-. exists r. split; [now apply in_rev|].
  split; [reflexivity|]. rewrite Er at 1. exact Hin.
Qed.

Lemma loaded_ids_NoDup rows :
  NoDup (map id (PyDict.values (load_families rows []))).
Proof.
  assert (K : NoDup (PyDict.keys (load_families rows [])))
    by (apply load_families_keys; constructor).
  assert (E : map id (PyDict.values (load_families rows []))
              = PyDict.keys (load_families rows [])).
  { unfold PyDict.values, PyDict.keys. rewrite map_map.
    apply map_ext_in. intros [k f] Hin. simpl.
    apply (In_get _ _ _ K) in Hin. rewrite load_families_get in Hin.
    destruct (find (fun r => familyID r =? k) (rev rows)) as [r|] eqn:Ef;
      [|discriminate].
    apply find_some in Ef as [_ Er]. apply Z.eqb_eq in Er.
    injection Hin as <-. exact Er. }
  now rewrite E.
Qed.

(** X15. After [load_data] on a new manager the entities are well formed:
    the families passed to the solver have distinct identifiers, ten
    preferences each and no assigned day; the days are exactly 1 to 100 in
    order, all empty, and every day carries the total size of its members.
    If moreover every preferred day of every row lies in 1 to 100, the
    model of these entities is built to the end. *)
Theorem X15_loaded_entities_well_formed rows :
  let s := core (fst (load_data rows SolutionManager_init)) in
  NoDup (map id (PyDict.values (families s))) /\
  (forall f, In f (PyDict.values (families s)) ->
             List.length (preferences f) = 10%nat /\ assigned_day f = -1 /\
             exists row, In row rows /\ id f = familyID row /\
                         n_members f = nrMembers row /\
                         preferences f = row_preferences row) /\
  PyDict.keys (days s) = map Z.of_nat (seq 1 100) /\
  (forall wd, In wd (PyDict.values (days s)) ->
              assigned_families wd = [] /\ current_occupancy wd = 0) /\
  occupancy_consistent s /\
  ((forall row i, In row rows -> (i < 10)%nat ->
                  1 <= day_column row i <= 100) ->
   exists m, formulate (PyDict.values (families s)) (PyDict.keys (days s))
             = (m, None)).
Proof.
  cbv zeta. unfold load_data, SolutionManager_init.
  cbn [fst core input_data families days solver_engine].
  rewrite load_days_fresh.
  assert (KD : PyDict.keys (map (fun d => (d, WorkshopDay_init d))
                                (map Z.of_nat (seq 1 100)))
               = map Z.of_nat (seq 1 100)).
  { unfold PyDict.keys. rewrite map_map. exact (map_id _). }
  assert (VD : forall wd,
             In wd (PyDict.values (map (fun d => (d, WorkshopDay_init d))
                                       (map Z.of_nat (seq 1 100)))) ->
             assigned_families wd = [] /\ current_occupancy wd = 0).
  { intros wd H. unfold PyDict.values in H. rewrite map_map in H.
    apply in_map_iff in H as [d [<- _]]. split; reflexivity. }
  split; [apply loaded_ids_NoDup|].
  split; [|split; [exact KD | split; [exact VD | split]]].
  - intros f Hf. destruct (loaded_families rows f Hf) as (row & Hr & -> & _).
    split; [reflexivity|]. split; [reflexivity|].
    exists row. repeat split. assumption.
  - intros d wd G. apply get_In in G.
    destruct (VD wd) as [-> ->].
    + unfold PyDict.values. apply in_map_iff. exists (d, wd). auto.
    + reflexivity.
  - intros Hrange. rewrite KD.
    destruct (formulate_completes
                (PyDict.values (load_families rows []))
                (map Z.of_nat (seq 1 100)))
      as (obj & c1 & dm & c2 & c3 & _ & _ & _ & _ & _ & _ & _ & F).
    + intros f Hf. destruct (loaded_families rows f Hf) as (row & _ & -> & _).
      simpl. lia.
    + intros f d Hf Hd.
      destruct (loaded_families rows f Hf) as (row & Hr & -> & _).
      unfold Family_init in Hd. cbn [preferences] in Hd.
      unfold row_preferences in Hd.
      apply in_map_iff in Hd as [i [<- Hi]]. apply in_seq in Hi.
      apply In_days_1_100. apply Hrange; [assumption | lia].
    + eauto.
Qed.

Lemma get_solution_map F k :
  PyDict.get k (solution_map F) = option_map assigned_day (PyDict.get k F).
Proof.
  unfold solution_map. induction F as [|[k' f] r IH]; simpl; [reflexivity|].
  destruct (k' =? k); [reflexivity | exact IH].
Qed.

(** X16. [generate_submission] writes nothing when no data was loaded.
    Otherwise it writes one line per input row, in input order and with the
    input columns as they were; the solution of a row is ['x'] when the
    family stored under its identifier has no assigned day ([-1]), the
    assigned day otherwise, and NaN only when no family is stored under the
    identifier. *)
Theorem X16_submission_table mgr :
  (input_data mgr = None -> fst (generate_submission mgr) = None) /\
  (forall rows,
      input_data mgr = Some rows ->
      exists table,
        fst (generate_submission mgr) = Some table /\
        map fst table = rows /\
        forall row cell,
          In (row, cell) table ->
          match PyDict.get (familyID row) (families (core mgr)) with
          | Some f => cell = if assigned_day f =? -1 then cell_x
                             else cell_day (assigned_day f)
          | None => cell = cell_nan
          end).
Proof.
  unfold generate_submission. split.
  - intros ->. reflexivity.
  - intros rows ->. eexists. split; [reflexivity|]. split.
    + rewrite map_map. simpl. apply map_id.
    + intros row cell H. apply in_map_iff in H as [r [[= <- <-] _]].
      unfold solution_of. rewrite get_solution_map.
      destruct (PyDict.get (familyID r) (families (core mgr))); reflexivity.
Qed.

(* --------------------------------------------------------------------- *)

Lemma loaded_row_family rows row :
  In row rows ->
  exists row',
    In row' rows /\ familyID row' = familyID row /\
    PyDict.get (familyID row) (load_families rows [])
    = Some (Family_init (familyID row') (nrMembers row')
                        (row_preferences row')).
Proof.
  intros Hrow. rewrite load_families_get.
  destruct (find (fun r => familyID r =? familyID row) (rev rows))
    as [r|] eqn:E.
  - apply find_some in E as [Hr Er]. apply Z.eqb_eq in Er.
    exists r. split; [now apply in_rev|]. auto.
  - exfalso.
    pose proof (find_none _ _ E row (proj1 (in_rev _ _) Hrow)) as N.
    simpl in N. now rewrite Z.eqb_refl in N.
Qed.

Lemma main_try_run o rows :
  main_try o rows
  = let s := mkManager (load_families rows []) (load_days []) SantaSolver_init in
    let io1 := [MsgLoadingData;
                MsgFamiliesLoaded
                  (Z.of_nat (List.length (load_families rows [])))] in
    match solve o (mkWorld s []) with
    | (Raised e, w') => (Raised e, trace w', io1)
    | (Returned _, w') =>
        (Returned
           (Some (map (fun row =>
                         (row, solution_of (solution_map (families (self w')))
                                           row)) rows)),
         trace w',
         io1 ++ [MsgSavingResults; MsgSubmissionSaved; MsgFormat])
    end.
Proof.
  unfold main_try, load_data, SolutionManager_init.
  cbn [core families days solver_engine input_data].
  destruct (solve o _) as [[u|e] w']; reflexivity.
Qed.

(** X17. A whole run on freshly loaded rows whose solve ends with a
    rejected verdict writes a submission in which every row, unchanged and
    in input order, has the solution ['x']. *)
Theorem X17_rejected_run_marks_every_row o rows :
  let s := core (fst (load_data rows SolutionManager_init)) in
  fst (SantaSolver_solve o (PyDict.values (families s))
                         (PyDict.keys (days s)) (mkWorld s []))
  = Returned false ->
  fst (fst (main_try o rows))
  = Returned (Some (map (fun row => (row, cell_x)) rows)).
Proof.
  cbv zeta. unfold load_data, SolutionManager_init.
  cbn [fst core families days solver_engine input_data]. intros H.
  rewrite main_try_run. cbv zeta.
  destruct (solve_rejected
              o (mkWorld (mkManager (load_families rows []) (load_days [])
                                    SantaSolver_init) []) H)
    as (w' & Hs & Hf & _).
  rewrite Hs. cbn [fst]. do 2 f_equal. apply map_ext_in. intros row Hrow.
  f_equal. unfold solution_of. rewrite get_solution_map, Hf.
  cbn [self families].
  destruct (loaded_row_family rows row Hrow) as (row' & _ & _ & ->).
  reflexivity.
Qed.

(** X18. A whole run on freshly loaded rows, when the model is built and
    the solver returns an accepted termination condition with a value on
    every decision variable: the run raises nothing, and the submission
    holds every row, unchanged and in input order, with the day extracted
    for its family, or ['x'] when none was extracted.  Every extracted day
    is a day between 1 and 100 whose variable has a value above 0.5 and
    which some row with that identifier lists among its ten days. *)
Theorem X18_accepted_run_submits_extracted_days o rows m res xv zv :
  let s := core (fst (load_data rows SolutionManager_init)) in
  formulate (PyDict.values (families s)) (PyDict.keys (days s)) = (m, None) ->
  o cbc m = Returned (res, (xv, zv)) ->
  accepted (termination_condition res) = true ->
  (forall p, In p (Assignments m) -> xv p <> None) ->
  exists raw,
    raw_loop (Assignments m) xv [] = Returned raw /\
    fst (fst (main_try o rows))
    = Returned
        (Some (map (fun row =>
                      (row, match PyDict.get (familyID row) raw with
                            | Some d => cell_day d
                            | None => cell_x
                            end)) rows)) /\
    forall k d,
      PyDict.get k raw = Some d ->
      1 <= d <= 100 /\ exceeds_half (xv (k, d)) = true /\
      exists row, In row rows /\ familyID row = k /\
                  In d (row_preferences row).
Proof.
  cbv zeta. unfold load_data, SolutionManager_init.
  cbn [fst core families days solver_engine input_data].
  intros F O A V.
  set (s := mkManager (load_families rows []) (load_days []) SantaSolver_init)
    in *.
  assert (D : days (self (mkWorld s [])) <> [])
    by (simpl; rewrite load_days_fresh; discriminate).
  destruct (solve_accepted o (mkWorld s []) m res xv zv F O A V D)
    as (w' & raw & Hs & R & Hf).
  assert (E : forall k d,
             PyDict.get k raw = Some d ->
             1 <= d <= 100 /\ exceeds_half (xv (k, d)) = true /\
             exists row, In row rows /\ familyID row = k /\
                         In d (row_preferences row)).
  { intros k d G.
    destruct (raw_loop_entries _ _ _ _ R k d G) as [G'|[HA Hx]];
      [discriminate|].
    destruct (formulate_ok _ _ _ F)
      as (obj & c1 & dm & c2 & c3 & _ & _ & Hdm & _ & _ & ->).
    simpl in HA.
    apply (proj1 (pyo_Set_In pair_eqb pair_eqb_eq _ _)) in HA.
    apply valid_assignments_In in HA as (f & Hfam & Hid & Hp).
    pose proof (day_demand_map_range _ _ _ Hdm f d Hfam Hp) as Hk.
    unfold s in Hk. cbn [self days] in Hk. rewrite loaded_days_keys in Hk.
    apply In_days_1_100 in Hk.
    split; [assumption|]. split; [assumption|].
    destruct (loaded_families rows f Hfam) as (row & Hrow & -> & _).
    exists row. auto. }
  exists raw. split; [exact R|]. split; [|exact E].
  rewrite main_try_run. cbv zeta. fold s. rewrite Hs. cbn [fst].
  do 2 f_equal. apply map_ext_in. intros row Hrow. f_equal.
  unfold solution_of. rewrite get_solution_map.
  destruct (loaded_row_family rows row Hrow) as (row' & _ & _ & G).
  rewrite (Hf _ _ G). cbn [option_map assigned_day assign_to].
  destruct (PyDict.get (familyID row) raw) as [d|] eqn:Gr; [|reflexivity].
  destruct (E _ _ Gr) as [Hd _].
  destruct (d =? -1) eqn:B; [apply Z.eqb_eq in B; lia | reflexivity].
Qed.

(* --------------------------------------------------------------------- *)

(** The construction stops at the demand map when a family with one to ten
    preferences lists a day outside the range. *)
Lemma formulate_interrupted fams days_range :
  (forall f, In f fams ->
             (1 <= List.length (preferences f) <= 10)%nat) ->
  (exists f d, In f fams /\ In d (preferences f) /\ ~ In d days_range) ->
  exists m, formulate fams days_range = (m, Some KeyError).
Proof.
  intros Hlen (f & d & Hf & Hd & Nd).
  destruct (objective_families_ranked fams (Num 0)) as [obj [Ho _]];
    [intros g Hg; apply Hlen; assumption|].
  destruct (pyo_Constraint_every_index
              (pyo_Set Z.eqb (map id fams)) (one_day_rule fams))
    as [c1 [H1 _]].
  { intros i Hi. apply (proj1 (pyo_Set_In Z.eqb Z.eqb_eq _ _)) in Hi.
    destruct (find_by_id fams i Hi) as (g & Eg & Hg & _).
    unfold one_day_rule. rewrite Eg.
    specialize (Hlen g Hg).
    destruct (preferences g) as [|a r]; [simpl in Hlen; lia|].
    simpl map. rewrite py_compare_sum_nonempty. eauto. }
  assert (Hdm : day_demand_map fams days_range = Raised KeyError).
  { destruct (day_demand_map fams days_range) as [dm|e] eqn:E.
    - exfalso. apply Nd. exact (day_demand_map_range _ _ _ E f d Hf Hd).
    - f_equal. eapply demand_families_KeyError. exact E. }
  unfold formulate, objective_rule. cbv zeta. rewrite Ho.
  change (Families (with_Obj (sets_and_variables fams days_range) obj))
    with (pyo_Set Z.eqb (map id fams)).
  rewrite H1, Hdm. eauto.
Qed.

Lemma NoDup_map_eq {A : Type} (g : A -> Z) l a b :
  NoDup (map g l) -> In a l -> In b l -> g a = g b -> a = b.
Proof.
  induction l as [|c r IH]; simpl; intros Hnd Ha Hb E; [contradiction|].
  inversion Hnd as [|? ? Hc Hr]; subst.
  destruct Ha as [->|Ha], Hb as [->|Hb]; auto.
  - exfalso. apply Hc. rewrite E. now apply in_map.
  - exfalso. apply Hc. rewrite <- E. now apply in_map.
Qed.

(** X19. A whole run on freshly loaded rows with distinct identifiers, one
    of which has a day outside 1 to 100, is aborted by a [KeyError] while
    the model is built: the solver is never called and no submission is
    written. *)
Theorem X19_day_out_of_range_aborts o rows row i :
  NoDup (map familyID rows) ->
  In row rows -> (i < 10)%nat ->
  ~ (1 <= day_column row i <= 100) ->
  fst (fst (main_try o rows)) = Raised KeyError /\
  submissions (snd (fst (main_try o rows))) = [].
Proof.
  intros Hnd Hrow Hi Hout. rewrite main_try_run. cbv zeta.
  rewrite solve_run, SantaSolver_solve_run. cbv zeta. cbn [self families days].
  destruct (formulate_interrupted
              (PyDict.values (load_families rows []))
              (PyDict.keys (load_days [])))
    as [m F].
  - intros f Hf. destruct (loaded_families rows f Hf) as (r & _ & -> & _).
    simpl. lia.
  - destruct (loaded_row_family rows row Hrow) as (row' & Hr' & Er & G).
    assert (row' = row) by (eapply NoDup_map_eq; eauto). subst row'.
    exists (Family_init (familyID row) (nrMembers row) (row_preferences row)),
           (day_column row i).
    split; [|split].
    + apply get_In in G. unfold PyDict.values. apply in_map_iff.
      eexists. split; [|exact G]. reflexivity.
    + unfold Family_init. cbn [preferences]. unfold row_preferences.
      apply in_map. apply in_seq. lia.
    + rewrite loaded_days_keys. intros H. apply In_days_1_100 in H.
      contradiction.
  - rewrite F. split; reflexivity.
Qed.

(* ===================================================================== *)
(** ** The further properties on the instance                             *)
(* ===================================================================== *)

Lemma occupancy_consistentb_spec s :
  occupancy_consistentb s = true -> occupancy_consistent s.
Proof.
  unfold occupancy_consistentb, occupancy_consistent.
  rewrite forallb_forall. intros H d wd G.
  apply get_In in G. specialize (H _ G). simpl in H.
  now apply Z.eqb_eq in H.
Qed.

Lemma Instance_loaded : Instance.loaded = Scenario.manager.
Proof. vm_compute. reflexivity. Qed.

Lemma X3_day_demand_map_contents_witness :
  exists demand,
    PyDict.get 5 Instance.demand = Some demand /\
    (forall f, In f demand <-> In f Scenario.fams /\ In 5 (preferences f)) /\
    ((forall f, In f Scenario.fams -> NoDup (preferences f)) ->
     demand = filter (fun f => lists f 5) Scenario.fams).
Proof.
  apply (X3_day_demand_map_contents
           Scenario.fams Scenario.days_range Instance.demand 5).
  - vm_compute. reflexivity.
  - vm_compute. do 4 right. left. reflexivity.
Defined.

Lemma X4_formulate_completes_witness :
  exists m obj c1 c2 c3,
    formulate Scenario.fams Scenario.days_range = (m, None) /\
    Obj m = Some (obj, maximize) /\
    OneDay m = Some c1 /\ map fst c1 = Families m /\
    MinOpen m = Some c2 /\ map fst c2 = Days m /\
    MaxOpen m = Some c3 /\
    (forall d, In d (map fst c3)
               <-> In d Scenario.days_range /\
                   exists f, In f Scenario.fams /\ In d (preferences f)).
Proof.
  apply (X4_formulate_completes Scenario.fams Scenario.days_range).
  - intros f H. in_fams H; simpl; lia.
  - intros f d H Hd.
    change Scenario.days_range with (map Z.of_nat (seq 1 100)).
    apply In_days_1_100. in_fams H; simpl in Hd; lia.
Defined.

Lemma X5_indicator_matches_occupancy_witness :
  Scenario.both_on_5 (var_z 5) = 1 /\
  MIN_CAPACITY <= occupancy Scenario.both_on_5 Scenario.fams 5
  <= MAX_CAPACITY.
Proof.
  split; [reflexivity|].
  apply (X5_indicator_matches_occupancy
           Scenario.fams Scenario.days_range Scenario.built
           Scenario.both_on_5 5).
  - vm_compute. reflexivity.
  - intros f H. in_fams H; simpl;
      repeat (constructor; [simpl; lia|]); constructor.
  - apply binary_onb_spec. vm_compute. reflexivity.
  - vm_compute. reflexivity.
  - vm_compute. reflexivity.
  - vm_compute. do 4 right. left. reflexivity.
  - reflexivity.
Defined.

Lemma X6_objective_bounds_witness :
  exists obj,
    Obj Scenario.built = Some (obj, maximize) /\
    0 <= eval Scenario.both_on_5 obj
    <= 100 * Z.of_nat (List.length Scenario.fams).
Proof.
  apply (X6_objective_bounds
           Scenario.fams Scenario.days_range Scenario.built
           Scenario.both_on_5).
  - vm_compute. reflexivity.
  - vm_compute. repeat (constructor; [simpl; lia|]). constructor.
  - apply binary_onb_spec. vm_compute. reflexivity.
  - vm_compute. reflexivity.
Defined.

Lemma X7_extracted_pairs_are_valid_witness :
  NoDup (PyDict.keys [(1, 6)]) /\
  (forall k d, In (k, d) (PyDict.items [(1, 6)]) ->
               selected Scenario.two_days_for_1 k d).
Proof.
  destruct (X7_extracted_pairs_are_valid
              (mkSolver (Some Scenario.two_days_for_1) None)
              Scenario.two_days_for_1 [(1, 6)]) as (H1 & H2 & _).
  - reflexivity.
  - vm_compute. reflexivity.
  - split; assumption.
Defined.

Lemma X9_apply_results_assigns_witness :
  exists raw,
    get_raw_assignments (solver_engine (self Instance.solved_once))
    = Returned raw /\
    forall k f,
      PyDict.get k (families (self Instance.solved_once)) = Some f ->
      PyDict.get k (families (self Instance.applied_twice))
      = Some (assign_to f (match PyDict.get k raw with
                           | Some d => d
                           | None => -1
                           end)).
Proof.
  destruct (X9_apply_results_assigns
              Instance.solved_once Instance.applied_twice)
    as (raw & R & A & _).
  - vm_compute. reflexivity.
  - exists raw. split; assumption.
Defined.

Lemma X10_occupancy_matches_membership_witness :
  occupancy_consistent (self Instance.applied_twice) /\
  occupancy_consistent
    (self (snd (solve Scenario.optimal_oracle Instance.solved_once))).
Proof.
  apply (X10_occupancy_matches_membership
           Scenario.optimal_oracle Instance.solved_once).
  apply occupancy_consistentb_spec. vm_compute. reflexivity.
Defined.

Lemma X11_days_only_grow_witness :
  exists wd' added,
    PyDict.get 5 (days (self Instance.applied_twice)) = Some wd' /\
    assigned_families wd' = [1; 2] ++ added /\
    current_occupancy wd'
    = 300 + members_size (families (self Instance.solved_once)) added.
Proof.
  destruct (X11_days_only_grow Instance.solved_once 5
                               (mkWorkshopDay 5 [1; 2] 300))
    as (wd' & added & G & A & O & _).
  - vm_compute. reflexivity.
  - exists wd', added. repeat split; assumption.
Defined.

Lemma X12_accepted_run_completes_witness :
  exists w',
    solve Scenario.optimal_oracle (mkWorld Scenario.manager [])
    = (Returned tt, w').
Proof.
  apply (X12_accepted_run_completes
           Scenario.optimal_oracle (mkWorld Scenario.manager [])
           Scenario.built (mkResults optimal) Instance.xv Instance.zv).
  - vm_compute. reflexivity.
  - reflexivity.
  - reflexivity.
  - intros p _. unfold Instance.xv. discriminate.
  - vm_compute. discriminate.
Defined.

Lemma X17_rejected_run_marks_every_row_witness :
  fst (fst (main_try Scenario.infeasible_oracle Instance.rows))
  = Returned (Some (map (fun row => (row, cell_x)) Instance.rows)).
Proof.
  apply (X17_rejected_run_marks_every_row
           Scenario.infeasible_oracle Instance.rows).
  vm_compute. reflexivity.
Defined.

Lemma X18_accepted_run_submits_extracted_days_witness :
  exists raw,
    raw_loop (Assignments Scenario.built) Instance.xv [] = Returned raw /\
    fst (fst (main_try Scenario.optimal_oracle Instance.rows))
    = Returned
        (Some (map (fun row =>
                      (row, match PyDict.get (familyID row) raw with
                            | Some d => cell_day d
                            | None => cell_x
                            end)) Instance.rows)).
Proof.
  destruct (X18_accepted_run_submits_extracted_days
              Scenario.optimal_oracle Instance.rows Scenario.built
              (mkResults optimal) Instance.xv Instance.zv)
    as (raw & R & S & _).
  - vm_compute. reflexivity.
  - reflexivity.
  - reflexivity.
  - intros p _. unfold Instance.xv. discriminate.
  - exists raw. split; assumption.
Defined.

Lemma X19_day_out_of_range_aborts_witness :
  fst (fst (main_try Scenario.optimal_oracle Instance.rows_out_of_range))
  = Raised KeyError /\
  submissions
    (snd (fst (main_try Scenario.optimal_oracle Instance.rows_out_of_range)))
  = [].
Proof.
  apply (X19_day_out_of_range_aborts
           Scenario.optimal_oracle Instance.rows_out_of_range
           (mkRow 2 150
                  (fun i => nth i [5; 15; 16; 17; 18; 19; 20; 21; 22; 101] 0))
           9%nat).
  - vm_compute. repeat (constructor; [simpl; lia|]). constructor.
  - right. left. reflexivity.
  - lia.
  - simpl. lia.
Defined.

Lemma X20_insufficient_demand_closes_day_witness :
  occupancy (fun _ => 0) Instance.lone_family 1 = 0 /\
  forall f, In f Instance.lone_family -> In 1 (preferences f) ->
            (fun _ : var => 0) (var_x (id f) 1) = 0.
Proof.
  destruct (X20_insufficient_demand_closes_day
              Instance.lone_family Scenario.days_range Instance.lone_model
              (fun _ => 0) 1) as (_ & O & X).
  - vm_compute. reflexivity.
  - intros f [<-|[]]. simpl.
    repeat (constructor; [simpl; lia|]). constructor.
  - intros f [<-|[]]. simpl. lia.
  - apply binary_onb_spec. vm_compute. reflexivity.
  - vm_compute. reflexivity.
  - vm_compute. reflexivity.
  - vm_compute. left. reflexivity.
  - vm_compute. reflexivity.
  - split; assumption.
Defined.

Lemma X21_rule_respecting_assignment_is_feasible_witness :
  binary_on (assignment_valuation Instance.everyone_on_5 Scenario.fams)
            Scenario.built /\
  satisfies (assignment_valuation Instance.everyone_on_5 Scenario.fams)
            (OneDay Scenario.built) = true /\
  satisfies (assignment_valuation Instance.everyone_on_5 Scenario.fams)
            (MinOpen Scenario.built) = true /\
  satisfies (assignment_valuation Instance.everyone_on_5 Scenario.fams)
            (MaxOpen Scenario.built) = true.
Proof.
  apply (X21_rule_respecting_assignment_is_feasible
           Scenario.fams Scenario.days_range Scenario.built
           Instance.everyone_on_5).
  - vm_compute. reflexivity.
  - intros f H. in_fams H; simpl;
      repeat (constructor; [simpl; lia|]); constructor.
  - intros d Hd.
    assert (B : forallb
                  (fun d =>
                     let o := occupancy
                                (assignment_valuation Instance.everyone_on_5
                                                      Scenario.fams)
                                Scenario.fams d in
                     (o =? 0) || ((100 <=? o) && (o <=? 300)))
                  Scenario.days_range = true)
      by (vm_compute; reflexivity).
    rewrite forallb_forall in B. specialize (B d Hd). cbv zeta in B.
    unfold MIN_CAPACITY, MAX_CAPACITY.
    apply orb_true_iff in B as [B|B]; [left; now apply Z.eqb_eq|].
    apply andb_true_iff in B as [B1 B2]. right. split; lia.
Defined.

Lemma X22_feasible_occupancy_semicontinuous_witness :
  count_occ Z.eq_dec [5; 5; 6; 7; 8; 9; 10; 11; 12; 13] 5 = 2%nat /\
  occupancy (Instance.only_on_5 2) Instance.repeated_day_pair 5 = 150 /\
  (forall f, In f Instance.repeated_day_pair ->
             (1 < count_occ Z.eq_dec (preferences f) 5%Z)%nat ->
             Instance.only_on_5 2 (var_x (id f) 5) = 0) /\
  (occupancy (Instance.only_on_5 2) Instance.repeated_day_pair 5 = 0 \/
   MIN_CAPACITY
   <= occupancy (Instance.only_on_5 2) Instance.repeated_day_pair 5
   <= MAX_CAPACITY).
Proof.
  split; [reflexivity|]. split; [reflexivity|].
  apply (X22_feasible_occupancy_semicontinuous
           Instance.repeated_day_pair Scenario.days_range
           Instance.repeated_day_pair_model (Instance.only_on_5 2) 5).
  - vm_compute. reflexivity.
  - repeat (constructor; [simpl; lia|]). constructor.
  - apply binary_onb_spec. vm_compute. reflexivity.
  - vm_compute. reflexivity.
  - vm_compute. reflexivity.
  - vm_compute. reflexivity.
Defined.
